(** * p001-stream-server: the streaming agent and its reconnect supervision

    A shallow embedding of the four variants of [VideoStreamServer]
    ([main.py], [main_my4.py], [server3.py], [server4.py]) and the
    properties of the specification checked against them.

    Python objects are explicit records, [await] points are the places
    where control can change hands, external libraries (OpenCV, json,
    websockets, the clock) are interfaces or scripted outcomes, and every
    observable action (log record, message put on the wire, sleep) is an
    event of a trace. *)

From Stdlib Require Import ZArith Lia.
From stdpp Require Import base option list strings pretty.

Open Scope string_scope.
Open Scope list_scope.
Open Scope Z_scope.

Set Warnings "-register-all".

(** ** Python values, as [json.loads] produces them *)

Inductive pyval : Type :=
| PyNone
| PyBool (b : bool)
| PyInt (n : Z)
| PyFloat (mantissa exponent : Z)      (* mantissa * 10 ^ exponent *)
| PyStr (s : string)
| PyList (items : list pyval)
| PyDict (items : list (string * pyval)).

(** [bool(v)]: what [if v:] tests. *)
Definition truthy (v : pyval) : bool :=
  match v with
  | PyNone => false
  | PyBool b => b
  | PyInt n => negb (n =? 0)
  | PyFloat m _ => negb (m =? 0)
  | PyStr s => negb (String.eqb s "")
  | PyList l => match l with [] => false | _ => true end
  | PyDict l => match l with [] => false | _ => true end
  end.

(** [v == s] for a [str] [s]. *)
Definition py_eq_str (v : pyval) (s : string) : bool :=
  match v with
  | PyStr t => String.eqb t s
  | _ => false
  end.

Fixpoint assoc (k : string) (kv : list (string * pyval)) : option pyval :=
  match kv with
  | [] => None
  | (k', v) :: rest => if String.eqb k' k then Some v else assoc k rest
  end.

(** ** Exceptions and results *)

Inductive exn : Type :=
| ConnectionClosed                 (* websockets.exceptions.ConnectionClosed *)
| KeyboardInterrupt                (* a BaseException that is no Exception *)
| PyError (cls : string).          (* any other subclass of Exception *)

Definition is_Exception (e : exn) : bool :=
  match e with
  | KeyboardInterrupt => false
  | _ => true
  end.

Definition is_ConnectionClosed (e : exn) : bool :=
  match e with
  | ConnectionClosed => true
  | _ => false
  end.

Definition is_KeyboardInterrupt (e : exn) : bool :=
  match e with
  | KeyboardInterrupt => true
  | _ => false
  end.

(** A call returns, raises, or never comes back ([Hang]: the scripted
    outcomes of the outside world, or the fuel of a loop, ran out). *)
Inductive res (A : Type) : Type :=
| Ok (a : A)
| Raise (e : exn)
| Hang.
Arguments Ok {A} a.
Arguments Raise {A} e.
Arguments Hang {A}.

(** [data.get(key, default)]; on a value that is no dict the attribute
    lookup raises. *)
Definition py_get (data : pyval) (key : string) (default : pyval) : res pyval :=
  match data with
  | PyDict kv => Ok (match assoc key kv with Some v => v | None => default end)
  | _ => Raise (PyError "AttributeError")
  end.

(** ** Observable events *)

Inductive level : Type := DEBUG | INFO | WARNING | ERROR.

Inductive logmsg : Type :=
| StartingServer
| ConnectedToRelay
| Registered (server_id : string)
| FailedToOpenCamera
| FailedToOpenVideo
| CameraInitialized
| FailedToReadFrame
| EndOfVideo
| FrameCaptured (count : nat)
| SelectionChanged (old new : pyval)
| SelectionNow (new : pyval)
| ErrorHandlingMessage (e : exn)
| ErrorProcessingHighQuality (e : exn)
| ErrorDuringStreaming (e : exn)
| WebSocketClosed
| FailedToConnect (e : exn)
| AttemptingReconnect
| ReconnectionFailed (e : exn)
| ShuttingDown
| ServerError (e : exn).

(** The JSON objects put on the wire ([json.dumps] of a dict). *)
Inductive wire : Type :=
| Register (server_id name : string)
| Stream (server_id data : string) (is_selected : option pyval).

Inductive event : Type :=
| EvLog (l : level) (m : logmsg)
| EvConnect                          (* websockets.connect(...) is called *)
| EvSend (m : wire)                  (* relay_ws.send(json.dumps(m)) is called *)
| EvSleep (ms : Z).                  (* asyncio.sleep, in milliseconds *)

(** ** The external libraries *)

Inductive interpolation : Type := INTER_LINEAR | INTER_AREA | INTER_LANCZOS4.

Inductive imwrite_flag : Type :=
| IMWRITE_JPEG_QUALITY | IMWRITE_JPEG_OPTIMIZE | IMWRITE_JPEG_PROGRESSIVE.

(** OpenCV and base64, on an abstract type of frames and of encoded
    buffers.  Every OpenCV call may raise. *)
Class Cv2 (frame jpeg : Type) : Type := {
  cv_resize : frame -> Z * Z -> interpolation -> res frame;
  cv_fastNlMeansDenoisingColored : frame -> Z -> Z -> Z -> Z -> res frame;
  cv_filter2D : frame -> list (list Z) -> res frame;
  cv_imencode : frame -> list (imwrite_flag * Z) -> res jpeg;
  b64encode : jpeg -> string
}.

(** [json.loads]: [None] when it raises [JSONDecodeError]. *)
Class Json : Type := {
  json_loads : string -> option pyval
}.

(** What successive [cap.read()] calls give. *)
Inductive read_outcome (frame : Type) : Type :=
| Grab (f : frame)                   (* (True, f) *)
| NoFrame                            (* (False, None) *)
| ReadRaises (e : exn).
Arguments Grab {frame} f.
Arguments NoFrame {frame}.
Arguments ReadRaises {frame} e.

(** A capture object: a live device yields a scripted sequence of
    outcomes (and blocks when the script is over); a video file yields its
    frames in order and then [(False, None)], and can be repositioned. *)
Inductive capture (frame : Type) : Type :=
| Unopened
| Device (script : list (read_outcome frame))
| File (frames : list frame) (pos : nat).
Arguments Unopened {frame}.
Arguments Device {frame} script.
Arguments File {frame} frames pos.

Definition isOpened {frame} (c : capture frame) : bool :=
  match c with
  | Unopened => false
  | _ => true
  end.

Definition cap_read {frame} (c : capture frame) : res (option frame) * capture frame :=
  match c with
  | Unopened => (Ok None, c)
  | Device [] => (Hang, c)
  | Device (Grab f :: rest) => (Ok (Some f), Device rest)
  | Device (NoFrame :: rest) => (Ok None, Device rest)
  | Device (ReadRaises e :: rest) => (Raise e, Device rest)
  | File frames pos =>
      match frames !! pos with
      | Some f => (Ok (Some f), File frames (S pos))
      | None => (Ok None, c)
      end
  end.

(** [cap.set(cv2.CAP_PROP_POS_FRAMES, 0)] *)
Definition cap_rewind {frame} (c : capture frame) : capture frame :=
  match c with
  | File frames _ => File frames 0
  | _ => c
  end.

(** An awaited network operation completes or raises. *)
Inductive io : Type :=
| Completed
| Raised (e : exn).

(** ** A monad for one coroutine: state, trace, exceptions *)

Definition M (S A : Type) : Type := S -> res A * S * list event.

Definition ret {S A} (a : A) : M S A := fun s => (Ok a, s, []).

Definition bind {S A B} (m : M S A) (k : A -> M S B) : M S B :=
  fun s =>
    match m s with
    | (Ok a, s1, t1) => let '(r, s2, t2) := k a s1 in (r, s2, t1 ++ t2)
    | (Raise e, s1, t1) => (Raise e, s1, t1)
    | (Hang, s1, t1) => (Hang, s1, t1)
    end.

Definition raise {S A} (e : exn) : M S A := fun s => (Raise e, s, []).
Definition hang {S A} : M S A := fun s => (Hang, s, []).
Definition emit {S} (e : event) : M S unit := fun s => (Ok tt, s, [e]).
Definition log {S} (l : level) (m : logmsg) : M S unit := emit (EvLog l m).
Definition gets {S A} (f : S -> A) : M S A := fun s => (Ok (f s), s, []).
Definition modify {S} (f : S -> S) : M S unit := fun s => (Ok tt, f s, []).
Definition lift {S A} (r : res A) : M S A := fun s => (r, s, []).

(** [try: m except <clauses>]: the first clause whose class matches the
    exception handles it; an exception no clause matches propagates. *)
Fixpoint dispatch {S A} (e : exn) (clauses : list ((exn -> bool) * (exn -> M S A)))
  : M S A :=
  match clauses with
  | [] => raise e
  | (matches, handler) :: rest =>
      if matches e then handler e else dispatch e rest
  end.

Definition try_except {S A} (m : M S A)
    (clauses : list ((exn -> bool) * (exn -> M S A))) : M S A :=
  fun s =>
    match m s with
    | (Raise e, s1, t1) => let '(r, s2, t2) := dispatch e clauses s1 in (r, s2, t1 ++ t2)
    | other => other
    end.

Declare Scope py_scope.
Delimit Scope py_scope with py.
Notation "x <- m ;; k" := (bind m (fun x => k))
  (at level 100, m at next level, k at level 200, right associativity) : py_scope.
Notation "m ;; k" := (bind m (fun _ => k))
  (at level 100, k at level 200, right associativity) : py_scope.
Open Scope py_scope.

(** [(t2 - t1).seconds] of a timedelta, times in whole seconds. *)
Definition seconds (delta : Z) : Z := delta mod 86400.

Definition zoom {S T A} (m : M S A) : M (S * T) A :=
  fun st => let '(r, s', t) := m (fst st) in (r, (s', snd st), t).

(** ** The server object and the outside world *)

Section Store.
Context {frame : Type}.

(** The attributes of a [VideoStreamServer] ([is_selected] exists from
    server3.py on, [running] in server4.py), and the outside world the
    object consults: the outcomes of the awaited network calls (for the
    variants that run as one coroutine), what each [cv2.VideoCapture(...)]
    gives, and what [datetime.now()] reads. *)
Record store : Type := mkStore {
  name : string;
  server_id : string;
  cap : option (capture frame);
  is_selected : pyval;
  running : bool;
  net : list io;
  opens : list (capture frame);
  clock : nat -> Z;
  ticks : nat
}.

Definition set_cap (c : option (capture frame)) (s : store) : store :=
  mkStore (name s) (server_id s) c (is_selected s) (running s)
          (net s) (opens s) (clock s) (ticks s).
Definition set_is_selected (v : pyval) (s : store) : store :=
  mkStore (name s) (server_id s) (cap s) v (running s)
          (net s) (opens s) (clock s) (ticks s).
Definition set_running (b : bool) (s : store) : store :=
  mkStore (name s) (server_id s) (cap s) (is_selected s) b
          (net s) (opens s) (clock s) (ticks s).
Definition set_net (n : list io) (s : store) : store :=
  mkStore (name s) (server_id s) (cap s) (is_selected s) (running s)
          n (opens s) (clock s) (ticks s).
Definition set_opens (o : list (capture frame)) (s : store) : store :=
  mkStore (name s) (server_id s) (cap s) (is_selected s) (running s)
          (net s) o (clock s) (ticks s).
Definition set_ticks (n : nat) (s : store) : store :=
  mkStore (name s) (server_id s) (cap s) (is_selected s) (running s)
          (net s) (opens s) (clock s) n.

(** [__init__]: a fresh object in a given world. *)
Definition init (name sid : string) (net : list io) (opens : list (capture frame))
    (clock : nat -> Z) : store :=
  mkStore name sid None (PyBool false) false net opens clock 0.

(** [datetime.now()] *)
Definition now : M store Z :=
  fun s => (Ok (clock s (ticks s)), set_ticks (S (ticks s)) s, []).

(** [self.cap.read()] *)
Definition read_frame : M store (option frame) :=
  fun s =>
    match cap s with
    | None => (Raise (PyError "AttributeError"), s, [])
    | Some c => let '(r, c') := cap_read c in (r, set_cap (Some c') s, [])
    end.

(** [self.cap.set(cv2.CAP_PROP_POS_FRAMES, 0)] *)
Definition cap_rewind_self (s : store) : store :=
  set_cap (option_map cap_rewind (cap s)) s.

(** [self.cap = cv2.VideoCapture(...)] *)
Definition open_capture : M store (capture frame) :=
  fun s =>
    match opens s with
    | [] => (Hang, s, [])
    | c :: rest => (Ok c, set_cap (Some c) (set_opens rest s), [])
    end.

(** An awaited network call of a variant that runs as one coroutine takes
    the next scripted outcome. *)
Definition await_net : M store unit :=
  fun s =>
    match net s with
    | [] => (Hang, s, [])
    | Completed :: rest => (Ok tt, set_net rest s, [])
    | Raised e :: rest => (Raise e, set_net rest s, [])
    end.

Definition connect : M store unit := emit EvConnect ;; await_net.
Definition send (m : wire) : M store unit := emit (EvSend m) ;; await_net.
Definition sleep {S} (ms : Z) : M S unit := emit (EvSleep ms).

Definition loads `{!Json} (message : string) : M store pyval :=
  match json_loads message with
  | Some data => ret data
  | None => raise (PyError "JSONDecodeError")
  end.

(** The local variables [frame_count] and [last_log_time] of the
    streaming loop. *)
Record locals : Type := mkLocals {
  frame_count : nat;
  last_log_time : Z
}.

Definition shared {T A} (f : store -> A) : M (store * T) A :=
  gets (fun s => f (fst s)).
Definition update {T} (f : store -> store) : M (store * T) unit :=
  modify (fun s => (f (fst s), snd s)).

(** [frame_count += 1] and the debug record every five seconds: lines
    67-71 of server4.py, the same in every variant. *)
Definition count_frame : M (store * locals) unit :=
  modify (fun s => (fst s, mkLocals (S (frame_count (snd s))) (last_log_time (snd s)))) ;;
  current_time <- zoom now ;;
  last <- gets (fun s => last_log_time (snd s)) ;;
  if 5 <=? seconds (current_time - last) then
    (count <- gets (fun s => frame_count (snd s)) ;;
     log DEBUG (FrameCaptured count) ;;
     modify (fun s => (fst s, mkLocals (frame_count (snd s)) current_time)))
  else ret tt.

(** Run a computation with fresh local variables. *)
Definition with_locals {A} (l : locals) (m : M (store * locals) A) : M store A :=
  fun s => let '(r, s', t) := m (s, l) in (r, fst s', t).

End Store.
Arguments store frame : clear implicits.

(** * server4.py: a producer task and a consumer sharing one object *)

Module Server4.
Section WithLibraries.
Context {frame jpeg : Type} `{!Cv2 frame jpeg} `{!Json}.

Local Abbreviation store := (store frame).

Definition sharpen_kernel : list (list Z) :=
  [[-1; -1; -1]; [-1; 9; -1]; [-1; -1; -1]].

(** lines 29-44 *)
Definition process_high_quality_frame (f : frame) : M store frame :=
  try_except
    (denoised <- lift (cv_fastNlMeansDenoisingColored f 10 10 7 21) ;;
     sharpened <- lift (cv_filter2D denoised sharpen_kernel) ;;
     lift (cv_resize sharpened (320, 240) INTER_LANCZOS4))
    [(is_Exception, fun e =>
        log ERROR (ErrorProcessingHighQuality e) ;;
        lift (cv_resize f (320, 240) INTER_AREA))].

(** lines 46-54 *)
Definition handle_message (message : string) : M store unit :=
  try_except
    (data <- loads message ;;
     ty <- lift (py_get data "type" PyNone) ;;
     if py_eq_str ty "select" then
       (old_state <- gets is_selected ;;
        selected <- lift (py_get data "selected" (PyBool false)) ;;
        modify (set_is_selected selected) ;;
        new_state <- gets is_selected ;;
        log INFO (SelectionChanged old_state new_state))
     else ret tt)
    [(is_Exception, fun e => log ERROR (ErrorHandlingMessage e))].

(** *** The producer, [stream_video] (lines 56-107) *)

Definition selected_params : list (imwrite_flag * Z) :=
  [(IMWRITE_JPEG_QUALITY, 98); (IMWRITE_JPEG_OPTIMIZE, 1); (IMWRITE_JPEG_PROGRESSIVE, 1)].
Definition unselected_params : list (imwrite_flag * Z) :=
  [(IMWRITE_JPEG_QUALITY, 85); (IMWRITE_JPEG_OPTIMIZE, 1)].

(** How one pass through the [try] block ends: at [continue] (line 65),
    suspended in [send] (line 100), or in the handler's [sleep] (line 107). *)
Inductive progress : Type := Continue | Sending | BackingOff.

(** lines 62-100, up to the call of [send]. *)
Definition until_send : M (store * locals) progress :=
  r <- zoom read_frame ;;
  match r with
  | None => log WARNING FailedToReadFrame ;; ret Continue
  | Some frame =>
      count_frame ;;                                        (* 67-71 *)
      thumbnail <- lift (cv_resize frame (80, 60) INTER_AREA) ;;
      selected <- gets (fun s => is_selected (fst s)) ;;
      buffer <- (if truthy selected then
                   (processed_frame <- zoom (process_high_quality_frame frame) ;;
                    lift (cv_imencode processed_frame selected_params))
                 else lift (cv_imencode thumbnail unselected_params)) ;;
      sid <- gets (fun s => server_id (fst s)) ;;
      flag <- gets (fun s => is_selected (fst s)) ;;
      emit (EvSend (Stream sid (b64encode buffer) (Some flag))) ;;
      ret Sending
  end.

(** lines 105-107: the handler of the loop's [try]. *)
Definition on_error (e : exn) : M (store * locals) progress :=
  log ERROR (ErrorDuringStreaming e) ;;
  emit (EvSleep 1000) ;;
  ret BackingOff.

(** Where a producer task is suspended. *)
Inductive ppc : Type :=
| PNew                 (* created, not yet run *)
| PSend                (* awaiting relay_ws.send, line 100 *)
| PPace                (* awaiting the pacing sleep, line 103 *)
| PBackoff             (* awaiting the handler's sleep, line 107 *)
| PDone                (* the loop was left, the coroutine returned *)
| PStuck               (* never yields again *)
| PCrashed (e : exn).  (* an exception left the coroutine *)

(** From the loop test (line 60) to the next [await].  A failed read goes
    back to the loop test without suspending, so one run may pass there
    several times; [fuel] bounds the passes. *)
Fixpoint loop (fuel : nat) : M (store * locals) ppc :=
  match fuel with
  | O => hang
  | S fuel' =>
      go <- gets (fun s => running (fst s)) ;;
      if go then
        (p <- try_except until_send [(is_Exception, on_error)] ;;
         match p with
         | Continue => loop fuel'
         | Sending => ret PSend
         | BackingOff => ret PBackoff
         end)
      else ret PDone
  end.

(** The reads a device can still answer.  (A capture that never opened
    answers [(False, None)] for ever: the producer then never yields
    again, which [loop] renders as [Hang] after one pass.) *)
Definition reads_left (c : option (capture frame)) : nat :=
  match c with
  | Some (Device script) => length script
  | _ => 0
  end.

Definition run_loop : M (store * locals) ppc :=
  n <- gets (fun s => reads_left (cap (fst s))) ;;
  loop (S n).

(** A producer task resumes with the outcome of what it awaited and runs
    to its next [await]. *)
Definition stream_video (i : io) (pc : ppc) : M (store * locals) ppc :=
  match pc, i with
  | PNew, _ =>
      t <- zoom now ;;                                   (* lines 57-58 *)
      modify (fun s => (fst s, mkLocals 0 t)) ;;
      run_loop
  | PSend, Completed =>
      selected <- gets (fun s => is_selected (fst s)) ;; (* line 103 *)
      emit (EvSleep (if truthy selected then 33 else 100)) ;;
      ret PPace
  | PSend, Raised e =>
      p <- dispatch e [(is_Exception, on_error)] ;; ret PBackoff
  | PPace, Completed => run_loop
  | PPace, Raised e =>
      p <- dispatch e [(is_Exception, on_error)] ;; ret PBackoff
  | PBackoff, Completed => run_loop
  | PBackoff, Raised e => raise e
  | _, _ => ret pc
  end.


(** *** The main task: [main], [start_server], [reconnect] *)

(** The event loop's producer tasks, each with its locals. *)
Record task : Type := mkTask {
  pc : ppc;
  vars : locals
}.

(** Who awaits the running [start_server]: [main] (line 172) or
    [reconnect] (line 156), itself called from the handler at line 144 of
    the [start_server] below it on the stack. *)
Inductive caller : Type := InMain | InReconnect.

(** Where the main task is suspended. *)
Inductive mpc : Type :=
| MConnect                    (* awaiting websockets.connect, line 112 *)
| MRegister                   (* awaiting the send of the registration, line 125 *)
| MRecv (video_task : nat)    (* awaiting the next inbound message, line 138 *)
| MJoin (video_task : nat)    (* awaiting video_task, line 143 *)
| MRetry                      (* awaiting sleep(5), line 160 or 178 *)
| MExit                       (* main left its loop *)
| MStuck
| MCrashed (e : exn).

Definition control : Type := mpc * list caller.

(** What the main task is resumed with. *)
Inductive input : Type :=
| Io (i : io)
| Message (m : string)        (* the iteration of relay_ws yields m *)
| EndOfMessages.              (* the iteration of relay_ws ends *)

(** lines 110-112, up to the call of [connect]. *)
Definition start_server (stack : list caller) : M (store * list task) control :=
  log INFO StartingServer ;;
  emit EvConnect ;;
  ret (MConnect, stack).

(** [start_server] returns to its caller: [reconnect] breaks (line 157)
    and returns into the handler of the [start_server] below, which then
    returns as well; [main] calls [start_server] again (lines 170-172). *)
Fixpoint unwind_return (stack : list caller) : M (store * list task) control :=
  match stack with
  | [] => ret (MExit, [])
  | InMain :: _ => start_server stack
  | InReconnect :: rest => unwind_return rest
  end.

(** [start_server] raises to its caller: lines 158-160 in [reconnect],
    lines 173-178 in [main]. *)
Fixpoint unwind_raise (e : exn) (stack : list caller) : M (store * list task) control :=
  match stack with
  | [] => raise e
  | InMain :: _ =>
      dispatch e
        [(is_KeyboardInterrupt, fun _ =>
            log INFO ShuttingDown ;; ret (MExit, stack));
         (is_Exception, fun e =>
            log ERROR (ServerError e) ;; emit (EvSleep 5000) ;; ret (MRetry, stack))]
  | InReconnect :: rest =>
      if is_Exception e then
        (log ERROR (ReconnectionFailed e) ;;
         emit (EvSleep 5000) ;;
         ret (MRetry, stack))
      else unwind_raise e rest
  end.

(** An exception inside the [try] of [start_server]: lines 146-149. *)
Definition fail (e : exn) (stack : list caller) : M (store * list task) control :=
  if is_Exception e then
    (log ERROR (FailedToConnect e) ;;
     update (set_running false) ;;
     unwind_raise e stack)
  else unwind_raise e stack.

(** One attempt of [reconnect], lines 153-156, up to the call of [connect]. *)
Definition reconnect (stack : list caller) : M (store * list task) control :=
  log INFO AttemptingReconnect ;;
  start_server stack.

(** [await video_task] (line 143), then the call of [reconnect] (line 144). *)
Definition join (video_task : nat) (stack : list caller) : M (store * list task) control :=
  ts <- gets snd ;;
  match ts !! video_task with
  | Some t =>
      match pc t with
      | PDone => reconnect (InReconnect :: stack)
      | PCrashed e => fail e stack
      | _ => ret (MJoin video_task, stack)
      end
  | None => ret (MStuck, stack)
  end.

(** The main task resumes with the outcome of what it awaited and runs to
    its next [await]. *)
Definition main (i : input) (c : control) : M (store * list task) control :=
  let '(at_pc, stack) := c in
  match at_pc, i with
  | MConnect, Io Completed =>
      log INFO ConnectedToRelay ;;                          (* 117 *)
      sid <- shared server_id ;;
      nm <- shared name ;;
      emit (EvSend (Register sid nm)) ;;                    (* 120-125 *)
      ret (MRegister, stack)
  | MConnect, Io (Raised e) => fail e stack
  | MRegister, Io Completed =>
      sid <- shared server_id ;;
      log INFO (Registered sid) ;;                          (* 126 *)
      c <- zoom open_capture ;;                             (* 129 *)
      if negb (isOpened c) then
        (log ERROR FailedToOpenCamera ;;                    (* 130-132 *)
         unwind_return stack)
      else
        (update (set_running true) ;;                       (* 134 *)
         k <- gets (fun s => length (snd s)) ;;
         modify (fun s => (fst s, snd s ++ [mkTask PNew (mkLocals 0 0)])) ;;  (* 135 *)
         ret (MRecv k, stack))
  | MRegister, Io (Raised e) => fail e stack
  | MRecv k, Message m =>
      zoom (handle_message m) ;;                            (* 138-139 *)
      ret (MRecv k, stack)
  | MRecv k, EndOfMessages => unwind_return stack
  | MRecv k, Io (Raised e) =>
      if is_ConnectionClosed e then
        (log ERROR WebSocketClosed ;;                       (* 140-142 *)
         update (set_running false) ;;
         join k stack)
      else fail e stack
  | MJoin k, Io Completed => join k stack
  | MRetry, Io Completed =>
      match stack with
      | InReconnect :: _ => reconnect stack                 (* 153-156 *)
      | _ => start_server stack                             (* 170-172 *)
      end
  | _, _ => ret c
  end.

(** *** The event loop

    The two coroutines share the object and run on one thread: control
    changes hands only at an [await].  Every [await] is taken as a point
    where the other coroutine may run. *)

Record config : Type := mkConfig {
  st : store;
  tasks : list task;
  main_at : control;
  trace : list event
}.

(** One scheduling decision: which coroutine resumes, and with what. *)
Inductive sched : Type :=
| Main (i : input)
| Task (k : nat) (i : io).

Definition step (c : config) (s : sched) : config :=
  match s with
  | Main i =>
      let '(r, (st', tasks'), evs) := main i (main_at c) (st c, tasks c) in
      let at' := match r with
                 | Ok ctl => ctl
                 | Raise e => (MCrashed e, snd (main_at c))
                 | Hang => (MStuck, snd (main_at c))
                 end in
      mkConfig st' tasks' at' (trace c ++ evs)
  | Task k i =>
      match tasks c !! k with
      | None => c
      | Some t =>
          let '(r, (st', vars'), evs) := stream_video i (pc t) (st c, vars t) in
          let pc' := match r with
                     | Ok p => p
                     | Raise e => PCrashed e
                     | Hang => PStuck
                     end in
          mkConfig st' (<[k := mkTask pc' vars']> (tasks c)) (main_at c) (trace c ++ evs)
      end
  end.

Definition run (c : config) (schedule : list sched) : config :=
  fold_left step schedule c.

(** [main] up to its first [await]: lines 169-172 and 110-112. *)
Definition boot (s : store) : config :=
  let '(r, (st', tasks'), evs) := start_server [InMain] (s, []) in
  mkConfig st' tasks' (MConnect, [InMain]) evs.

End WithLibraries.
Arguments config frame : clear implicits.
End Server4.

(** How a [while True] body leaves one pass. *)
Inductive again : Type := Again | Break.

(** * server3.py: one coroutine, two encode tiers *)

Module Server3.
Section WithLibraries.
Context {frame jpeg : Type} `{!Cv2 frame jpeg} `{!Json}.

Local Abbreviation store := (store frame).

(** lines 104-111 *)
Definition handle_message (message : string) : M store unit :=
  try_except
    (data <- loads message ;;
     ty <- lift (py_get data "type" PyNone) ;;
     target <- lift (py_get data "server_id" PyNone) ;;
     sid <- gets server_id ;;
     if py_eq_str ty "select" && py_eq_str target sid then
       (selected <- lift (py_get data "selected" (PyBool false)) ;;
        modify (set_is_selected selected) ;;
        new_state <- gets is_selected ;;
        log INFO (SelectionNow new_state))
     else ret tt)
    [(is_Exception, fun e => log ERROR (ErrorHandlingMessage e))].

(** lines 54-98: one pass through the body of the streaming loop. *)
Definition stream_iter (reconnect : M store unit) : M (store * locals) unit :=
  try_except
    (r <- zoom read_frame ;;                                     (* 55 *)
     match r with
     | None => ret tt                                            (* 56-57 *)
     | Some frame =>
         count_frame ;;                                          (* 59-63 *)
         thumbnail <- lift (cv_resize frame (160, 120) INTER_LINEAR) ;;   (* 66 *)
         selected <- shared is_selected ;;                       (* 69 *)
         buffer <- (if truthy selected then
                      (frame' <- lift (cv_resize frame (640, 480) INTER_LINEAR) ;;
                       lift (cv_imencode frame' [(IMWRITE_JPEG_QUALITY, 90)]))
                    else lift (cv_imencode thumbnail [(IMWRITE_JPEG_QUALITY, 75)])) ;;
         let jpg_as_text := b64encode buffer in                  (* 77 *)
         sid <- shared server_id ;;
         flag <- shared is_selected ;;                           (* 83 *)
         zoom (send (Stream sid jpg_as_text (Some flag))) ;;     (* 85 *)
         pace <- shared is_selected ;;                           (* 88 *)
         if truthy pace then sleep 33 else sleep 100
     end)
    [(is_ConnectionClosed, fun _ =>
        log ERROR WebSocketClosed ;; zoom reconnect);            (* 93-95 *)
     (is_Exception, fun e =>
        log ERROR (ErrorDuringStreaming e) ;; sleep 1000)].      (* 96-98 *)

(** line 53: [while True] *)
Fixpoint stream_loop (fuel : nat) (reconnect : M store unit) : M (store * locals) unit :=
  match fuel with
  | O => hang
  | S fuel' => stream_iter reconnect ;; stream_loop fuel' reconnect
  end.

(** lines 27-102 and 113-121 *)
Fixpoint start_server (fuel : nat) : M store unit :=
  match fuel with
  | O => hang
  | S fuel' =>
      log INFO StartingServer ;;
      try_except
        (connect ;;                                              (* 30-34 *)
         sid <- gets server_id ;;
         nm <- gets name ;;
         send (Register sid nm) ;;                               (* 37-42 *)
         c <- open_capture ;;                                    (* 45 *)
         if negb (isOpened c) then
           log ERROR FailedToOpenCamera                          (* 46-48 *)
         else
           (t <- now ;;                                          (* 50-51 *)
            with_locals (mkLocals 0 t) (stream_loop fuel' (reconnect fuel'))))
        [(is_Exception, fun e =>
            log ERROR (FailedToConnect e) ;; raise e)]           (* 100-102 *)
  end
with reconnect (fuel : nat) : M store unit :=
  match fuel with
  | O => hang
  | S fuel' =>
      r <- try_except
             (log INFO AttemptingReconnect ;;
              start_server fuel' ;;
              ret Break)
             [(is_Exception, fun e =>
                 log ERROR (ReconnectionFailed e) ;; sleep 5000 ;; ret Again)] ;;
      match r with
      | Break => ret tt
      | Again => reconnect fuel'
      end
  end.

(** lines 127-137 *)
Fixpoint main (fuel : nat) : M store unit :=
  match fuel with
  | O => hang
  | S fuel' =>
      r <- try_except
             (start_server fuel' ;; ret Again)
             [(is_KeyboardInterrupt, fun _ => log INFO ShuttingDown ;; ret Break);
              (is_Exception, fun e =>
                 log ERROR (ServerError e) ;; sleep 5000 ;; ret Again)] ;;
      match r with
      | Break => ret tt
      | Again => main fuel'
      end
  end.

End WithLibraries.
End Server3.

(** * main.py: one coroutine, a camera, no selection *)

Module Main.
Section WithLibraries.
Context {frame jpeg : Type} `{!Cv2 frame jpeg}.

Local Abbreviation store := (store frame).

(** lines 62-94: one pass through the body of the streaming loop. *)
Definition stream_iter (reconnect : M store unit) : M (store * locals) unit :=
  try_except
    (r <- zoom read_frame ;;
     match r with
     | None =>
         log WARNING FailedToReadFrame                          (* 64-66 *)
     | Some frame =>
         count_frame ;;
         buffer <- lift (cv_imencode frame []) ;;
         let jpg_as_text := b64encode buffer in
         sid <- shared server_id ;;
         zoom (send (Stream sid jpg_as_text None)) ;;
         sleep 33
     end)
    [(is_ConnectionClosed, fun _ =>
        log ERROR WebSocketClosed ;; zoom reconnect);
     (is_Exception, fun e =>
        log ERROR (ErrorDuringStreaming e) ;; sleep 1000)].

Fixpoint stream_loop (fuel : nat) (reconnect : M store unit) : M (store * locals) unit :=
  match fuel with
  | O => hang
  | S fuel' => stream_iter reconnect ;; stream_loop fuel' reconnect
  end.

(** lines 29-98 and 100-109 *)
Fixpoint start_server (fuel : nat) : M store unit :=
  match fuel with
  | O => hang
  | S fuel' =>
      log INFO StartingServer ;;
      try_except
        (connect ;;
         log INFO ConnectedToRelay ;;
         sid <- gets server_id ;;
         nm <- gets name ;;
         send (Register sid nm) ;;
         log INFO (Registered sid) ;;
         c <- open_capture ;;
         if negb (isOpened c) then
           log ERROR FailedToOpenCamera
         else
           (log INFO CameraInitialized ;;                        (* 54-56 *)
            t <- now ;;
            with_locals (mkLocals 0 t) (stream_loop fuel' (reconnect fuel'))))
        [(is_Exception, fun e =>
            log ERROR (FailedToConnect e) ;; raise e)]
  end
with reconnect (fuel : nat) : M store unit :=
  match fuel with
  | O => hang
  | S fuel' =>
      r <- try_except
             (log INFO AttemptingReconnect ;;
              start_server fuel' ;;
              ret Break)
             [(is_Exception, fun e =>
                 log ERROR (ReconnectionFailed e) ;; sleep 5000 ;; ret Again)] ;;
      match r with
      | Break => ret tt
      | Again => reconnect fuel'
      end
  end.

(** lines 116-126 *)
Fixpoint main (fuel : nat) : M store unit :=
  match fuel with
  | O => hang
  | S fuel' =>
      r <- try_except
             (start_server fuel' ;; ret Again)
             [(is_KeyboardInterrupt, fun _ => log INFO ShuttingDown ;; ret Break);
              (is_Exception, fun e =>
                 log ERROR (ServerError e) ;; sleep 5000 ;; ret Again)] ;;
      match r with
      | Break => ret tt
      | Again => main fuel'
      end
  end.

End WithLibraries.
End Main.

(** * main_my4.py: one coroutine, a video file played in a loop *)

Module MainMy4.
Section WithLibraries.
Context {frame jpeg : Type} `{!Cv2 frame jpeg}.

Local Abbreviation store := (store frame).

(** lines 58-91: one pass through the body of the streaming loop. *)
Definition stream_iter (reconnect : M store unit) : M (store * locals) unit :=
  try_except
    (r <- zoom read_frame ;;
     match r with
     | None =>
         log INFO EndOfVideo ;;                                 (* 60-63 *)
         update cap_rewind_self
     | Some frame =>
         count_frame ;;
         buffer <- lift (cv_imencode frame []) ;;
         let jpg_as_text := b64encode buffer in
         sid <- shared server_id ;;
         zoom (send (Stream sid jpg_as_text None)) ;;
         sleep 33
     end)
    [(is_ConnectionClosed, fun _ =>
        log ERROR WebSocketClosed ;; zoom reconnect);
     (is_Exception, fun e =>
        log ERROR (ErrorDuringStreaming e) ;; sleep 1000)].

Fixpoint stream_loop (fuel : nat) (reconnect : M store unit) : M (store * locals) unit :=
  match fuel with
  | O => hang
  | S fuel' => stream_iter reconnect ;; stream_loop fuel' reconnect
  end.

(** lines 29-95 and 97-106 *)
Fixpoint start_server (fuel : nat) : M store unit :=
  match fuel with
  | O => hang
  | S fuel' =>
      log INFO StartingServer ;;
      try_except
        (connect ;;
         log INFO ConnectedToRelay ;;
         sid <- gets server_id ;;
         nm <- gets name ;;
         send (Register sid nm) ;;
         log INFO (Registered sid) ;;
         c <- open_capture ;;
         if negb (isOpened c) then
           log ERROR FailedToOpenVideo
         else
           (t <- now ;;
            with_locals (mkLocals 0 t) (stream_loop fuel' (reconnect fuel'))))
        [(is_Exception, fun e =>
            log ERROR (FailedToConnect e) ;; raise e)]
  end
with reconnect (fuel : nat) : M store unit :=
  match fuel with
  | O => hang
  | S fuel' =>
      r <- try_except
             (log INFO AttemptingReconnect ;;
              start_server fuel' ;;
              ret Break)
             [(is_Exception, fun e =>
                 log ERROR (ReconnectionFailed e) ;; sleep 5000 ;; ret Again)] ;;
      match r with
      | Break => ret tt
      | Again => reconnect fuel'
      end
  end.

(** lines 113-124 *)
Fixpoint main (fuel : nat) : M store unit :=
  match fuel with
  | O => hang
  | S fuel' =>
      r <- try_except
             (start_server fuel' ;; ret Again)
             [(is_KeyboardInterrupt, fun _ => log INFO ShuttingDown ;; ret Break);
              (is_Exception, fun e =>
                 log ERROR (ServerError e) ;; sleep 5000 ;; ret Again)] ;;
      match r with
      | Break => ret tt
      | Again => main fuel'
      end
  end.

End WithLibraries.
End MainMy4.

(** * Reading traces and results *)

Definition and_then {A B} (r : res A) (k : A -> res B) : res B :=
  match r with
  | Ok a => k a
  | Raise e => Raise e
  | Hang => Hang
  end.

(** The outcome [x], preceded by the events [pre]. *)
Definition after_events {S A} (pre : list event) (x : res A * S * list event)
  : res A * S * list event :=
  let '(r, s, t) := x in (r, s, pre ++ t).

Definition result_of {S A} (x : res A * S * list event) : res A := fst (fst x).
Definition state_of {S A} (x : res A * S * list event) : S := snd (fst x).
Definition events_of {S A} (x : res A * S * list event) : list event := snd x.

(** The payloads of the stream messages of a trace, in order. *)
Fixpoint sent (t : list event) : list string :=
  match t with
  | [] => []
  | EvSend (Stream _ data _) :: rest => data :: sent rest
  | _ :: rest => sent rest
  end.

(** The specification's [setSelected(targetId, value)], in its own words:
    if [targetId] is absent or equals this session's id, set the flag;
    otherwise no-op. *)
Definition setSelected_spec (session_id : string) (targetId : option pyval)
    (value flag : pyval) : pyval :=
  match targetId with
  | None => value
  | Some t => if py_eq_str t session_id then value else flag
  end.

(** * Summaries used in the statements *)

Section Summaries.
Context {frame jpeg : Type} `{!Cv2 frame jpeg}.
Implicit Types (s : store frame) (l : locals) (f : frame).

(** The value a selection message carries, and whether it names the
    session [sid]. *)
Definition chosen (kv : list (string * pyval)) : pyval :=
  default (PyBool false) (assoc "selected" kv).

Definition targets (kv : list (string * pyval)) (sid : string) : bool :=
  match assoc "server_id" kv with
  | Some t => py_eq_str t sid
  | None => false
  end.

(** The enhancement pipeline of server4.py (lines 33-40), as a value. *)
Definition enhance f : res frame :=
  and_then (cv_fastNlMeansDenoisingColored f 10 10 7 21) (fun denoised =>
  and_then (cv_filter2D denoised Server4.sharpen_kernel) (fun sharpened =>
  cv_resize sharpened (320, 240) INTER_LANCZOS4)).

(** What lines 74-91 of server4.py compute for a frame, and the record
    they log on the way. *)
Definition encode4 (selected : pyval) f : res jpeg * list event :=
  match cv_resize f (80, 60) INTER_AREA with
  | Ok thumbnail =>
      if truthy selected then
        match enhance f with
        | Ok p => (cv_imencode p Server4.selected_params, [])
        | Raise e =>
            if is_Exception e then
              (and_then (cv_resize f (320, 240) INTER_AREA)
                        (fun p => cv_imencode p Server4.selected_params),
               [EvLog ERROR (ErrorProcessingHighQuality e)])
            else (Raise e, [])
        | Hang => (Hang, [])
        end
      else (cv_imencode thumbnail Server4.unselected_params, [])
  | Raise e => (Raise e, [])
  | Hang => (Hang, [])
  end.

(** What lines 66-75 of server3.py compute for a frame. *)
Definition encode3 (selected : pyval) f : res jpeg :=
  and_then (cv_resize f (160, 120) INTER_LINEAR) (fun thumbnail =>
  if truthy selected then
    and_then (cv_resize f (640, 480) INTER_LINEAR) (fun frame' =>
    cv_imencode frame' [(IMWRITE_JPEG_QUALITY, 90)])
  else cv_imencode thumbnail [(IMWRITE_JPEG_QUALITY, 75)]).

(** [buf] is the payload of the tier [sel] of server4.py for the frame [f]. *)
Definition tier_payload (sel : bool) f (buf : jpeg) : Prop :=
  if sel then
    exists p,
      (enhance f = Ok p \/
       exists e, enhance f = Raise e /\ cv_resize f (320, 240) INTER_AREA = Ok p)
      /\ cv_imencode p Server4.selected_params = Ok buf
  else
    exists th,
      cv_resize f (80, 60) INTER_AREA = Ok th
      /\ cv_imencode th Server4.unselected_params = Ok buf.

(** A stream message is untorn with respect to the flag value [flag0]:
    it reports [flag0], and its payload was made by the tier of [flag0]. *)
Definition untorn (flag0 : pyval) (e : event) : Prop :=
  match e with
  | EvSend (Stream _ data flag) =>
      flag = Some flag0
      /\ exists f buf, data = b64encode buf /\ tier_payload (truthy flag0) f buf
  | _ => True
  end.

Definition no_stream (e : event) : Prop :=
  match e with
  | EvSend (Stream _ _ _) => False
  | _ => True
  end.

(** The effect of [count_frame]. *)
Definition counted s l : locals :=
  let t := clock s (ticks s) in
  mkLocals (S (frame_count l))
           (if 5 <=? seconds (t - last_log_time l) then t else last_log_time l).

Definition count_events s l : list event :=
  if 5 <=? seconds (clock s (ticks s) - last_log_time l)
  then [EvLog DEBUG (FrameCaptured (S (frame_count l)))] else [].

(** The state once a frame was read from [self.cap] and counted. *)
Definition grabbed s (c' : capture frame) l : store frame * locals :=
  (set_ticks (S (ticks s)) (set_cap (Some c') s), counted s l).

(** Logged and slept by the generic handler of a streaming loop. *)
Definition backoff_events (e : exn) : list event :=
  [EvLog ERROR (ErrorDuringStreaming e); EvSleep 1000].

(** What the two handlers of the streaming loop of a one-coroutine variant
    do with an exception raised in state [st] after the events [pre]. *)
Definition handled (reconnect : M (store frame) unit) (e : exn)
    (st : store frame * locals) (pre : list event)
  : res unit * (store frame * locals) * list event :=
  if is_ConnectionClosed e then
    after_events (pre ++ [EvLog ERROR WebSocketClosed]) (zoom reconnect st)
  else if is_Exception e then (Ok tt, st, pre ++ backoff_events e)
  else (Raise e, st, pre).

Definition stream_flagged s (buffer : jpeg) : event :=
  EvSend (Stream (server_id s) (b64encode buffer) (Some (is_selected s))).

Definition stream_plain s (buffer : jpeg) : event :=
  EvSend (Stream (server_id s) (b64encode buffer) None).

End Summaries.

(** * Invariants of a computation *)

(** Run from [s], the computation [m] ends in a state that satisfies
    [Inv], emits only events that satisfy [Q], and, if it returns [a],
    ends in a state that satisfies [R a]. *)
Definition keeps {S A} (Inv : S -> Prop) (Q : event -> Prop) (R : A -> S -> Prop)
    (m : M S A) (s : S) : Prop :=
  Inv (state_of (m s)) /\ Forall Q (events_of (m s))
  /\ forall a, result_of (m s) = Ok a -> R a (state_of (m s)).

Abbreviation any := (fun _ _ => True).

(** An invariant that does not look at the capture, the network script,
    the captures to come or the clock ticks. *)
Class Blind {frame} (Inv : store frame -> Prop) : Prop := {
  blind_cap : forall c s, Inv s -> Inv (set_cap c s);
  blind_net : forall n s, Inv s -> Inv (set_net n s);
  blind_opens : forall o s, Inv s -> Inv (set_opens o s);
  blind_ticks : forall n s, Inv s -> Inv (set_ticks n s)
}.

(** A predicate on events that lets pass everything but messages. *)
Class Lenient (Q : event -> Prop) : Prop := {
  lenient_log : forall l m, Q (EvLog l m);
  lenient_connect : Q EvConnect;
  lenient_sleep : forall ms, Q (EvSleep ms)
}.

(** The same, and the code may set [running] as it likes. *)
Class Steady {frame} (Inv : store frame -> Prop) : Prop := {
  steady_blind :: Blind Inv;
  steady_running : forall b s, Inv s -> Inv (set_running b s)
}.

(** A message bears the identity [sid], [nm] of the session, and a stream
    message reports [flag] (or has no [is_selected] field). *)
Definition reports (sid nm : string) (flag : option pyval) (e : event) : Prop :=
  match e with
  | EvSend (Register a b) => a = sid /\ b = nm
  | EvSend (Stream a _ fl) => a = sid /\ fl = flag
  | _ => True
  end.

(** The same, whatever the flag a stream message reports. *)
Definition signed (sid nm : string) (e : event) : Prop :=
  match e with
  | EvSend (Register a b) => a = sid /\ b = nm
  | EvSend (Stream a _ _) => a = sid
  | _ => True
  end.

(** The attributes that [__init__] sets and the streaming code reads. *)
Definition identity {frame} (sid nm : string) (v : pyval) (r : bool)
    (s : store frame) : Prop :=
  server_id s = sid /\ name s = nm /\ is_selected s = v /\ running s = r.

(** The attributes no code assigns after [__init__]. *)
Definition owner {frame} (sid nm : string) (s : store frame) : Prop :=
  server_id s = sid /\ name s = nm.

(** The same, with the value of the flag. *)
Definition selected_as {frame} (sid nm : string) (v : pyval) (s : store frame) : Prop :=
  server_id s = sid /\ name s = nm /\ is_selected s = v.

(** [self.cap] holds a capture that did not open. *)
Definition unopened {frame} (s : store frame) : Prop :=
  exists c, cap s = Some c /\ isOpened c = false.

(** The event is a log record. *)
Definition is_record (e : event) : Prop :=
  match e with
  | EvLog _ _ => True
  | _ => False
  end.

(** ** Schedules of the event loop of server4.py *)

Module Schedules.
Import Server4.

(** The relay refuses a connection; the retry sleep is over. *)
Definition refused (e : exn) : list sched :=
  [Main (Io (Raised e)); Main (Io Completed)].

(** A connection that the relay closes before the producer has run:
    connected, registered (the camera opens and producer [k] is created),
    the receive loop finds the connection closed, the producer runs for the
    first time and leaves its loop at once, the main task is resumed from
    its join. *)
Definition session (k : nat) : list sched :=
  [Main (Io Completed); Main (Io Completed); Main (Io (Raised ConnectionClosed));
   Task k Completed; Main (Io Completed)].

(** [n] such connections, the first producer being number [k]. *)
Fixpoint sessions (k n : nat) : list sched :=
  match n with
  | O => []
  | S n' => session k ++ sessions (S k) n'
  end.

(** A producer task that has not ended. *)
Definition live (p : ppc) : bool :=
  match p with
  | PNew | PSend | PPace | PBackoff => true
  | _ => false
  end.

End Schedules.

(** In a trace, no stream message precedes the first registration. *)
Fixpoint well_opened (registered : bool) (t : list event) : bool :=
  match t with
  | [] => true
  | EvSend (Register _ _) :: rest => well_opened true rest
  | EvSend (Stream _ _ _) :: rest => registered && well_opened registered rest
  | _ :: rest => well_opened registered rest
  end.

(** The event is the send of a registration. *)
Definition registers (e : event) : bool :=
  match e with
  | EvSend (Register _ _) => true
  | _ => false
  end.

(** Producer tasks exist, or the main task awaits the send of a
    registration, only once a registration was put on the wire. *)
Definition opened {frame} (cfg : Server4.config frame) : Prop :=
  well_opened false (Server4.trace cfg) = true
  /\ ((Server4.tasks cfg = [] /\ fst (Server4.main_at cfg) <> Server4.MRegister)
      \/ existsb registers (Server4.trace cfg) = true).

(** The pass of a supervising loop ([main], [reconnect]) over one call of
    [start_server], as the trace shows it. *)
Definition retried (e : exn) : list event :=
  [EvLog INFO StartingServer; EvConnect; EvLog ERROR (FailedToConnect e);
   EvLog ERROR (ServerError e); EvSleep 5000].

(** How a run of [main] can end: it returns only after the record of the
    shutdown, and no [Exception] leaves it. *)
Definition shut_down {S A} (out : res A * S * list event) : Prop :=
  match result_of out with
  | Ok _ => exists pre, events_of out = pre ++ [EvLog INFO ShuttingDown]
  | Raise e => is_Exception e = false
  | Hang => True
  end.

(** The specification's iteration, in its own words: the selected value is
    captured once per iteration, and what the iteration reports and how
    long it pauses follow the captured value [v]. *)
Definition captured_once_spec (v : pyval) (e : event) : Prop :=
  match e with
  | EvSend (Stream _ _ flag) => flag = Some v
  | EvSleep ms => ms = (if truthy v then 33 else 100)
  | _ => True
  end.

(** [cv2.resize] rejects a frame, not a target size: a frame it scales to
    the 80x60 thumbnail it scales to the 320x240 target as well. *)
Definition resize_by_frame {frame jpeg} {CV : Cv2 frame jpeg} : Prop :=
  forall f thumbnail,
    cv_resize f (80, 60) INTER_AREA = Ok thumbnail ->
    exists p, cv_resize f (320, 240) INTER_AREA = Ok p.

(** * A test bench: concrete libraries and worlds *)

Module Lab.

(** An image remembers its size, its channels and the processing applied
    to it. *)
Record image : Type := mkImage {
  width : Z;
  height : Z;
  channels : Z;
  applied : list string
}.

Record jpg : Type := mkJpg {
  pixels : image;
  params : list (imwrite_flag * Z)
}.

Definition empty (f : image) : bool := (width f =? 0) || (height f =? 0).

Definition interpolation_name (i : interpolation) : string :=
  match i with
  | INTER_LINEAR => "linear"
  | INTER_AREA => "area"
  | INTER_LANCZOS4 => "lanczos4"
  end.

Definition flag_name (f : imwrite_flag) : string :=
  match f with
  | IMWRITE_JPEG_QUALITY => "quality"
  | IMWRITE_JPEG_OPTIMIZE => "optimize"
  | IMWRITE_JPEG_PROGRESSIVE => "progressive"
  end.

(** The text that stands for the encoded bytes tells how they were made. *)
Definition describe (j : jpg) : string :=
  String.concat " "
    (applied (pixels j)
     ++ [pretty (width (pixels j)) +:+ "x" +:+ pretty (height (pixels j))]
     ++ map (fun p => flag_name (fst p) +:+ "=" +:+ pretty (snd p)) (params j)).

(** OpenCV as far as its failures go: nothing works on an empty image, and
    the colour denoiser wants three channels. *)
#[export] Instance cv : Cv2 image jpg := {|
  cv_resize f size i :=
    if empty f then Raise (PyError "cv2.error")
    else Ok (mkImage (fst size) (snd size) (channels f)
                     (applied f ++ [interpolation_name i]));
  cv_fastNlMeansDenoisingColored f _ _ _ _ :=
    if negb (empty f) && (channels f =? 3)
    then Ok (mkImage (width f) (height f) 3 (applied f ++ ["denoise"]))
    else Raise (PyError "cv2.error");
  cv_filter2D f _ :=
    Ok (mkImage (width f) (height f) (channels f) (applied f ++ ["sharpen"]));
  cv_imencode f p :=
    if empty f then Raise (PyError "cv2.error") else Ok (mkJpg f p);
  b64encode := describe
|}.

Definition dq : string := String (Ascii.ascii_of_nat 34) "".
Definition quoted (s : string) : string := dq +:+ s +:+ dq.
Definition field (k v : string) : string := quoted k +:+ ": " +:+ v.
Definition object (fields : list string) : string :=
  "{" +:+ String.concat ", " fields +:+ "}".

(** Three selection messages: no target, another session's id, and this
    session's id without a value. *)
Definition select_on : string :=
  object [field "type" (quoted "select"); field "selected" "true"].
Definition select_on_other : string :=
  object [field "type" (quoted "select"); field "server_id" (quoted "cam-2");
          field "selected" "true"].
Definition select_bare : string :=
  object [field "type" (quoted "select"); field "server_id" (quoted "cam-1")].

Definition decoded : list (string * pyval) :=
  [(select_on, PyDict [("type", PyStr "select"); ("selected", PyBool true)]);
   (select_on_other, PyDict [("type", PyStr "select"); ("server_id", PyStr "cam-2");
                             ("selected", PyBool true)]);
   (select_bare, PyDict [("type", PyStr "select"); ("server_id", PyStr "cam-1")])].

(** [json.loads] on the texts above; anything else does not parse. *)
#[export] Instance json : Json := {| json_loads text := assoc text decoded |}.

Definition colour : image := mkImage 640 480 3 [].
Definition grey : image := mkImage 640 480 1 [].
Definition nothing : image := mkImage 0 0 3 [].

Definition seconds_clock (n : nat) : Z := Z.of_nat n.

(** The object of session "cam-1" in front of a camera with the given
    script of reads. *)
Definition camera_world (script : list (read_outcome image)) (net : list io)
  : store image :=
  init "Camera 1" "cam-1" net [Device script] seconds_clock.

Definition streaming (selected : pyval) (script : list (read_outcome image))
    (net : list io) : store image :=
  mkStore "Camera 1" "cam-1" (Some (Device script)) selected true
          net [] seconds_clock 1.

(** server4.py connected, registered and streaming: the producer has put
    its first message on the wire and awaits the send. *)
Definition online (selected : pyval) (script : list (read_outcome image))
  : Server4.config image :=
  Server4.mkConfig (streaming selected script [])
    [Server4.mkTask Server4.PSend (mkLocals 1 0)]
    (Server4.MRecv 0, [Server4.InMain]) [].

(** The same, the producer pacing between two frames. *)
Definition pacing (selected : pyval) (script : list (read_outcome image))
  : Server4.config image :=
  Server4.mkConfig (streaming selected script [])
    [Server4.mkTask Server4.PPace (mkLocals 1 0)]
    (Server4.MRecv 0, [Server4.InMain]) [].


Definition idle : store image := streaming (PyBool false) [] [].
Definition vars0 : locals := mkLocals 1 0.
Definition cv_error : exn := PyError "cv2.error".

(** A two-frame video file and its encodings. *)
Definition title : image := mkImage 320 200 3 [].
Definition clip : list image := [colour; title].
Definition clip_encoded : list jpg := [mkJpg colour []; mkJpg title []].

Definition playing (pos : nat) (net : list io) : store image :=
  mkStore "Video Stream Server" "vid-1" (Some (File clip pos)) (PyBool false) false
          net [] seconds_clock 1.

End Lab.

(** Further traffic from the relay, and further worlds. *)

Module Traffic.
Import Lab.

(** A message of another type, JSON that is no object, and no JSON. *)
Definition heartbeat : string := object [field "type" (quoted "ping")].
Definition numbers : string := "[1, 2]".

(** [json.loads] on these texts and on those of [Lab]. *)
Definition relay : Json := {|
  json_loads text :=
    if String.eqb text heartbeat then Some (PyDict [("type", PyStr "ping")])
    else if String.eqb text numbers then Some (PyList [PyInt 1; PyInt 2])
    else assoc text decoded
|}.

(** A camera whose clock reads one day and three seconds. *)
Definition next_day : store image :=
  mkStore "Camera 1" "cam-1" (Some (Device [])) (PyBool false) true [] []
          (fun _ => 86403) 1.

(** server4.py after the receive loop saw the connection closed: [running]
    is false and the main task awaits the producer, which is suspended at
    [at_pc]. *)
Definition closing (at_pc : Server4.ppc) : Server4.config image :=
  Server4.mkConfig
    (mkStore "Camera 1" "cam-1" (Some (Device [Grab colour])) (PyBool true) false
             [] [] seconds_clock 1)
    [Server4.mkTask at_pc vars0]
    (Server4.MJoin 0, [Server4.InMain]) [].

(** server4.py receiving, two reconnections deep, with a second camera
    at hand. *)
Definition nested_session : Server4.config image :=
  Server4.mkConfig
    (mkStore "Camera 1" "cam-1" (Some (Device [])) (PyBool false) true
             [] [Device []] seconds_clock 1)
    [Server4.mkTask Server4.PPace vars0]
    (Server4.MRecv 0, [Server4.InReconnect; Server4.InReconnect; Server4.InMain]) [].

(** The object of session "cam-1" with a camera that did not open. *)
Definition blind : store image :=
  mkStore "Camera 1" "cam-1" (Some Unopened) (PyBool false) false
          [] [] seconds_clock 1.

Definition refusal : exn := PyError "ConnectionRefusedError".

End Traffic.

(** * Lemmas *)

Ltac unfold_py :=
  unfold bind, ret, raise, hang, emit, log, gets, modify, lift, zoom, shared,
    update, sleep, try_except, after_events, result_of, state_of, events_of in *.

Lemma sent_app t1 t2 : sent (t1 ++ t2) = sent t1 ++ sent t2.
Proof.
  induction t1 as [|e t1 IH]; [done|].
  destruct e as [| |[]|]; cbn; by rewrite ?IH.
Qed.

Lemma after_events_twice {S A} e1 e2 (x : res A * S * list event) :
  after_events e1 (after_events e2 x) = after_events (e1 ++ e2) x.
Proof. destruct x as [[r st] t]. cbn. by rewrite app_assoc. Qed.

Lemma bind_forall {S A B} (P : event -> Prop) (m : M S A) (k : A -> M S B) x :
  Forall P (events_of (m x)) ->
  (forall a x', Forall P (events_of (k a x'))) ->
  Forall P (events_of (bind m k x)).
Proof.
  unfold bind, events_of. intros Hm Hk.
  destruct (m x) as [[[a|e|] x1] t1]; cbn in *; try done.
  specialize (Hk a x1). destruct (k a x1) as [[r x2] t2]. cbn in *.
  rewrite Forall_app. by split.
Qed.

Lemma zoom_forall {S T A} (P : event -> Prop) (m : M S A) (x : S * T) :
  Forall P (events_of (m (fst x))) -> Forall P (events_of (zoom m x)).
Proof.
  unfold zoom, events_of. by destruct (m (fst x)) as [[r x1] t1].
Qed.

Create HintDb quiet discriminated.

(** Decompose a monadic computation whose events are all logs, connects,
    registrations or sleeps. *)
Ltac quiet :=
  repeat first
    [ solve [auto 1 with quiet nocore]
    | apply bind_forall; [|intros]
    | apply zoom_forall
    | match goal with
      | |- Forall _ (events_of (ret _ _)) => apply Forall_nil_2
      | |- Forall _ (events_of (raise _ _)) => apply Forall_nil_2
      | |- Forall _ (events_of (hang _)) => apply Forall_nil_2
      | |- Forall _ (events_of (gets _ _)) => apply Forall_nil_2
      | |- Forall _ (events_of (shared _ _)) => apply Forall_nil_2
      | |- Forall _ (events_of (modify _ _)) => apply Forall_nil_2
      | |- Forall _ (events_of (update _ _)) => apply Forall_nil_2
      | |- Forall _ (events_of (log _ _ _)) =>
          apply Forall_cons_2; [exact I | apply Forall_nil_2]
      | |- Forall _ (events_of (emit _ _)) =>
          apply Forall_cons_2; [exact I | apply Forall_nil_2]
      end ].

Section SelectionFacts.
Context {frame : Type} `{!Json}.
Implicit Types (s : store frame) (kv : list (string * pyval)).

Lemma server4_select message kv s :
  json_loads message = Some (PyDict kv) ->
  assoc "type" kv = Some (PyStr "select") ->
  Server4.handle_message message s =
    (Ok tt, set_is_selected (chosen kv) s,
     [EvLog INFO (SelectionChanged (is_selected s) (chosen kv))]).
Proof.
  intros Hparse Htype.
  unfold Server4.handle_message, loads, chosen. rewrite Hparse.
  unfold_py. simpl. rewrite Htype. simpl.
  destruct (assoc "selected" kv); reflexivity.
Qed.

Lemma server3_select message kv s :
  json_loads message = Some (PyDict kv) ->
  assoc "type" kv = Some (PyStr "select") ->
  Server3.handle_message message s =
    if targets kv (server_id s) then
      (Ok tt, set_is_selected (chosen kv) s, [EvLog INFO (SelectionNow (chosen kv))])
    else (Ok tt, s, []).
Proof.
  intros Hparse Htype.
  unfold Server3.handle_message, loads, chosen, targets. rewrite Hparse.
  unfold_py. simpl. rewrite Htype. simpl.
  destruct (assoc "server_id" kv) as [t|]; simpl.
  - destruct (py_eq_str t (server_id s)); simpl; [|reflexivity].
    destruct (assoc "selected" kv); reflexivity.
  - reflexivity.
Qed.

Lemma handle_message_quiet m s :
  Forall no_stream (events_of (Server4.handle_message m s)).
Proof.
  unfold Server4.handle_message, loads, py_get. unfold_py.
  repeat (case_match; simplify_eq; cbn in *; try (unfold raise in *));
    repeat constructor.
Qed.

End SelectionFacts.

Section ProducerFacts.
Context {frame jpeg : Type} `{!Cv2 frame jpeg}.
Implicit Types (s : store frame) (l : locals) (f : frame).

Lemma enhance_ok f p s :
  enhance f = Ok p -> Server4.process_high_quality_frame f s = (Ok p, s, []).
Proof.
  unfold enhance, Server4.process_high_quality_frame, and_then. unfold_py.
  intros He. repeat case_match; simplify_eq; reflexivity.
Qed.

Lemma enhance_fallback f e s :
  enhance f = Raise e -> is_Exception e = true ->
  Server4.process_high_quality_frame f s =
    (cv_resize f (320, 240) INTER_AREA, s, [EvLog ERROR (ErrorProcessingHighQuality e)]).
Proof.
  unfold enhance, Server4.process_high_quality_frame, and_then. unfold_py.
  intros He Hex.
  repeat case_match; simplify_eq; simpl in *; try rewrite Hex in *;
    simplify_eq; try reflexivity.
  all: try (destruct (cv_resize f (320, 240) INTER_AREA); reflexivity).
Qed.

Lemma count_frame_eq s l :
  count_frame (s, l) = (Ok tt, (set_ticks (S (ticks s)) s, counted s l), count_events s l).
Proof.
  unfold count_frame, counted, count_events, now. unfold_py. simpl.
  destruct (5 <=? _); reflexivity.
Qed.

Lemma counted_set_cap s c l : counted (set_cap c s) l = counted s l.
Proof. reflexivity. Qed.

Lemma count_events_set_cap s c l : count_events (set_cap c s) l = count_events s l.
Proof. reflexivity. Qed.

Lemma sent_count_events s l : sent (count_events s l) = [].
Proof. unfold count_events. by case_match. Qed.

Lemma count_events_untorn s l flag : Forall (untorn flag) (count_events s l).
Proof. unfold count_events. case_match; repeat constructor. Qed.

(** The four ways a pass through the [try] block of [stream_video] can
    go, by what [cap.read()] gives. *)
Lemma until_send_grab s l c c' f :
  cap s = Some c -> cap_read c = (Ok (Some f), c') ->
  Server4.until_send (s, l) =
    match encode4 (is_selected s) f with
    | (Ok buffer, evs) =>
        (Ok Server4.Sending, grabbed s c' l,
         count_events s l ++ evs ++ [stream_flagged s buffer])
    | (Raise e, evs) => (Raise e, grabbed s c' l, count_events s l ++ evs)
    | (Hang, evs) => (Hang, grabbed s c' l, count_events s l ++ evs)
    end.
Proof.
  intros Hc Hr.
  unfold Server4.until_send.
  unfold bind at 1. unfold zoom at 1. unfold read_frame. simpl. rewrite Hc, Hr.
  unfold bind at 1. rewrite count_frame_eq, counted_set_cap, count_events_set_cap.
  unfold encode4, grabbed, stream_flagged, Server4.process_high_quality_frame,
    enhance, and_then.
  unfold_py. simpl.
  repeat (case_match; simplify_eq; simpl in *; try rewrite ?app_nil_r; try reflexivity).
  all: try congruence.
  all: unfold raise in *; simplify_eq; by rewrite app_nil_r.
Qed.

Lemma until_send_no_frame s l c c' :
  cap s = Some c -> cap_read c = (Ok None, c') ->
  Server4.until_send (s, l) =
    (Ok Server4.Continue, (set_cap (Some c') s, l), [EvLog WARNING FailedToReadFrame]).
Proof.
  intros Hc Hr. unfold Server4.until_send, read_frame. unfold_py. simpl.
  by rewrite Hc, Hr.
Qed.

Lemma until_send_read_raises s l c c' e :
  cap s = Some c -> cap_read c = (Raise e, c') ->
  Server4.until_send (s, l) = (Raise e, (set_cap (Some c') s, l), []).
Proof.
  intros Hc Hr. unfold Server4.until_send, read_frame. unfold_py. simpl.
  by rewrite Hc, Hr.
Qed.

Lemma until_send_read_hangs s l c c' :
  cap s = Some c -> cap_read c = (Hang, c') ->
  Server4.until_send (s, l) = (Hang, (set_cap (Some c') s, l), []).
Proof.
  intros Hc Hr. unfold Server4.until_send, read_frame. unfold_py. simpl.
  by rewrite Hc, Hr.
Qed.

Lemma until_send_no_capture s l :
  cap s = None ->
  Server4.until_send (s, l) = (Raise (PyError "AttributeError"), (s, l), []).
Proof.
  intros Hc. unfold Server4.until_send, read_frame. unfold_py. simpl.
  by rewrite Hc.
Qed.

Lemma encode4_payload sel f buffer evs :
  encode4 sel f = (Ok buffer, evs) -> tier_payload (truthy sel) f buffer.
Proof.
  unfold encode4, tier_payload, and_then.
  intros He. repeat case_match; simplify_eq; eauto 8.
Qed.

Lemma encode4_untorn sel f r evs :
  encode4 sel f = (r, evs) -> forall flag, Forall (untorn flag) evs.
Proof.
  unfold encode4. intros He flag.
  repeat case_match; simplify_eq; repeat constructor.
Qed.

(** One pass through the [try] block leaves the flag and [running] alone,
    and what it sends is untorn. *)
Lemma until_send_untorn s l r s' l' evs :
  Server4.until_send (s, l) = (r, (s', l'), evs) ->
  is_selected s' = is_selected s /\ running s' = running s
  /\ Forall (untorn (is_selected s)) evs.
Proof.
  destruct (cap s) as [c|] eqn:Hc.
  2:{ rewrite until_send_no_capture by done. intros; simplify_eq. by repeat split. }
  destruct (cap_read c) as [[[f|]|e|] c'] eqn:Hr.
  - rewrite (until_send_grab _ _ _ _ _ Hc Hr).
    destruct (encode4 (is_selected s) f) as [[buffer|e|] hq] eqn:He;
      unfold grabbed; intros; simplify_eq; repeat split; try done;
      rewrite ?Forall_app; repeat split;
      eauto using count_events_untorn, encode4_untorn.
    repeat constructor. eauto using encode4_payload.
  - rewrite (until_send_no_frame _ _ _ _ Hc Hr). intros; simplify_eq.
    repeat split; repeat constructor.
  - rewrite (until_send_read_raises _ _ _ _ _ Hc Hr). intros; simplify_eq.
    by repeat split.
  - rewrite (until_send_read_hangs _ _ _ _ Hc Hr). intros; simplify_eq.
    by repeat split.
Qed.

(** One turn of the [while self.running] loop. *)
Lemma loop_S n s l :
  Server4.loop (S n) (s, l) =
    if running s then
      match Server4.until_send (s, l) with
      | (Ok Server4.Continue, st, evs) => after_events evs (Server4.loop n st)
      | (Ok Server4.Sending, st, evs) => (Ok Server4.PSend, st, evs)
      | (Ok Server4.BackingOff, st, evs) => (Ok Server4.PBackoff, st, evs)
      | (Raise e, st, evs) =>
          if is_Exception e then (Ok Server4.PBackoff, st, evs ++ backoff_events e)
          else (Raise e, st, evs)
      | (Hang, st, evs) => (Hang, st, evs)
      end
    else (Ok Server4.PDone, (s, l), []).
Proof.
  cbn [Server4.loop]. unfold bind at 1. unfold gets at 1. cbn [fst].
  destruct (running s); [|reflexivity].
  unfold bind at 1, try_except at 1.
  destruct (Server4.until_send (s, l)) as [[[p|e|] st] evs]; cbn.
  - destruct p; unfold_py; cbn; rewrite ?app_nil_r; try reflexivity.
    by destruct (Server4.loop n st) as [[? ?] ?].
  - unfold Server4.on_error, backoff_events.
    destruct (is_Exception e); unfold_py; cbn; by rewrite ?app_nil_r.
  - reflexivity.
Qed.

Lemma loop_untorn fuel s l r s' l' evs :
  Server4.loop fuel (s, l) = (r, (s', l'), evs) ->
  is_selected s' = is_selected s /\ Forall (untorn (is_selected s)) evs.
Proof.
  revert s l r s' l' evs. induction fuel as [|n IH]; intros s l r s' l' evs.
  - cbn. unfold hang. intros; simplify_eq. by split.
  - rewrite loop_S. destruct (running s).
    2:{ intros; simplify_eq. by split. }
    destruct (Server4.until_send (s, l)) as [[[p|e|] [s1 l1]] evs1] eqn:Hu;
      destruct (until_send_untorn _ _ _ _ _ _ Hu) as (Hsel & _ & Hev).
    + destruct p.
      * unfold after_events.
        destruct (Server4.loop n (s1, l1)) as [[r2 [s2 l2]] evs2] eqn:Hl.
        destruct (IH _ _ _ _ _ _ Hl) as [Hsel2 Hev2]. intros; simplify_eq.
        split; [congruence|]. rewrite Forall_app. split; [done|].
        by rewrite <- Hsel.
      * intros; simplify_eq. by split.
      * intros; simplify_eq. by split.
    + destruct (is_Exception e); intros; simplify_eq; (split; [done|]);
        rewrite ?Forall_app; repeat split; try done; repeat constructor.
    + intros; simplify_eq. by split.
Qed.

Lemma run_loop_untorn s l r s' l' evs :
  Server4.run_loop (s, l) = (r, (s', l'), evs) ->
  is_selected s' = is_selected s /\ Forall (untorn (is_selected s)) evs.
Proof.
  unfold Server4.run_loop. unfold bind, gets. cbn [fst].
  destruct (Server4.loop _ (s, l)) as [[r2 [s2 l2]] evs2] eqn:Hl.
  apply loop_untorn in Hl. intros; simplify_eq. by rewrite app_nil_l.
Qed.

Lemma resume_untorn i pc s l r s' l' evs :
  Server4.stream_video i pc (s, l) = (r, (s', l'), evs) ->
  Forall (untorn (is_selected s)) evs.
Proof.
  destruct pc as [| | | | | |e0]; destruct i as [|e]; cbn [Server4.stream_video];
    try (unfold ret; intros; simplify_eq; by constructor);
    try (intros Hl; by apply run_loop_untorn in Hl as [_ ?]).
  - unfold bind at 1, zoom, now. cbn [fst snd].
    unfold bind at 1, modify. cbn [fst snd].
    destruct (Server4.run_loop _) as [[r2 [s2 l2]] evs2] eqn:Hl.
    apply run_loop_untorn in Hl as [_ Hev]. intros; simplify_eq. by rewrite !app_nil_l.
  - unfold bind at 1, zoom, now. cbn [fst snd].
    unfold bind at 1, modify. cbn [fst snd].
    destruct (Server4.run_loop _) as [[r2 [s2 l2]] evs2] eqn:Hl.
    apply run_loop_untorn in Hl as [_ Hev]. intros; simplify_eq. by rewrite !app_nil_l.
  - unfold_py. cbn. intros; simplify_eq. repeat constructor.
  - cbn. unfold Server4.on_error. destruct (is_Exception e); unfold_py; cbn;
      intros; simplify_eq; repeat constructor.
  - cbn. unfold Server4.on_error. destruct (is_Exception e); unfold_py; cbn;
      intros; simplify_eq; repeat constructor.
  - unfold raise. intros; simplify_eq. constructor.
Qed.

End ProducerFacts.

Section SupervisorFacts.
Context {frame jpeg : Type} `{!Cv2 frame jpeg} `{!Json}.
Implicit Types (s : store frame) (l : locals) (f : frame).
Implicit Types (st : store frame * list Server4.task).
Implicit Types (c : Server4.config frame) (t : Server4.task).

Lemma no_stream_untorn flag evs : Forall no_stream evs -> Forall (untorn flag) evs.
Proof.
  intros Hq. eapply Forall_impl; [exact Hq|]. intros [| |[]|]; cbn; tauto.
Qed.

Lemma start_server_quiet stack st :
  Forall no_stream (events_of (Server4.start_server stack st)).
Proof. unfold Server4.start_server. quiet. Qed.
#[local] Hint Resolve start_server_quiet : quiet.

Lemma reconnect_quiet stack st :
  Forall no_stream (events_of (Server4.reconnect stack st)).
Proof. unfold Server4.reconnect. quiet. Qed.
#[local] Hint Resolve reconnect_quiet : quiet.

Lemma unwind_return_quiet stack st :
  Forall no_stream (events_of (Server4.unwind_return stack st)).
Proof.
  induction stack as [|[] rest IH]; cbn [Server4.unwind_return].
  - quiet.
  - quiet.
  - apply IH.
Qed.
#[local] Hint Resolve unwind_return_quiet : quiet.

Lemma unwind_raise_quiet e stack st :
  Forall no_stream (events_of (Server4.unwind_raise e stack st)).
Proof.
  induction stack as [|[] rest IH]; cbn [Server4.unwind_raise].
  - quiet.
  - destruct e; cbn [dispatch is_KeyboardInterrupt is_Exception]; quiet.
  - destruct (is_Exception e); [quiet | apply IH].
Qed.
#[local] Hint Resolve unwind_raise_quiet : quiet.

Lemma fail_quiet e stack st :
  Forall no_stream (events_of (Server4.fail e stack st)).
Proof.
  unfold Server4.fail. destruct (is_Exception e); quiet.
Qed.
#[local] Hint Resolve fail_quiet : quiet.

Lemma join_quiet k stack st :
  Forall no_stream (events_of (Server4.join k stack st)).
Proof.
  unfold Server4.join. quiet.
  destruct (_ !! k) as [t|]; [|quiet].
  destruct (Server4.pc t); quiet.
Qed.
#[local] Hint Resolve join_quiet : quiet.

Lemma open_capture_quiet s : Forall no_stream (events_of (open_capture s)).
Proof. unfold open_capture. destruct (opens s); constructor. Qed.
#[local] Hint Resolve open_capture_quiet : quiet.
#[local] Hint Resolve handle_message_quiet : quiet.

(** The main task puts no stream message on the wire. *)
Lemma main_task_quiet i ctl st :
  Forall no_stream (events_of (Server4.main i ctl st)).
Proof.
  destruct ctl as [at_pc stack]. unfold Server4.main.
  destruct at_pc as [| |video_task|video_task| | | |e0]; destruct i as [[|e]|m|];
    try (quiet; fail).
  - (* registered: the capture is opened *)
    quiet. destruct (negb _); quiet.
  - (* the receive loop raises *)
    destruct (is_ConnectionClosed e); quiet.
  - (* after the retry sleep *)
    destruct stack as [|[] rest]; quiet.
Qed.

(** The steps of the event loop the claims are about. *)

Lemma step_send_completed c k t :
  Server4.tasks c !! k = Some t -> Server4.pc t = Server4.PSend ->
  Server4.step c (Server4.Task k Completed) =
    Server4.mkConfig (Server4.st c)
      (<[k := Server4.mkTask Server4.PPace (Server4.vars t)]> (Server4.tasks c))
      (Server4.main_at c)
      (Server4.trace c
       ++ [EvSleep (if truthy (is_selected (Server4.st c)) then 33 else 100)]).
Proof.
  intros Hk Hpc. cbn [Server4.step]. rewrite Hk, Hpc. reflexivity.
Qed.

Lemma step_send_raised c k t e :
  Server4.tasks c !! k = Some t -> Server4.pc t = Server4.PSend ->
  is_Exception e = true ->
  Server4.step c (Server4.Task k (Raised e)) =
    Server4.mkConfig (Server4.st c)
      (<[k := Server4.mkTask Server4.PBackoff (Server4.vars t)]> (Server4.tasks c))
      (Server4.main_at c)
      (Server4.trace c ++ backoff_events e).
Proof.
  intros Hk Hpc He. cbn [Server4.step]. rewrite Hk, Hpc. cbn. rewrite He. reflexivity.
Qed.

Lemma step_recv_closed c k stack t :
  Server4.main_at c = (Server4.MRecv k, stack) ->
  Server4.tasks c !! k = Some t ->
  Server4.pc t = Server4.PBackoff \/ Server4.pc t = Server4.PSend
    \/ Server4.pc t = Server4.PPace ->
  Server4.step c (Server4.Main (Server4.Io (Raised ConnectionClosed))) =
    Server4.mkConfig (set_running false (Server4.st c)) (Server4.tasks c)
      (Server4.MJoin k, stack)
      (Server4.trace c ++ [EvLog ERROR WebSocketClosed]).
Proof.
  intros Hat Hk Hpc. cbn [Server4.step]. rewrite Hat.
  cbn [Server4.main is_ConnectionClosed].
  unfold Server4.join. unfold_py. cbn. rewrite Hk.
  destruct Hpc as [-> | [-> | ->]]; reflexivity.
Qed.

Lemma step_backoff_stopped c k t :
  Server4.tasks c !! k = Some t -> Server4.pc t = Server4.PBackoff ->
  running (Server4.st c) = false ->
  Server4.step c (Server4.Task k Completed) =
    Server4.mkConfig (Server4.st c)
      (<[k := Server4.mkTask Server4.PDone (Server4.vars t)]> (Server4.tasks c))
      (Server4.main_at c) (Server4.trace c).
Proof.
  intros Hk Hpc Hrun. cbn [Server4.step]. rewrite Hk, Hpc.
  cbn [Server4.stream_video]. unfold Server4.run_loop. unfold bind at 1. unfold gets at 1.
  rewrite loop_S. cbn [fst]. rewrite Hrun. cbn. by rewrite app_nil_r.
Qed.

Lemma step_join_done c k stack t :
  Server4.main_at c = (Server4.MJoin k, stack) ->
  Server4.tasks c !! k = Some t -> Server4.pc t = Server4.PDone ->
  Server4.step c (Server4.Main (Server4.Io Completed)) =
    Server4.mkConfig (Server4.st c) (Server4.tasks c)
      (Server4.MConnect, Server4.InReconnect :: stack)
      (Server4.trace c
       ++ [EvLog INFO AttemptingReconnect; EvLog INFO StartingServer; EvConnect]).
Proof.
  intros Hat Hk Hpc. cbn [Server4.step]. rewrite Hat.
  cbn [Server4.main]. unfold Server4.join. unfold_py. cbn. rewrite Hk, Hpc.
  reflexivity.
Qed.


Lemma step_connect_failed c e pc :
  Server4.main_at c = (pc, [Server4.InMain]) ->
  pc = Server4.MConnect \/ pc = Server4.MRegister ->
  is_Exception e = true ->
  Server4.step c (Server4.Main (Server4.Io (Raised e))) =
    Server4.mkConfig (set_running false (Server4.st c)) (Server4.tasks c)
      (Server4.MRetry, [Server4.InMain])
      (Server4.trace c
       ++ [EvLog ERROR (FailedToConnect e); EvLog ERROR (ServerError e); EvSleep 5000]).
Proof.
  intros Hat Hpc He. cbn [Server4.step]. rewrite Hat.
  destruct Hpc as [-> | ->]; cbn [Server4.main]; unfold Server4.fail;
    rewrite He; destruct e; try discriminate; reflexivity.
Qed.

Lemma step_retry c :
  Server4.main_at c = (Server4.MRetry, [Server4.InMain]) ->
  Server4.step c (Server4.Main (Server4.Io Completed)) =
    Server4.mkConfig (Server4.st c) (Server4.tasks c)
      (Server4.MConnect, [Server4.InMain])
      (Server4.trace c ++ [EvLog INFO StartingServer; EvConnect]).
Proof.
  intros Hat. cbn [Server4.step]. rewrite Hat. reflexivity.
Qed.

End SupervisorFacts.

Section OneCoroutineFacts.
Context {frame jpeg : Type} `{!Cv2 frame jpeg}.
Implicit Types (s : store frame) (l : locals) (f : frame) (rc : M (store frame) unit).

Lemma handlers_eq rc (body : M (store frame * locals) unit) x :
  try_except body
    [(is_ConnectionClosed, fun _ => log ERROR WebSocketClosed ;; zoom rc);
     (is_Exception, fun e => log ERROR (ErrorDuringStreaming e) ;; sleep 1000)] x =
  match body x with
  | (Raise e, st, pre) => handled rc e st pre
  | other => other
  end.
Proof.
  unfold try_except, handled.
  destruct (body x) as [[[[]|e|] st] pre]; try reflexivity.
  cbn [dispatch]. destruct (is_ConnectionClosed e).
  - unfold_py. cbn. destruct (rc (fst st)) as [[r s1] t1]. cbn.
    by rewrite <- app_assoc.
  - destruct (is_Exception e); unfold_py; cbn; [|by rewrite app_nil_r].
    reflexivity.
Qed.

Lemma stream_iter3_no_frame rc s l c c' :
  cap s = Some c -> cap_read c = (Ok None, c') ->
  Server3.stream_iter rc (s, l) = (Ok tt, (set_cap (Some c') s, l), []).
Proof.
  intros Hc Hr. unfold Server3.stream_iter. rewrite handlers_eq.
  unfold read_frame. unfold_py. cbn. by rewrite Hc, Hr.
Qed.


Lemma stream_iter3_grab rc s l c c' f :
  cap s = Some c -> cap_read c = (Ok (Some f), c') ->
  Server3.stream_iter rc (s, l) =
    match encode3 (is_selected s) f with
    | Ok buffer =>
        match net s with
        | Completed :: rest =>
            (Ok tt, (set_net rest (fst (grabbed s c' l)), counted s l),
             count_events s l
             ++ [stream_flagged s buffer; EvSleep (if truthy (is_selected s) then 33 else 100)])
        | Raised e :: rest =>
            handled rc e (set_net rest (fst (grabbed s c' l)), counted s l)
                    (count_events s l ++ [stream_flagged s buffer])
        | [] => (Hang, grabbed s c' l, count_events s l ++ [stream_flagged s buffer])
        end
    | Raise e => handled rc e (grabbed s c' l) (count_events s l)
    | Hang => (Hang, grabbed s c' l, count_events s l)
    end.
Proof.
  intros Hc Hr. unfold Server3.stream_iter. rewrite handlers_eq.
  unfold bind at 1. unfold zoom at 1. unfold read_frame. cbn [fst snd]. rewrite Hc, Hr.
  unfold bind at 1. rewrite count_frame_eq, counted_set_cap, count_events_set_cap.
  unfold encode3, and_then, grabbed, stream_flagged, send, await_net. unfold_py. cbn.
  repeat (case_match; simplify_eq; cbn in *; rewrite ?app_nil_r; try reflexivity).
  all: try congruence.
  all: unfold emit in *; by simplify_eq.
Qed.

Lemma stream_loop3_S n rc x :
  Server3.stream_loop (S n) rc x =
    match Server3.stream_iter rc x with
    | (Ok _, st, evs) => after_events evs (Server3.stream_loop n rc st)
    | (Raise e, st, evs) => (Raise e, st, evs)
    | (Hang, st, evs) => (Hang, st, evs)
    end.
Proof.
  cbn [Server3.stream_loop]. unfold bind, after_events.
  by destruct (Server3.stream_iter rc x) as [[[[]|e|] st] evs].
Qed.

(** main.py *)
Lemma stream_iter_main_grab rc s l c c' f :
  cap s = Some c -> cap_read c = (Ok (Some f), c') ->
  Main.stream_iter rc (s, l) =
    match cv_imencode f [] with
    | Ok buffer =>
        match net s with
        | Completed :: rest =>
            (Ok tt, (set_net rest (fst (grabbed s c' l)), counted s l),
             count_events s l ++ [stream_plain s buffer; EvSleep 33])
        | Raised e :: rest =>
            handled rc e (set_net rest (fst (grabbed s c' l)), counted s l)
                    (count_events s l ++ [stream_plain s buffer])
        | [] => (Hang, grabbed s c' l, count_events s l ++ [stream_plain s buffer])
        end
    | Raise e => handled rc e (grabbed s c' l) (count_events s l)
    | Hang => (Hang, grabbed s c' l, count_events s l)
    end.
Proof.
  intros Hc Hr. unfold Main.stream_iter. rewrite handlers_eq.
  unfold bind at 1. unfold zoom at 1. unfold read_frame. cbn [fst snd]. rewrite Hc, Hr.
  unfold bind at 1. rewrite count_frame_eq, counted_set_cap, count_events_set_cap.
  unfold grabbed, stream_plain, send, await_net. unfold_py. cbn.
  repeat (case_match; simplify_eq; cbn in *; rewrite ?app_nil_r; try reflexivity).
Qed.

Lemma stream_iter_main_no_frame rc s l c c' :
  cap s = Some c -> cap_read c = (Ok None, c') ->
  Main.stream_iter rc (s, l) =
    (Ok tt, (set_cap (Some c') s, l), [EvLog WARNING FailedToReadFrame]).
Proof.
  intros Hc Hr. unfold Main.stream_iter. rewrite handlers_eq.
  unfold read_frame. unfold_py. cbn. by rewrite Hc, Hr.
Qed.

(** main_my4.py *)
Lemma stream_iter_my4_grab rc s l c c' f :
  cap s = Some c -> cap_read c = (Ok (Some f), c') ->
  MainMy4.stream_iter rc (s, l) =
    match cv_imencode f [] with
    | Ok buffer =>
        match net s with
        | Completed :: rest =>
            (Ok tt, (set_net rest (fst (grabbed s c' l)), counted s l),
             count_events s l ++ [stream_plain s buffer; EvSleep 33])
        | Raised e :: rest =>
            handled rc e (set_net rest (fst (grabbed s c' l)), counted s l)
                    (count_events s l ++ [stream_plain s buffer])
        | [] => (Hang, grabbed s c' l, count_events s l ++ [stream_plain s buffer])
        end
    | Raise e => handled rc e (grabbed s c' l) (count_events s l)
    | Hang => (Hang, grabbed s c' l, count_events s l)
    end.
Proof.
  intros Hc Hr. unfold MainMy4.stream_iter. rewrite handlers_eq.
  unfold bind at 1. unfold zoom at 1. unfold read_frame. cbn [fst snd]. rewrite Hc, Hr.
  unfold bind at 1. rewrite count_frame_eq, counted_set_cap, count_events_set_cap.
  unfold grabbed, stream_plain, send, await_net. unfold_py. cbn.
  repeat (case_match; simplify_eq; cbn in *; rewrite ?app_nil_r; try reflexivity).
Qed.

Lemma stream_iter_my4_end rc s l c c' :
  cap s = Some c -> cap_read c = (Ok None, c') ->
  MainMy4.stream_iter rc (s, l) =
    (Ok tt, (set_cap (Some (cap_rewind c')) s, l), [EvLog INFO EndOfVideo]).
Proof.
  intros Hc Hr. unfold MainMy4.stream_iter. rewrite handlers_eq.
  unfold read_frame, cap_rewind_self. unfold_py. cbn. by rewrite Hc, Hr.
Qed.

Lemma stream_loop_my4_S n rc x :
  MainMy4.stream_loop (S n) rc x =
    match MainMy4.stream_iter rc x with
    | (Ok _, st, evs) => after_events evs (MainMy4.stream_loop n rc st)
    | (Raise e, st, evs) => (Raise e, st, evs)
    | (Hang, st, evs) => (Hang, st, evs)
    end.
Proof.
  cbn [MainMy4.stream_loop]. unfold bind, after_events.
  by destruct (MainMy4.stream_iter rc x) as [[[[]|e|] st] evs].
Qed.

End OneCoroutineFacts.

(** A video file played over and over. *)
Section Replay.
Context {frame jpeg : Type} `{!Cv2 frame jpeg}.
Implicit Types (s : store frame) (l : locals) (f : frame) (rc : M (store frame) unit).

Variables (frames : list frame) (bufs : list jpeg).
Hypothesis encodable : Forall2 (fun f b => cv_imencode f [] = Ok b) frames bufs.

(** From position [p], the [d] frames left and the pass that rewinds. *)
Lemma play_rest d : forall p m rc s l tail_net,
  (p + d = length frames)%nat ->
  cap s = Some (File frames p) ->
  net s = replicate d Completed ++ tail_net ->
  exists evs s' l',
    MainMy4.stream_loop (d + 1 + m) rc (s, l)
      = after_events evs (MainMy4.stream_loop m rc (s', l'))
    /\ sent evs = b64encode <$> drop p bufs
    /\ cap s' = Some (File frames 0)
    /\ net s' = tail_net.
Proof.
  pose proof (Forall2_length _ _ _ encodable) as Hlen.
  induction d as [|d IH]; intros p m rc s l tail_net Hp Hc Hn.
  - assert (frames !! p = None) as Hnone by (apply lookup_ge_None; lia).
    cbn [Nat.add]. rewrite stream_loop_my4_S.
    rewrite (stream_iter_my4_end rc s l (File frames p) (File frames p) Hc)
      by (cbn; by rewrite Hnone).
    eexists _, _, _. split; [reflexivity|]. cbn.
    rewrite drop_ge by lia. done.
  - destruct (lookup_lt_is_Some_2 frames p) as [f Hf]; [lia|].
    destruct (Forall2_lookup_l _ _ _ _ _ encodable Hf) as (b & Hb & Henc).
    cbn [Nat.add]. rewrite stream_loop_my4_S.
    rewrite (stream_iter_my4_grab rc s l (File frames p) (File frames (S p)) f Hc)
      by (cbn; by rewrite Hf).
    rewrite Henc, Hn. cbn [replicate app].
    edestruct (IH (S p) m rc) as (evs & s' & l' & Hrun & Hsent & Hc' & Hn');
      [lia| | |].
    3:{ rewrite Hrun, after_events_twice. eexists _, _, _. split; [reflexivity|].
        split; [|split; [exact Hc' | exact Hn']].
        rewrite sent_app, Hsent, sent_app, sent_count_events. cbn.
        by rewrite (drop_S _ _ _ Hb). }
    + reflexivity.
    + reflexivity.
Qed.

(** [k] times through the whole file. *)
Lemma play_cycles k : forall m rc s l tail_net,
  cap s = Some (File frames 0) ->
  net s = replicate (k * length frames) Completed ++ tail_net ->
  exists evs s' l',
    MainMy4.stream_loop (k * S (length frames) + m) rc (s, l)
      = after_events evs (MainMy4.stream_loop m rc (s', l'))
    /\ sent evs = mjoin (replicate k (b64encode <$> bufs))
    /\ cap s' = Some (File frames 0)
    /\ net s' = tail_net.
Proof.
  induction k as [|k IH]; intros m rc s l tail_net Hc Hn.
  - exists [], s, l. cbn in *. destruct (MainMy4.stream_loop m rc (s, l)) as [[? ?] ?].
    done.
  - cbn [Nat.mul] in *. rewrite replicate_add, <- app_assoc in Hn.
    destruct (play_rest (length frames) 0 (k * S (length frames) + m) rc s l _
                eq_refl Hc Hn) as (e1 & s1 & l1 & Hrun1 & Hsent1 & Hc1 & Hn1).
    destruct (IH m rc s1 l1 tail_net Hc1 Hn1) as (e2 & s2 & l2 & Hrun2 & Hsent2 & Hc2 & Hn2).
    exists (e1 ++ e2), s2, l2. split; [|split; [|done]].
    + replace (S (length frames) + k * S (length frames) + m)%nat
        with (length frames + 1 + (k * S (length frames) + m))%nat by lia.
      by rewrite Hrun1, Hrun2, after_events_twice.
    + rewrite sent_app, Hsent1, Hsent2. by rewrite drop_0.
Qed.

End Replay.

(** The failures of a pass, one by one. *)
Section FailureFacts.
Context {frame jpeg : Type} `{!Cv2 frame jpeg}.
Implicit Types (s : store frame) (l : locals) (f : frame) (rc : M (store frame) unit).


Lemma loop_encode_fails n s l c c' f e evs :
  running s = true -> cap s = Some c -> cap_read c = (Ok (Some f), c') ->
  encode4 (is_selected s) f = (Raise e, evs) -> is_Exception e = true ->
  Server4.loop (S n) (s, l) =
    (Ok Server4.PBackoff, grabbed s c' l, (count_events s l ++ evs) ++ backoff_events e).
Proof.
  intros Hrun Hc Hr Henc He. rewrite loop_S, Hrun.
  by rewrite (until_send_grab _ _ _ _ _ Hc Hr), Henc, He.
Qed.


Lemma loop_sends n s l c c' f buffer evs :
  running s = true -> cap s = Some c -> cap_read c = (Ok (Some f), c') ->
  encode4 (is_selected s) f = (Ok buffer, evs) ->
  Server4.loop (S n) (s, l) =
    (Ok Server4.PSend, grabbed s c' l,
     count_events s l ++ evs ++ [stream_flagged s buffer]).
Proof.
  intros Hrun Hc Hr Henc. rewrite loop_S, Hrun.
  by rewrite (until_send_grab _ _ _ _ _ Hc Hr), Henc.
Qed.

Lemma handled_backoff rc e st pre :
  is_ConnectionClosed e = false -> is_Exception e = true ->
  handled rc e st pre = (Ok tt, st, pre ++ backoff_events e).
Proof. unfold handled. by intros -> ->. Qed.


Lemma iter3_encode_fails rc s l c c' f e :
  cap s = Some c -> cap_read c = (Ok (Some f), c') ->
  encode3 (is_selected s) f = Raise e ->
  is_ConnectionClosed e = false -> is_Exception e = true ->
  Server3.stream_iter rc (s, l) =
    (Ok tt, grabbed s c' l, count_events s l ++ backoff_events e).
Proof.
  intros Hc Hr Henc Hcc He.
  by rewrite (stream_iter3_grab _ _ _ _ _ _ Hc Hr), Henc, handled_backoff.
Qed.


Lemma iter3_sends rc s l c c' f buffer rest :
  cap s = Some c -> cap_read c = (Ok (Some f), c') ->
  encode3 (is_selected s) f = Ok buffer -> net s = Completed :: rest ->
  Server3.stream_iter rc (s, l) =
    (Ok tt, (set_net rest (fst (grabbed s c' l)), counted s l),
     count_events s l
     ++ [stream_flagged s buffer;
         EvSleep (if truthy (is_selected s) then 33 else 100)]).
Proof.
  intros Hc Hr Henc Hn.
  by rewrite (stream_iter3_grab _ _ _ _ _ _ Hc Hr), Henc, Hn.
Qed.

Lemma iter3_send_closed rc s l c c' f buffer rest :
  cap s = Some c -> cap_read c = (Ok (Some f), c') ->
  encode3 (is_selected s) f = Ok buffer -> net s = Raised ConnectionClosed :: rest ->
  Server3.stream_iter rc (s, l) =
    after_events (count_events s l ++ [stream_flagged s buffer; EvLog ERROR WebSocketClosed])
      (zoom rc (set_net rest (fst (grabbed s c' l)), counted s l)).
Proof.
  intros Hc Hr Henc Hn.
  rewrite (stream_iter3_grab _ _ _ _ _ _ Hc Hr), Henc, Hn. unfold handled. cbn.
  by rewrite <- app_assoc.
Qed.

Lemma iter_main_sends rc s l c c' f buffer rest :
  cap s = Some c -> cap_read c = (Ok (Some f), c') ->
  cv_imencode f [] = Ok buffer -> net s = Completed :: rest ->
  Main.stream_iter rc (s, l) =
    (Ok tt, (set_net rest (fst (grabbed s c' l)), counted s l),
     count_events s l ++ [stream_plain s buffer; EvSleep 33]).
Proof.
  intros Hc Hr Henc Hn.
  by rewrite (stream_iter_main_grab _ _ _ _ _ _ Hc Hr), Henc, Hn.
Qed.

Lemma iter_main_send_closed rc s l c c' f buffer rest :
  cap s = Some c -> cap_read c = (Ok (Some f), c') ->
  cv_imencode f [] = Ok buffer -> net s = Raised ConnectionClosed :: rest ->
  Main.stream_iter rc (s, l) =
    after_events (count_events s l ++ [stream_plain s buffer; EvLog ERROR WebSocketClosed])
      (zoom rc (set_net rest (fst (grabbed s c' l)), counted s l)).
Proof.
  intros Hc Hr Henc Hn.
  rewrite (stream_iter_main_grab _ _ _ _ _ _ Hc Hr), Henc, Hn. unfold handled. cbn.
  by rewrite <- app_assoc.
Qed.

End FailureFacts.

(** * The claims *)

Section Claims.
Context {frame jpeg : Type} {CV : Cv2 frame jpeg} {JS : Json}.
Implicit Types (s : store frame) (l : locals) (f : frame) (rc : M (store frame) unit).
Implicit Types (cfg : Server4.config frame) (t : Server4.task).

(** C1, amended.  For every inbound selection message (a JSON object whose
    type is 'select'), [handle_message] of server4.py applies the new value
    to the selected flag whatever the message's [server_id] is (absent,
    equal or different); [handle_message] of server3.py applies it only if
    the message's [server_id] equals this session's [server_id], and
    leaves the flag unchanged otherwise, also when the id is absent. *)
Theorem select_applied_by_variant message kv s :
  json_loads message = Some (PyDict kv) ->
  assoc "type" kv = Some (PyStr "select") ->
  is_selected (state_of (Server4.handle_message message s)) = chosen kv
  /\ is_selected (state_of (Server3.handle_message message s)) =
       (if targets kv (server_id s) then chosen kv else is_selected s).
Proof.
  intros Hparse Htype.
  rewrite (server4_select _ _ _ Hparse Htype), (server3_select _ _ _ Hparse Htype).
  split; [reflexivity|]. by destruct (targets kv (server_id s)).
Qed.

(** C10.  For every inbound message that parses as JSON with type 'select'
    and has no 'selected' field, [handle_message] sets the selected flag
    to [False]: in server4.py always, in server3.py when the message's
    [server_id] is this session's.  The message is neither discarded nor
    does it leave the flag as it was. *)
Theorem select_without_value_clears message kv s :
  json_loads message = Some (PyDict kv) ->
  assoc "type" kv = Some (PyStr "select") ->
  assoc "selected" kv = None ->
  Server4.handle_message message s =
    (Ok tt, set_is_selected (PyBool false) s,
     [EvLog INFO (SelectionChanged (is_selected s) (PyBool false))])
  /\ (assoc "server_id" kv = Some (PyStr (server_id s)) ->
      Server3.handle_message message s =
        (Ok tt, set_is_selected (PyBool false) s,
         [EvLog INFO (SelectionNow (PyBool false))])).
Proof.
  intros Hparse Htype Hnone. split.
  - rewrite (server4_select _ _ _ Hparse Htype). unfold chosen. by rewrite Hnone.
  - intros Hid. rewrite (server3_select _ _ _ Hparse Htype).
    unfold targets, chosen. rewrite Hid, Hnone. cbn.
    by rewrite String.eqb_refl.
Qed.

(** C5, amended.  If the enhancement pipeline (denoise, sharpen, resize)
    raises an exception during selected-tier processing, the failure is
    absorbed: a record is logged at error level (not as a warning) and the
    plain resize (INTER_AREA) to the same 320x240 target is used instead,
    so the call still returns a valid frame and no error propagates to the
    caller.  This holds of every frame that reaches the call: line 74 has
    scaled it to the thumbnail first, and [cv2.resize] rejects a frame,
    not a target size.  The producer then encodes the fallback frame with
    the parameters of the selected tier and puts it on the wire. *)
Theorem enhancement_failure_falls_back f thumbnail e s :
  resize_by_frame ->
  cv_resize f (80, 60) INTER_AREA = Ok thumbnail ->
  enhance f = Raise e -> is_Exception e = true ->
  exists p,
    cv_resize f (320, 240) INTER_AREA = Ok p
    /\ Server4.process_high_quality_frame f s =
         (Ok p, s, [EvLog ERROR (ErrorProcessingHighQuality e)])
    /\ forall l c c' buffer,
         cap s = Some c -> cap_read c = (Ok (Some f), c') ->
         truthy (is_selected s) = true ->
         cv_imencode p Server4.selected_params = Ok buffer ->
         Server4.until_send (s, l) =
           (Ok Server4.Sending, grabbed s c' l,
            count_events s l
            ++ [EvLog ERROR (ErrorProcessingHighQuality e); stream_flagged s buffer]).
Proof.
  intros Hlaw Hth Henh He. destruct (Hlaw f thumbnail Hth) as [p Hp].
  exists p. split; [exact Hp|]. split.
  - by rewrite (enhance_fallback f e s Henh He), Hp.
  - intros l c c' buffer Hc Hr Hsel Hbuf.
    rewrite (until_send_grab s l c c' f Hc Hr).
    unfold encode4, and_then. by rewrite Hth, Hsel, Henh, He, Hp, Hbuf.
Qed.

(** What a step of the event loop puts on the wire is untorn. *)
Lemma step_untorn cfg (sc : Server4.sched) :
  exists evs,
    Server4.trace (Server4.step cfg sc) = Server4.trace cfg ++ evs
    /\ Forall (untorn (is_selected (Server4.st cfg))) evs.
Proof.
  destruct sc as [i|k i]; cbn [Server4.step].
  - pose proof (main_task_quiet i (Server4.main_at cfg)
                  (Server4.st cfg, Server4.tasks cfg)) as Hq.
    destruct (Server4.main _ _ _) as [[r [st' tasks']] evs]. cbn in *.
    exists evs. split; [done|]. by apply no_stream_untorn.
  - destruct (Server4.tasks cfg !! k) as [t|].
    2:{ exists []. split; [by rewrite app_nil_r | constructor]. }
    destruct (Server4.stream_video _ _ _) as [[r [st' vars']] evs] eqn:Hr.
    apply resume_untorn in Hr. exists evs. by split.
Qed.

(** C3, amended.  For every sent stream message, the [is_selected] field
    of the message equals the selected value that was in effect when that
    frame's encode step began, and the tier of the encoded payload and the
    reported flag never disagree: whatever coroutine the event loop
    resumes, and with whatever outcome, every stream message of the step
    reports the value the flag had when the step began and carries the
    payload of that value's tier; and an iteration that reads and encodes
    a frame does send it so.  The value is not captured once per
    iteration: the attribute is read anew at each use, for the tier (line
    76), for the message (line 98) and for the pacing delay (line 103).
    No [await] lies between the first two reads; the third follows the
    [await] of the send, so the delay follows the value the flag has when
    the send has completed, whatever the message reported. *)
Theorem untorn_but_not_captured cfg k t :
  Server4.tasks cfg !! k = Some t ->
  (* whatever is resumed, with whatever outcome *)
  (forall sc, exists evs,
     Server4.trace (Server4.step cfg sc) = Server4.trace cfg ++ evs
     /\ Forall (untorn (is_selected (Server4.st cfg))) evs)
  (* an iteration that reads and encodes a frame sends it *)
  /\ (forall c c' f buffer hq,
        Server4.pc t = Server4.PPace \/ Server4.pc t = Server4.PBackoff ->
        running (Server4.st cfg) = true ->
        cap (Server4.st cfg) = Some c -> cap_read c = (Ok (Some f), c') ->
        encode4 (is_selected (Server4.st cfg)) f = (Ok buffer, hq) ->
        Server4.step cfg (Server4.Task k Completed) =
          Server4.mkConfig (fst (grabbed (Server4.st cfg) c' (Server4.vars t)))
            (<[k := Server4.mkTask Server4.PSend
                      (counted (Server4.st cfg) (Server4.vars t))]> (Server4.tasks cfg))
            (Server4.main_at cfg)
            (Server4.trace cfg
             ++ count_events (Server4.st cfg) (Server4.vars t) ++ hq
             ++ [stream_flagged (Server4.st cfg) buffer]))
  (* the pacing delay is read when the send has completed *)
  /\ (Server4.pc t = Server4.PSend ->
      Server4.trace (Server4.step cfg (Server4.Task k Completed)) =
        Server4.trace cfg
        ++ [EvSleep (if truthy (is_selected (Server4.st cfg)) then 33 else 100)]).
Proof.
  intros Hk. split; [|split].
  - intros sc. apply step_untorn.
  - intros c c' f buffer hq Hpc Hrun Hc Hr Henc.
    cbn [Server4.step]. rewrite Hk.
    assert (Server4.stream_video Completed (Server4.pc t) (Server4.st cfg, Server4.vars t) =
            (Ok Server4.PSend, grabbed (Server4.st cfg) c' (Server4.vars t),
             count_events (Server4.st cfg) (Server4.vars t) ++ hq
             ++ [stream_flagged (Server4.st cfg) buffer])) as ->.
    { destruct Hpc as [-> | ->]; cbn [Server4.stream_video];
        unfold Server4.run_loop; unfold bind at 1, gets at 1;
        by rewrite (loop_sends _ _ _ c c' f buffer hq Hrun Hc Hr Henc). }
    reflexivity.
  - intros Hpc. by rewrite (step_send_completed cfg k t Hk Hpc).
Qed.

(** C7.  In every successful producer iteration the pacing sleep is 33 ms
    when the selected flag is true and 100 ms when it is false: in
    server4.py when the awaited send completes, in server3.py at the end of
    the pass.  main.py has no flag and always sleeps 33 ms. *)
Theorem pacing_follows_flag cfg k t rc s l c c' f buffer plain rest :
  Server4.tasks cfg !! k = Some t -> Server4.pc t = Server4.PSend ->
  cap s = Some c -> cap_read c = (Ok (Some f), c') ->
  encode3 (is_selected s) f = Ok buffer -> cv_imencode f [] = Ok plain ->
  net s = Completed :: rest ->
  Server4.trace (Server4.step cfg (Server4.Task k Completed)) =
    Server4.trace cfg
    ++ [EvSleep (if truthy (is_selected (Server4.st cfg)) then 33 else 100)]
  /\ events_of (Server3.stream_iter rc (s, l)) =
       count_events s l
       ++ [stream_flagged s buffer; EvSleep (if truthy (is_selected s) then 33 else 100)]
  /\ events_of (Main.stream_iter rc (s, l)) =
       count_events s l ++ [stream_plain s plain; EvSleep 33].
Proof.
  intros Hk Hpc Hc Hr Henc Hplain Hn. repeat split.
  - by rewrite (step_send_completed _ _ _ Hk Hpc).
  - by rewrite (iter3_sends _ _ _ _ _ _ _ _ Hc Hr Henc Hn).
  - by rewrite (iter_main_sends _ _ _ _ _ _ _ _ Hc Hr Hplain Hn).
Qed.

(** C2, amended.  When the send of the producer of server4.py observes
    ConnectionClosed, the producer treats it as any other exception: it
    logs it, sleeps one second and stays in its loop; it leaves [running]
    as it is and starts no reconnection.  It is the receive loop of
    [start_server] that, on ConnectionClosed, sets [running] to false and
    awaits the producer, which leaves its loop at its next test of
    [running]; then [start_server] calls [reconnect].  In server3.py and
    main.py the streaming loop itself calls [reconnect] when its send
    observes ConnectionClosed. *)
Theorem closed_send_by_variant cfg k t stack rc s l c c' f buffer plain rest :
  Server4.tasks cfg !! k = Some t -> Server4.pc t = Server4.PSend ->
  Server4.main_at cfg = (Server4.MRecv k, stack) ->
  cap s = Some c -> cap_read c = (Ok (Some f), c') ->
  encode3 (is_selected s) f = Ok buffer -> cv_imencode f [] = Ok plain ->
  net s = Raised ConnectionClosed :: rest ->
  let backing_off := Server4.step cfg (Server4.Task k (Raised ConnectionClosed)) in
  let closed := Server4.step backing_off (Server4.Main (Server4.Io (Raised ConnectionClosed))) in
  let stopped := Server4.step closed (Server4.Task k Completed) in
  let reconnecting := Server4.step stopped (Server4.Main (Server4.Io Completed)) in
  (* the producer: logs, sleeps 1 s, stays in the loop *)
  backing_off =
    Server4.mkConfig (Server4.st cfg)
      (<[k := Server4.mkTask Server4.PBackoff (Server4.vars t)]> (Server4.tasks cfg))
      (Server4.main_at cfg)
      (Server4.trace cfg ++ backoff_events ConnectionClosed)
  (* the receive loop: running := False, await video_task *)
  /\ running (Server4.st closed) = false
  /\ Server4.main_at closed = (Server4.MJoin k, stack)
  (* the producer leaves its loop *)
  /\ Server4.pc <$> Server4.tasks stopped !! k = Some Server4.PDone
  (* start_server reconnects *)
  /\ Server4.main_at reconnecting = (Server4.MConnect, Server4.InReconnect :: stack)
  /\ Server4.trace reconnecting =
       Server4.trace cfg ++ backoff_events ConnectionClosed
       ++ [EvLog ERROR WebSocketClosed; EvLog INFO AttemptingReconnect;
           EvLog INFO StartingServer; EvConnect]
  (* server3.py and main.py: the loop calls reconnect *)
  /\ Server3.stream_iter rc (s, l) =
       after_events
         (count_events s l ++ [stream_flagged s buffer; EvLog ERROR WebSocketClosed])
         (zoom rc (set_net rest (fst (grabbed s c' l)), counted s l))
  /\ Main.stream_iter rc (s, l) =
       after_events
         (count_events s l ++ [stream_plain s plain; EvLog ERROR WebSocketClosed])
         (zoom rc (set_net rest (fst (grabbed s c' l)), counted s l)).
Proof.
  intros Hk Hpc Hat Hc Hr Henc Hplain Hn.
  assert (k < length (Server4.tasks cfg))%nat as Hlt by (by eapply lookup_lt_Some).
  pose proof (step_send_raised cfg k t ConnectionClosed Hk Hpc eq_refl) as H1.
  cbn zeta. rewrite H1.
  set (c1 := Server4.mkConfig _ _ _ _).
  assert (Server4.tasks c1 !! k = Some (Server4.mkTask Server4.PBackoff (Server4.vars t)))
    as Hk1 by (by apply list_lookup_insert_eq).
  pose proof (step_recv_closed c1 k stack _ Hat Hk1 (or_introl eq_refl)) as H2.
  rewrite H2. set (c2 := Server4.mkConfig _ _ _ _).
  pose proof (step_backoff_stopped c2 k _ Hk1 eq_refl eq_refl) as H3.
  rewrite H3. set (c3 := Server4.mkConfig _ _ _ _).
  assert (Server4.tasks c3 !! k = Some (Server4.mkTask Server4.PDone (Server4.vars t)))
    as Hk3.
  { cbn. apply list_lookup_insert_eq. by rewrite length_insert. }
  pose proof (step_join_done c3 k stack _ eq_refl Hk3 eq_refl) as H4.
  rewrite H4.
  repeat split; try reflexivity.
  - by rewrite Hk3.
  - cbn. by rewrite <- !app_assoc.
  - by apply (iter3_send_closed rc s l c c' f).
  - by apply (iter_main_send_closed rc s l c c' f).
Qed.


(** C4, amended.  In server4.py, every frame encoded while selected whose
    enhancement pipeline does not raise is denoised, sharpened and resized
    (Lanczos) to 320x240, then encoded at JPEG quality 98 with the optimize
    and the progressive flags; every frame encoded while unselected is
    resized to the 80x60 thumbnail and encoded at quality 85 with the
    optimize flag only.  In server3.py the selected tier is a plain resize
    to 640x480 encoded at quality 90 and the unselected tier a 160x120
    thumbnail encoded at quality 75: no enhancement, and neither the
    optimize nor the progressive flag, in either tier. *)
Theorem encode_tiers_by_variant s l c c' f :
  cap s = Some c -> cap_read c = (Ok (Some f), c') ->
  (* server4.py, selected *)
  (forall thumbnail denoised sharpened processed buffer,
     truthy (is_selected s) = true ->
     cv_resize f (80, 60) INTER_AREA = Ok thumbnail ->
     cv_fastNlMeansDenoisingColored f 10 10 7 21 = Ok denoised ->
     cv_filter2D denoised [[-1; -1; -1]; [-1; 9; -1]; [-1; -1; -1]] = Ok sharpened ->
     cv_resize sharpened (320, 240) INTER_LANCZOS4 = Ok processed ->
     cv_imencode processed
       [(IMWRITE_JPEG_QUALITY, 98); (IMWRITE_JPEG_OPTIMIZE, 1);
        (IMWRITE_JPEG_PROGRESSIVE, 1)] = Ok buffer ->
     Server4.until_send (s, l) =
       (Ok Server4.Sending, grabbed s c' l, count_events s l ++ [stream_flagged s buffer]))
  (* server4.py, unselected *)
  /\ (forall thumbnail buffer,
        truthy (is_selected s) = false ->
        cv_resize f (80, 60) INTER_AREA = Ok thumbnail ->
        cv_imencode thumbnail
          [(IMWRITE_JPEG_QUALITY, 85); (IMWRITE_JPEG_OPTIMIZE, 1)] = Ok buffer ->
        Server4.until_send (s, l) =
          (Ok Server4.Sending, grabbed s c' l,
           count_events s l ++ [stream_flagged s buffer]))
  (* server3.py, selected *)
  /\ (forall rc rest thumbnail resized buffer,
        truthy (is_selected s) = true -> net s = Completed :: rest ->
        cv_resize f (160, 120) INTER_LINEAR = Ok thumbnail ->
        cv_resize f (640, 480) INTER_LINEAR = Ok resized ->
        cv_imencode resized [(IMWRITE_JPEG_QUALITY, 90)] = Ok buffer ->
        events_of (Server3.stream_iter rc (s, l)) =
          count_events s l ++ [stream_flagged s buffer; EvSleep 33])
  (* server3.py, unselected *)
  /\ (forall rc rest thumbnail buffer,
        truthy (is_selected s) = false -> net s = Completed :: rest ->
        cv_resize f (160, 120) INTER_LINEAR = Ok thumbnail ->
        cv_imencode thumbnail [(IMWRITE_JPEG_QUALITY, 75)] = Ok buffer ->
        events_of (Server3.stream_iter rc (s, l)) =
          count_events s l ++ [stream_flagged s buffer; EvSleep 100]).
Proof.
  intros Hc Hr. split; [|split; [|split]].
  - intros thumbnail denoised sharpened processed buffer Hsel Hth Hd Hs Hp Hb.
    rewrite (until_send_grab _ _ _ _ _ Hc Hr).
    unfold encode4, enhance, and_then.
    fold Server4.sharpen_kernel in Hs. fold Server4.selected_params in Hb.
    by rewrite Hth, Hsel, Hd, Hs, Hp, Hb.
  - intros thumbnail buffer Hsel Hth Hb.
    rewrite (until_send_grab _ _ _ _ _ Hc Hr).
    unfold encode4. fold Server4.unselected_params in Hb.
    by rewrite Hth, Hsel, Hb.
  - intros rc rest thumbnail resized buffer Hsel Hn Hth Hre Hb.
    rewrite (iter3_sends rc _ _ _ _ _ buffer rest Hc Hr); [by rewrite Hsel| |done].
    unfold encode3, and_then. by rewrite Hth, Hsel, Hre.
  - intros rc rest thumbnail buffer Hsel Hn Hth Hb.
    rewrite (iter3_sends rc _ _ _ _ _ buffer rest Hc Hr); [by rewrite Hsel| |done].
    unfold encode3, and_then. by rewrite Hth, Hsel.
Qed.

(** C6.  When a read of the file-backed source of main_my4.py signals the
    end of the stream, the pass seeks back to frame zero and does not
    fail, so the next read returns the first frame again; the loop thus
    plays the same content over and over: [k] times through the file
    sends the encoded frames of the file [k] times. *)
Theorem file_source_rewinds frames bufs first more pos rc s l :
  frames = first :: more -> (length frames <= pos)%nat ->
  cap s = Some (File frames pos) ->
  Forall2 (fun f b => cv_imencode f [] = Ok b) frames bufs ->
  MainMy4.stream_iter rc (s, l) =
    (Ok tt, (set_cap (Some (File frames 0)) s, l), [EvLog INFO EndOfVideo])
  /\ read_frame (set_cap (Some (File frames 0)) s) =
       (Ok (Some first), set_cap (Some (File frames 1)) s, [])
  /\ forall k s0 l0,
       cap s0 = Some (File frames 0) ->
       net s0 = replicate (k * length frames) Completed ->
       sent (events_of (MainMy4.stream_loop (k * S (length frames)) rc (s0, l0))) =
         mjoin (replicate k (b64encode <$> bufs)).
Proof.
  intros -> Hpos Hc Henc. split; [|split].
  - apply (stream_iter_my4_end rc s l (File (first :: more) pos)
             (File (first :: more) pos)); [done|].
    cbn. by rewrite (proj2 (lookup_ge_None _ _) Hpos).
  - reflexivity.
  - intros k s0 l0 Hc0 Hn0.
    destruct (play_cycles _ _ Henc k 0 rc s0 l0 [] Hc0) as (evs & s' & l' & Hrun & Hsent & _).
    { by rewrite app_nil_r. }
    rewrite Nat.add_0_r in Hrun. rewrite Hrun. cbn. by rewrite app_nil_r.
Qed.


End Claims.

(** * The program logic *)

Section Keeps.
Context {S : Type}.
Variables (Inv : S -> Prop) (Q : event -> Prop).

Lemma keeps_weaken {A} (R1 R2 : A -> S -> Prop) m s :
  (forall a s', R1 a s' -> R2 a s') -> keeps Inv Q R1 m s -> keeps Inv Q R2 m s.
Proof. intros HR (Hi & Hq & Hr). repeat split; auto. Qed.

Lemma keeps_bind {A B} (R1 : A -> S -> Prop) (R2 : B -> S -> Prop) m k s :
  keeps Inv Q R1 m s ->
  (forall a s1, Inv s1 -> R1 a s1 -> keeps Inv Q R2 (k a) s1) ->
  keeps Inv Q R2 (bind m k) s.
Proof.
  unfold keeps, bind, result_of, state_of, events_of.
  destruct (m s) as [[[a|e|] s1] t1]; cbn; intros (Hi & Hq & Hr) Hk;
    try (repeat split; [done..|discriminate]).
  specialize (Hk a s1 Hi (Hr a eq_refl)).
  destruct (k a s1) as [[r2 s2] t2]. cbn in *.
  destruct Hk as (Hi2 & Hq2 & Hr2). repeat split; [done| |done].
  rewrite Forall_app. by split.
Qed.

Lemma keeps_ret {A} (R : A -> S -> Prop) a s : Inv s -> R a s -> keeps Inv Q R (ret a) s.
Proof. intros. repeat split; try done. cbn. by intros ? [= <-]. Qed.

Lemma keeps_raise {A} (R : A -> S -> Prop) e s : Inv s -> keeps Inv Q R (raise e) s.
Proof. intros. repeat split; done. Qed.

Lemma keeps_hang {A} (R : A -> S -> Prop) s : Inv s -> keeps Inv Q R hang s.
Proof. intros. repeat split; done. Qed.

Lemma keeps_emit (R : unit -> S -> Prop) e s :
  Inv s -> Q e -> R tt s -> keeps Inv Q R (emit e) s.
Proof. intros. repeat split; try done; cbn; [by repeat constructor | by intros []]. Qed.

Lemma keeps_gets {A} (R : A -> S -> Prop) (f : S -> A) s :
  Inv s -> R (f s) s -> keeps Inv Q R (gets f) s.
Proof. intros. repeat split; try done. cbn. by intros ? [= <-]. Qed.

Lemma keeps_modify (R : unit -> S -> Prop) (f : S -> S) s :
  Inv (f s) -> R tt (f s) -> keeps Inv Q R (modify f) s.
Proof. intros. repeat split; try done. cbn. by intros []. Qed.

Lemma keeps_lift {A} (R : A -> S -> Prop) (r : res A) s :
  Inv s -> (forall a, r = Ok a -> R a s) -> keeps Inv Q R (lift r) s.
Proof. intros. repeat split; done. Qed.

(** What precedes in a sequence, when it is a primitive. *)
Lemma keeps_bind_gets {A B} (R : B -> S -> Prop) (f : S -> A) k s :
  keeps Inv Q R (k (f s)) s -> keeps Inv Q R (bind (gets f) k) s.
Proof.
  unfold keeps, bind, gets, result_of, state_of, events_of. cbn.
  by destruct (k (f s) s) as [[r2 s2] t2].
Qed.

Lemma keeps_bind_modify {B} (R : B -> S -> Prop) (f : S -> S) k s :
  keeps Inv Q R (k tt) (f s) -> keeps Inv Q R (bind (modify f) k) s.
Proof.
  unfold keeps, bind, modify, result_of, state_of, events_of. cbn.
  by destruct (k tt (f s)) as [[r2 s2] t2].
Qed.

Lemma keeps_bind_emit {B} (R : B -> S -> Prop) e k s :
  Q e -> keeps Inv Q R (k tt) s -> keeps Inv Q R (bind (emit e) k) s.
Proof.
  unfold keeps, bind, emit, result_of, state_of, events_of. cbn.
  destruct (k tt s) as [[r2 s2] t2]. cbn. intros He (Hi & Hq & Hr).
  repeat split; try done. by constructor.
Qed.

Lemma keeps_bind_lift {A B} (R : B -> S -> Prop) (r : res A) k s :
  Inv s -> (forall a, r = Ok a -> keeps Inv Q R (k a) s) -> keeps Inv Q R (bind (lift r) k) s.
Proof.
  unfold keeps, bind, lift, result_of, state_of, events_of.
  destruct r as [a|e|]; cbn; intros Hi Hk; try (repeat split; [done..|discriminate]).
  specialize (Hk a eq_refl). by destruct (k a s) as [[r2 s2] t2].
Qed.

Lemma keeps_dispatch_nil {A} (R : A -> S -> Prop) e s :
  Inv s -> keeps Inv Q R (dispatch e []) s.
Proof. apply keeps_raise. Qed.

Lemma keeps_dispatch_cons {A} (R : A -> S -> Prop) e (p : exn -> bool) h rest s :
  (p e = true -> keeps Inv Q R (h e) s) ->
  (p e = false -> keeps Inv Q R (dispatch e rest) s) ->
  keeps Inv Q R (dispatch e ((p, h) :: rest)) s.
Proof. cbn [dispatch]. destruct (p e); auto. Qed.

Lemma keeps_try {A} (R : A -> S -> Prop) m clauses s :
  keeps Inv Q R m s ->
  (forall e s1, Inv s1 -> keeps Inv Q R (dispatch e clauses) s1) ->
  keeps Inv Q R (try_except m clauses) s.
Proof.
  unfold keeps, try_except, result_of, state_of, events_of.
  destruct (m s) as [[[a|e|] s1] t1]; cbn; intros (Hi & Hq & Hr) Hh; try done.
  specialize (Hh e s1 Hi). destruct (dispatch e clauses s1) as [[r2 s2] t2]. cbn in *.
  destruct Hh as (Hi2 & Hq2 & Hr2). repeat split; [done| |done].
  rewrite Forall_app. by split.
Qed.

End Keeps.

Lemma keeps_zoom {S T A} (Inv : S -> Prop) Q (R : A -> S * T -> Prop) (m : M S A) x :
  keeps Inv Q (fun a s' => R a (s', snd x)) m (fst x) ->
  keeps (fun y => Inv (fst y)) Q R (zoom m) x.
Proof.
  unfold keeps, zoom, result_of, state_of, events_of.
  by destruct (m (fst x)) as [[r s1] t1].
Qed.

Lemma keeps_with_locals {frame A} (Inv : store frame -> Prop) Q
    (R : A -> store frame -> Prop) l (m : M (store frame * locals) A) s :
  keeps (fun y => Inv (fst y)) Q (fun a y => R a (fst y)) m (s, l) ->
  keeps Inv Q R (with_locals l m) s.
Proof.
  unfold keeps, with_locals, result_of, state_of, events_of.
  by destruct (m (s, l)) as [[r s1] t1].
Qed.

Lemma keeps_zoom_snd {S T A} (P : T -> Prop) (m : M S A) (x : S * T) :
  P (snd x) -> keeps (fun y => P (snd y)) (fun _ => True) any (zoom m) x.
Proof.
  intros Hx. unfold keeps, zoom, result_of, state_of, events_of.
  destruct (m (fst x)) as [[r s1] t1]. cbn. repeat split; [done|].
  by apply Forall_forall.
Qed.

Section Primitives.
Context {frame : Type} (Inv : store frame -> Prop) (Q : event -> Prop).
Context `{!Blind Inv} `{!Lenient Q}.
Implicit Types (s : store frame) (x : store frame * locals).

Lemma keeps_await_net s : Inv s -> keeps Inv Q any await_net s.
Proof.
  intros Hi. unfold keeps, await_net, result_of, state_of, events_of.
  destruct (net s) as [|[|e] rest]; cbn; repeat split;
    try done; try constructor; by apply blind_net.
Qed.

Lemma keeps_connect s : Inv s -> keeps Inv Q any connect s.
Proof.
  intros Hi. unfold connect. apply keeps_bind_emit; [apply lenient_connect|].
  by apply keeps_await_net.
Qed.

Lemma keeps_send w s : Inv s -> Q (EvSend w) -> keeps Inv Q any (send w) s.
Proof.
  intros Hi Hw. unfold send. apply keeps_bind_emit; [done|].
  by apply keeps_await_net.
Qed.

Lemma keeps_read_frame s : Inv s -> keeps Inv Q any read_frame s.
Proof.
  intros Hi. unfold keeps, read_frame, result_of, state_of, events_of.
  destruct (cap s) as [c|]; [|by repeat split].
  destruct (cap_read c) as [r c']. cbn. repeat split; try done; by apply blind_cap.
Qed.

Lemma keeps_open_capture s :
  Inv s -> keeps Inv Q (fun c s' => cap s' = Some c) open_capture s.
Proof.
  intros Hi. unfold keeps, open_capture, result_of, state_of, events_of.
  destruct (opens s) as [|c rest]; cbn; [by repeat split|].
  repeat split; try done; [by apply blind_cap, blind_opens | by intros ? [= <-]].
Qed.

Lemma keeps_now s : Inv s -> keeps Inv Q any now s.
Proof. intros Hi. repeat split; cbn; try done. by apply blind_ticks. Qed.

Lemma keeps_count_frame x :
  Inv (fst x) -> keeps (fun y => Inv (fst y)) Q any count_frame x.
Proof.
  intros Hi. destruct x as [s l]. unfold keeps. rewrite count_frame_eq.
  unfold count_events. cbn. repeat split; try done; [by apply blind_ticks|].
  case_match; repeat constructor. apply lenient_log.
Qed.

End Primitives.

#[export] Instance reports_lenient sid nm flag : Lenient (reports sid nm flag).
Proof. by split. Qed.


#[export] Instance signed_lenient sid nm : Lenient (signed sid nm).
Proof. by split. Qed.

#[export] Instance identity_blind {frame} sid nm v r : Blind (@identity frame sid nm v r).
Proof. by split. Qed.

#[export] Instance owner_blind {frame} sid nm : Blind (@owner frame sid nm).
Proof. by split. Qed.

#[export] Instance owner_steady {frame} sid nm : Steady (@owner frame sid nm).
Proof. by split; [apply _|]. Qed.

#[export] Instance selected_as_blind {frame} sid nm v : Blind (@selected_as frame sid nm v).
Proof. by split. Qed.

#[export] Instance selected_as_steady {frame} sid nm v : Steady (@selected_as frame sid nm v).
Proof. by split; [apply _|]. Qed.

#[export] Instance True_blind {frame} : Blind (fun _ : store frame => True).
Proof. by split. Qed.

#[export] Instance True_lenient : Lenient (fun _ => True).
Proof. by split. Qed.

Lemma keeps_trivial {S A} (m : M S A) s : keeps (fun _ => True) (fun _ => True) any m s.
Proof. repeat split. by apply Forall_forall. Qed.

Ltac lenient :=
  first [exact Logic.I | apply lenient_log | apply lenient_sleep | apply lenient_connect].

(** The side conditions: an invariant that holds of a state holds of the
    state with another [running]. *)
Ltac keeps_side := first [done | by apply steady_running | by (cbn; apply steady_running)].

(** The calls whose effect is known: the primitives of the store, and
    what the context says of other functions. *)
Ltac keeps_call :=
  first
    [ apply keeps_zoom; keeps_call
    | apply keeps_zoom_snd; keeps_side
    | apply keeps_connect; [apply _|apply _|keeps_side]
    | apply keeps_await_net; [apply _|keeps_side]
    | apply keeps_read_frame; [apply _|keeps_side]
    | apply keeps_now; [apply _|keeps_side]
    | apply keeps_count_frame; [apply _|apply _|keeps_side]
    | eapply keeps_weaken; [|apply keeps_open_capture; [apply _|keeps_side]]; done
    | match goal with
      | H : context [keeps] |- keeps _ _ _ _ _ => apply H; keeps_side
      end
    | eapply keeps_weaken;
      [|match goal with
        | H : context [keeps] |- keeps _ _ _ _ _ => apply H; keeps_side
        end]; done ].

(** Take a computation apart along its structure; the messages it sends
    and the calls of functions the context does not know are left to the
    caller. *)
Ltac keeps_auto :=
  repeat first
    [ progress unfold shared, update, log, sleep
    | solve [keeps_call]
    | match goal with
      | |- keeps _ _ _ (bind open_capture _) _ =>
          apply keeps_bind with (R1 := fun c s' => cap s' = Some c);
          [apply keeps_open_capture; [apply _|keeps_side] | intros ? ? ? ?]
      end
    | apply keeps_bind_gets
    | match goal with
      | |- keeps _ _ _ (bind (modify _) _) _ =>
          eapply keeps_bind with (R1 := any);
          [apply keeps_modify; [keeps_side|done] | intros ? ? ? _]
      end
    | apply keeps_bind_emit; [lenient|]
    | apply keeps_bind_lift; [keeps_side|intros ? _]
    | apply keeps_ret; [keeps_side|done]
    | apply keeps_raise; keeps_side
    | apply keeps_hang; keeps_side
    | apply keeps_emit; [keeps_side|lenient|done]
    | apply keeps_lift; [keeps_side|done]
    | apply keeps_modify; [keeps_side|done]
    | apply keeps_try; [|intros ? ? ?]
    | apply keeps_dispatch_cons; intros _
    | apply keeps_dispatch_nil; keeps_side
    | apply keeps_with_locals
    | eapply keeps_bind with (R1 := any); [|intros ? ? ? _]
    | match goal with
      | |- keeps _ _ _ (if ?b then _ else _) _ => destruct b eqn:?
      | |- keeps _ _ _ (match ?r with _ => _ end) _ => destruct r eqn:?
      end ].

(** A message built from the attributes of an object that satisfies
    [identity] or [owner]. *)
Ltac keeps_message :=
  try apply keeps_zoom;
  first [apply keeps_send; [apply _|done|] | apply keeps_emit; [done| |done]];
  match goal with
  | H : identity _ _ _ _ _ |- _ => destruct H as (? & ? & ? & ?); by split; [|f_equal]
  | H : owner _ _ _ |- _ => destruct H as (? & ?); by split
  end.

Section Identity.
Context {frame jpeg : Type} `{!Cv2 frame jpeg}.
Variables (sid nm : string) (v : pyval) (r : bool).
Local Abbreviation Id := (@identity frame sid nm v r).
Local Abbreviation Id2 := (fun y : store frame * locals => Id (fst y)).
Local Abbreviation flagged := (reports sid nm (Some v)).
Local Abbreviation plain := (reports sid nm None).

Lemma iter3_identity rc :
  (forall s, Id s -> keeps Id flagged any rc s) ->
  forall x, Id (fst x) -> keeps Id2 flagged any (Server3.stream_iter rc) x.
Proof.
  intros Hrc x Hx. unfold Server3.stream_iter. keeps_auto. keeps_message.
Qed.

Lemma loop3_identity rc n :
  (forall s, Id s -> keeps Id flagged any rc s) ->
  forall x, Id (fst x) -> keeps Id2 flagged any (Server3.stream_loop n rc) x.
Proof.
  intros Hrc. induction n as [|n IH]; intros x Hx; cbn [Server3.stream_loop].
  - keeps_auto.
  - eapply keeps_bind with (R1 := any); [by apply iter3_identity|].
    intros [] x1 Hx1 _. by apply IH.
Qed.

Lemma start3_identity n :
  (forall s, Id s -> keeps Id flagged any (Server3.start_server n) s)
  /\ (forall s, Id s -> keeps Id flagged any (Server3.reconnect n) s).
Proof.
  induction n as [|n [IHs IHr]]; (split; intros s Hs);
    [keeps_auto|keeps_auto| |].
  - cbn [Server3.start_server]. keeps_auto.
    + keeps_message.
    + by apply loop3_identity.
  - cbn [Server3.reconnect]. keeps_auto.
Qed.

Lemma main3_identity n s : Id s -> keeps Id flagged any (Server3.main n) s.
Proof.
  revert s. induction n as [|n IH]; intros s Hs; cbn [Server3.main]; keeps_auto.
  by apply start3_identity.
Qed.


(** main.py *)
Lemma iter_main_identity rc :
  (forall s, Id s -> keeps Id plain any rc s) ->
  forall x, Id (fst x) -> keeps Id2 plain any (Main.stream_iter rc) x.
Proof.
  intros Hrc x Hx. unfold Main.stream_iter. keeps_auto. keeps_message.
Qed.

Lemma loop_main_identity rc n :
  (forall s, Id s -> keeps Id plain any rc s) ->
  forall x, Id (fst x) -> keeps Id2 plain any (Main.stream_loop n rc) x.
Proof.
  intros Hrc. induction n as [|n IH]; intros x Hx; cbn [Main.stream_loop].
  - keeps_auto.
  - eapply keeps_bind with (R1 := any); [by apply iter_main_identity|].
    intros [] x1 Hx1 _. by apply IH.
Qed.

Lemma start_main_identity n :
  (forall s, Id s -> keeps Id plain any (Main.start_server n) s)
  /\ (forall s, Id s -> keeps Id plain any (Main.reconnect n) s).
Proof.
  induction n as [|n [IHs IHr]]; (split; intros s Hs);
    [keeps_auto|keeps_auto| |].
  - cbn [Main.start_server]. keeps_auto.
    + keeps_message.
    + by apply loop_main_identity.
  - cbn [Main.reconnect]. keeps_auto.
Qed.

Lemma main_identity n s : Id s -> keeps Id plain any (Main.main n) s.
Proof.
  revert s. induction n as [|n IH]; intros s Hs; cbn [Main.main]; keeps_auto.
  by apply start_main_identity.
Qed.

(** main_my4.py *)
Lemma iter_my4_identity rc :
  (forall s, Id s -> keeps Id plain any rc s) ->
  forall x, Id (fst x) -> keeps Id2 plain any (MainMy4.stream_iter rc) x.
Proof.
  intros Hrc x Hx. unfold MainMy4.stream_iter. keeps_auto. keeps_message.
Qed.

Lemma loop_my4_identity rc n :
  (forall s, Id s -> keeps Id plain any rc s) ->
  forall x, Id (fst x) -> keeps Id2 plain any (MainMy4.stream_loop n rc) x.
Proof.
  intros Hrc. induction n as [|n IH]; intros x Hx; cbn [MainMy4.stream_loop].
  - keeps_auto.
  - eapply keeps_bind with (R1 := any); [by apply iter_my4_identity|].
    intros [] x1 Hx1 _. by apply IH.
Qed.

Lemma start_my4_identity n :
  (forall s, Id s -> keeps Id plain any (MainMy4.start_server n) s)
  /\ (forall s, Id s -> keeps Id plain any (MainMy4.reconnect n) s).
Proof.
  induction n as [|n [IHs IHr]]; (split; intros s Hs);
    [keeps_auto|keeps_auto| |].
  - cbn [MainMy4.start_server]. keeps_auto.
    + keeps_message.
    + by apply loop_my4_identity.
  - cbn [MainMy4.reconnect]. keeps_auto.
Qed.

Lemma my4_identity n s : Id s -> keeps Id plain any (MainMy4.main n) s.
Proof.
  revert s. induction n as [|n IH]; intros s Hs; cbn [MainMy4.main]; keeps_auto.
  by apply start_my4_identity.
Qed.

End Identity.

Section Returns.
Context {frame jpeg : Type} `{!Cv2 frame jpeg}.
Local Abbreviation T := (fun _ : store frame => True).
Local Abbreviation T2 := (fun _ : store frame * locals => True).
Local Abbreviation E := (fun _ : event => True).
Local Abbreviation never := (fun (_ : unit) (_ : store frame * locals) => False).
Local Abbreviation closed := (fun (_ : unit) (s : store frame) => unopened s).

Ltac no_camera :=
  apply keeps_emit; [done|done|]; eexists; split; [eassumption|];
  match goal with H : negb _ = true |- _ => by apply negb_true_iff in H end.

Lemma loop3_never_returns n rc x : keeps T2 E never (Server3.stream_loop n rc) x.
Proof.
  revert x. induction n as [|n IH]; intros x; cbn [Server3.stream_loop].
  - keeps_auto.
  - eapply keeps_bind with (R1 := any); [apply keeps_trivial|]. intros. apply IH.
Qed.

Lemma start3_returns n :
  (forall s, keeps T E closed (Server3.start_server n) s)
  /\ (forall s, keeps T E closed (Server3.reconnect n) s).
Proof.
  induction n as [|n [IHs IHr]]; (split; intros s); [keeps_auto|keeps_auto| |].
  - cbn [Server3.start_server]. keeps_auto.
    + no_camera.
    + eapply keeps_weaken; [|apply loop3_never_returns]. done.
  - cbn [Server3.reconnect]. unfold log, sleep.
    apply keeps_bind with (R1 := fun r s' => r = Break -> unopened s').
    + apply keeps_try.
      * apply keeps_bind_emit; [done|].
        eapply keeps_bind; [apply IHs|]. intros [] s1 _ Hs1. by apply keeps_ret.
      * intros e s1 _. apply keeps_dispatch_cons; intros _;
          [|by apply keeps_dispatch_nil].
        do 2 (apply keeps_bind_emit; [done|]). by apply keeps_ret.
    + intros [] s1 _ Hs1; [apply IHr|]. apply keeps_ret; auto.
Qed.
Lemma loop_main_never_returns n rc x : keeps T2 E never (Main.stream_loop n rc) x.
Proof.
  revert x. induction n as [|n IH]; intros x; cbn [Main.stream_loop].
  - keeps_auto.
  - eapply keeps_bind with (R1 := any); [apply keeps_trivial|]. intros. apply IH.
Qed.

Lemma start_main_returns n :
  (forall s, keeps T E closed (Main.start_server n) s)
  /\ (forall s, keeps T E closed (Main.reconnect n) s).
Proof.
  induction n as [|n [IHs IHr]]; (split; intros s); [keeps_auto|keeps_auto| |].
  - cbn [Main.start_server]. keeps_auto.
    + no_camera.
    + eapply keeps_weaken; [|apply loop_main_never_returns]. done.
  - cbn [Main.reconnect]. unfold log, sleep.
    apply keeps_bind with (R1 := fun r s' => r = Break -> unopened s').
    + apply keeps_try.
      * apply keeps_bind_emit; [done|].
        eapply keeps_bind; [apply IHs|]. intros [] s1 _ Hs1. by apply keeps_ret.
      * intros e s1 _. apply keeps_dispatch_cons; intros _;
          [|by apply keeps_dispatch_nil].
        do 2 (apply keeps_bind_emit; [done|]). by apply keeps_ret.
    + intros [] s1 _ Hs1; [apply IHr|]. apply keeps_ret; auto.
Qed.
Lemma loop_my4_never_returns n rc x : keeps T2 E never (MainMy4.stream_loop n rc) x.
Proof.
  revert x. induction n as [|n IH]; intros x; cbn [MainMy4.stream_loop].
  - keeps_auto.
  - eapply keeps_bind with (R1 := any); [apply keeps_trivial|]. intros. apply IH.
Qed.

Lemma start_my4_returns n :
  (forall s, keeps T E closed (MainMy4.start_server n) s)
  /\ (forall s, keeps T E closed (MainMy4.reconnect n) s).
Proof.
  induction n as [|n [IHs IHr]]; (split; intros s); [keeps_auto|keeps_auto| |].
  - cbn [MainMy4.start_server]. keeps_auto.
    + no_camera.
    + eapply keeps_weaken; [|apply loop_my4_never_returns]. done.
  - cbn [MainMy4.reconnect]. unfold log, sleep.
    apply keeps_bind with (R1 := fun r s' => r = Break -> unopened s').
    + apply keeps_try.
      * apply keeps_bind_emit; [done|].
        eapply keeps_bind; [apply IHs|]. intros [] s1 _ Hs1. by apply keeps_ret.
      * intros e s1 _. apply keeps_dispatch_cons; intros _;
          [|by apply keeps_dispatch_nil].
        do 2 (apply keeps_bind_emit; [done|]). by apply keeps_ret.
    + intros [] s1 _ Hs1; [apply IHr|]. apply keeps_ret; auto.
Qed.
End Returns.

(** * Further properties of the code *)

(** ** Inbound messages *)

Section Messages.
Context {frame : Type} {JS : Json}.
Implicit Types (s : store frame) (kv : list (string * pyval)).

Lemma set_is_selected_same s : set_is_selected (is_selected s) s = s.
Proof. by destruct s. Qed.

(** What [handle_message] does, by what [json.loads] gives. *)
Lemma server4_handle_message_eq message s :
  Server4.handle_message message s =
    match json_loads message with
    | None => (Ok tt, s, [EvLog ERROR (ErrorHandlingMessage (PyError "JSONDecodeError"))])
    | Some (PyDict kv) =>
        if py_eq_str (default PyNone (assoc "type" kv)) "select" then
          (Ok tt, set_is_selected (chosen kv) s,
           [EvLog INFO (SelectionChanged (is_selected s) (chosen kv))])
        else (Ok tt, s, [])
    | Some _ => (Ok tt, s, [EvLog ERROR (ErrorHandlingMessage (PyError "AttributeError"))])
    end.
Proof.
  unfold Server4.handle_message, loads, py_get, chosen. unfold_py.
  destruct (json_loads message) as [[| | | | | |kv]|]; cbn; try reflexivity.
  destruct (assoc "type" kv) as [ty|]; cbn; [|reflexivity].
  destruct (py_eq_str ty "select"); cbn; [|reflexivity].
  destruct (assoc "selected" kv); reflexivity.
Qed.

Lemma server3_handle_message_eq message s :
  Server3.handle_message message s =
    match json_loads message with
    | None => (Ok tt, s, [EvLog ERROR (ErrorHandlingMessage (PyError "JSONDecodeError"))])
    | Some (PyDict kv) =>
        if py_eq_str (default PyNone (assoc "type" kv)) "select"
           && py_eq_str (default PyNone (assoc "server_id" kv)) (server_id s) then
          (Ok tt, set_is_selected (chosen kv) s, [EvLog INFO (SelectionNow (chosen kv))])
        else (Ok tt, s, [])
    | Some _ => (Ok tt, s, [EvLog ERROR (ErrorHandlingMessage (PyError "AttributeError"))])
    end.
Proof.
  unfold Server3.handle_message, loads, py_get, chosen. unfold_py.
  destruct (json_loads message) as [[| | | | | |kv]|]; cbn; try reflexivity.
  destruct (assoc "type" kv) as [ty|]; cbn;
    destruct (assoc "server_id" kv) as [target|]; cbn; try reflexivity.
  - destruct (py_eq_str ty "select"); cbn; [|reflexivity].
    destruct (py_eq_str target (server_id s)); cbn; [|reflexivity].
    destruct (assoc "selected" kv); reflexivity.
  - by rewrite andb_false_r.
Qed.

(** X1.  [handle_message] of server4.py and of server3.py cannot fail:
    whatever the text of the message and the state of the object, the call
    returns (it neither raises nor blocks), it changes no attribute but
    [is_selected], and it emits at most one event, a log record.  So no
    inbound message can end the receive loop. *)
Theorem handle_message_never_fails message s :
  (result_of (Server4.handle_message message s) = Ok tt
   /\ (exists v, state_of (Server4.handle_message message s) = set_is_selected v s)
   /\ Forall is_record (events_of (Server4.handle_message message s))
   /\ (length (events_of (Server4.handle_message message s)) <= 1)%nat)
  /\ (result_of (Server3.handle_message message s) = Ok tt
      /\ (exists v, state_of (Server3.handle_message message s) = set_is_selected v s)
      /\ Forall is_record (events_of (Server3.handle_message message s))
      /\ (length (events_of (Server3.handle_message message s)) <= 1)%nat).
Proof.
  rewrite server4_handle_message_eq, server3_handle_message_eq.
  split; repeat case_match; cbn;
    (split; [done|]); (split; [|split; [repeat first [exact I | constructor]|lia]]);
    first [by eexists | eexists (is_selected _); by rewrite set_is_selected_same].
Qed.


(** X3.  A JSON object whose [type] is not 'select' (or that has no
    [type]) is dropped without a trace: no attribute changes and nothing is
    logged.  server3.py drops in the same way a selection that does not
    name this session. *)
Theorem other_message_is_dropped message kv s :
  json_loads message = Some (PyDict kv) ->
  (py_eq_str (default PyNone (assoc "type" kv)) "select" = false ->
   Server4.handle_message message s = (Ok tt, s, [])
   /\ Server3.handle_message message s = (Ok tt, s, []))
  /\ (targets kv (server_id s) = false ->
      Server3.handle_message message s = (Ok tt, s, [])).
Proof.
  intros Hparse.
  rewrite server4_handle_message_eq, server3_handle_message_eq, Hparse.
  split.
  - by intros ->.
  - unfold targets. destruct (assoc "server_id" kv) as [t|]; cbn.
    + intros ->. by rewrite andb_false_r.
    + intros _. by rewrite andb_false_r.
Qed.

(** X4.  Handling the same message twice leaves the object as handling it
    once: a selection sets the flag to the value it carries, it does not
    toggle it. *)
Theorem handle_message_idempotent message s :
  state_of (Server4.handle_message message
              (state_of (Server4.handle_message message s))) =
    state_of (Server4.handle_message message s)
  /\ state_of (Server3.handle_message message
                 (state_of (Server3.handle_message message s))) =
       state_of (Server3.handle_message message s).
Proof.
  split.
  - rewrite !server4_handle_message_eq.
    destruct (json_loads message) as [[| | | | | |kv]|]; try reflexivity.
    by destruct (py_eq_str _ "select").
  - rewrite (server3_handle_message_eq message s).
    destruct (json_loads message) as [[| | | | | |kv]|] eqn:Hparse;
      try (rewrite server3_handle_message_eq, Hparse; reflexivity).
    destruct (_ && _) eqn:Htest; rewrite server3_handle_message_eq, Hparse;
      cbn [state_of fst snd server_id set_is_selected]; by rewrite Htest.
Qed.

End Messages.

(** ** The producer of server4.py *)

Section Producer.
Context {frame jpeg : Type} {CV : Cv2 frame jpeg}.
Implicit Types (s : store frame) (l : locals) (x : store frame * locals).

Section ProducerIdentity.
Variables (sid nm : string) (v : pyval) (r : bool).
Local Abbreviation Id := (@identity frame sid nm v r).
Local Abbreviation Id2 := (fun y : store frame * locals => Id (fst y)).
Local Abbreviation flagged := (reports sid nm (Some v)).

Lemma enhance_identity f s :
  Id s -> keeps Id flagged any (Server4.process_high_quality_frame f) s.
Proof. intros Hs. unfold Server4.process_high_quality_frame. keeps_auto. Qed.

Lemma until_send_identity x : Id (fst x) -> keeps Id2 flagged any Server4.until_send x.
Proof.
  intros Hx. pose proof enhance_identity. unfold Server4.until_send.
  keeps_auto. keeps_message.
Qed.

Lemma loop_identity n x : Id (fst x) -> keeps Id2 flagged any (Server4.loop n) x.
Proof.
  revert x. induction n as [|n IH]; intros x Hx; cbn [Server4.loop].
  - keeps_auto.
  - pose proof until_send_identity. unfold Server4.on_error. keeps_auto.
Qed.

Lemma stream_video_identity i pc x :
  Id (fst x) -> keeps Id2 flagged any (Server4.stream_video i pc) x.
Proof.
  intros Hx. pose proof loop_identity.
  destruct pc, i; cbn [Server4.stream_video]; unfold Server4.run_loop, Server4.on_error;
    keeps_auto.
Qed.

End ProducerIdentity.

Section Leaving.
Local Abbreviation T2 := (fun _ : store frame * locals => True).
Local Abbreviation E := (fun _ : event => True).
Local Abbreviation stopped :=
  (fun (p : Server4.ppc) (y : store frame * locals) =>
     p = Server4.PDone -> running (fst y) = false).

Lemma loop_leaves n x : keeps T2 E stopped (Server4.loop n) x.
Proof.
  revert x. induction n as [|n IH]; intros x; cbn [Server4.loop].
  - keeps_auto.
  - apply keeps_bind_gets. destruct (running (fst x)) eqn:Hrun.
    + eapply keeps_bind with (R1 := any); [apply keeps_trivial|].
      intros [] x1 _ _; [apply IH|by apply keeps_ret..].
    + by apply keeps_ret.
Qed.

Lemma stream_video_leaves i pc x :
  pc <> Server4.PDone -> keeps T2 E stopped (Server4.stream_video i pc) x.
Proof.
  intros Hpc. pose proof loop_leaves.
  destruct pc, i; cbn [Server4.stream_video]; unfold Server4.run_loop, Server4.on_error;
    keeps_auto.
Qed.

End Leaving.

Lemma loop_raises n x e :
  result_of (Server4.loop n x) = Raise e -> is_Exception e = false.
Proof.
  revert x. induction n as [|n IH]; intros [s l]; [done|].
  rewrite loop_S. destruct (running s); [|done].
  destruct (Server4.until_send (s, l)) as [[[[]|e0|] st] evs]; try done.
  - unfold after_events, result_of. intros Hr. apply (IH st).
    by destruct (Server4.loop n st) as [[r2 st2] evs2].
  - destruct (is_Exception e0) eqn:He0; [done|]. by intros [= <-].
Qed.

Lemma run_loop_raises x e :
  result_of (Server4.run_loop x) = Raise e -> is_Exception e = false.
Proof.
  unfold Server4.run_loop. unfold bind, gets.
  destruct (Server4.loop _ x) as [[r st] evs] eqn:Hl. intros Hr.
  apply (loop_raises (S (Server4.reads_left (cap (fst x)))) x). rewrite Hl.
  by destruct r.
Qed.


Context {JS : Json}.
Implicit Types (cfg : Server4.config frame) (t : Server4.task).

(** X5.  Resuming a producer task of server4.py, with whatever outcome,
    assigns none of [is_selected], [running], [server_id] and [name]; it
    does not move the main task, and it touches no task but its own.  The
    flag and [running] have one writer, the main task. *)
Theorem producer_step_is_read_only cfg k i :
  let cfg' := Server4.step cfg (Server4.Task k i) in
  is_selected (Server4.st cfg') = is_selected (Server4.st cfg)
  /\ running (Server4.st cfg') = running (Server4.st cfg)
  /\ server_id (Server4.st cfg') = server_id (Server4.st cfg)
  /\ name (Server4.st cfg') = name (Server4.st cfg)
  /\ Server4.main_at cfg' = Server4.main_at cfg
  /\ exists t, Server4.tasks cfg' = <[k := t]> (Server4.tasks cfg).
Proof.
  cbn [Server4.step]. destruct (Server4.tasks cfg !! k) as [t|] eqn:Hk.
  - destruct (stream_video_identity (server_id (Server4.st cfg)) (name (Server4.st cfg))
                (is_selected (Server4.st cfg)) (running (Server4.st cfg)) i
                (Server4.pc t) (Server4.st cfg, Server4.vars t))
      as ((Hid & Hnm & Hsel & Hrun) & _); [done|].
    destruct (Server4.stream_video _ _ _) as [[r [st' vars']] evs]. cbn in *.
    repeat split; try done. by eexists.
  - repeat split; try done. exists (Server4.mkTask Server4.PNew (mkLocals 0 0)).
    rewrite list_insert_ge; [done|]. by apply lookup_ge_None.
Qed.

(** X6.  The producer of server4.py leaves its loop only when told to:
    when a resumption of [stream_video] ends with the coroutine returning,
    [running] is false. *)
Theorem producer_leaves_only_when_stopped i pc x :
  pc <> Server4.PDone ->
  result_of (Server4.stream_video i pc x) = Ok Server4.PDone ->
  running (fst (state_of (Server4.stream_video i pc x))) = false.
Proof.
  intros Hpc Hr. destruct (stream_video_leaves i pc x Hpc) as (_ & _ & Hdone).
  by apply (Hdone Server4.PDone).
Qed.

Lemma stream_video_raises i pc x e :
  result_of (Server4.stream_video i pc x) = Raise e -> is_Exception e = true ->
  pc = Server4.PBackoff /\ i = Raised e.
Proof.
  intros Hr He.
  assert (forall y, result_of (Server4.run_loop y) <> Raise e) as Hloop.
  { intros y Hy. apply run_loop_raises in Hy. congruence. }
  destruct pc as [| | | | | |e1], i as [|e0]; cbn [Server4.stream_video] in Hr; try done;
    try (by apply Hloop in Hr).
  - unfold bind at 1, zoom, now in Hr. cbn [fst snd] in Hr.
    unfold bind at 1, modify in Hr. cbn [fst snd] in Hr.
    destruct (Server4.run_loop _) as [[r st] evs] eqn:Hl.
    specialize (Hloop (set_ticks (S (ticks (fst x))) (fst x),
                       mkLocals 0 (clock (fst x) (ticks (fst x))))).
    rewrite Hl in Hloop. by destruct r.
  - unfold bind at 1, zoom, now in Hr. cbn [fst snd] in Hr.
    unfold bind at 1, modify in Hr. cbn [fst snd] in Hr.
    destruct (Server4.run_loop _) as [[r st] evs] eqn:Hl.
    specialize (Hloop (set_ticks (S (ticks (fst x))) (fst x),
                       mkLocals 0 (clock (fst x) (ticks (fst x))))).
    rewrite Hl in Hloop. by destruct r.
  - cbn in Hr. destruct (is_Exception e0) eqn:He0; cbn in Hr; [done|]. congruence.
  - cbn in Hr. destruct (is_Exception e0) eqn:He0; cbn in Hr; [done|]. congruence.
  - cbn in Hr. by simplify_eq.
Qed.

(** X7.  No [Exception] raised by the camera, the encoder or the socket
    ends the producer of server4.py: whatever it is resumed with, an
    [Exception] leaves [stream_video] only if it is raised by the [sleep]
    of the producer's own handler (line 107). *)
Theorem producer_survives_exceptions i pc x e :
  is_Exception e = true -> pc <> Server4.PBackoff \/ i <> Raised e ->
  result_of (Server4.stream_video i pc x) <> Raise e.
Proof.
  intros He Hne Hr. destruct (stream_video_raises i pc x e Hr He) as [-> ->].
  by destruct Hne.
Qed.

End Producer.

(** ** Frames *)

Section Frames.
Context {frame jpeg : Type} {CV : Cv2 frame jpeg} {JS : Json}.
Implicit Types (s : store frame) (l : locals) (x : store frame * locals).
Implicit Types (cfg : Server4.config frame) (t : Server4.task).

(** X8.  The debug record of the streaming loop is throttled by the
    [seconds] field of the time since the last record, which leaves out
    whole days: a frame counted [days] days and [r] seconds after the last
    record is logged, and the time of the last record moved, if and only
    if [r] is at least 5.  The frame counter grows either way. *)
Theorem debug_record_ignores_whole_days s l days r :
  clock s (ticks s) = last_log_time l + 86400 * days + r ->
  0 <= r < 86400 ->
  count_frame (s, l) =
    (Ok tt,
     (set_ticks (S (ticks s)) s,
      mkLocals (S (frame_count l))
               (if 5 <=? r then clock s (ticks s) else last_log_time l)),
     if 5 <=? r then [EvLog DEBUG (FrameCaptured (S (frame_count l)))] else []).
Proof.
  intros Hclock Hr. rewrite count_frame_eq. unfold counted, count_events, seconds.
  replace (clock s (ticks s) - last_log_time l) with (r + days * 86400) by lia.
  by rewrite Z_mod_plus_full, Z.mod_small.
Qed.

(** X9.  The thumbnail is computed for every frame, before the flag is
    looked at.  So when its resize raises, the frame is dropped and the
    loop backs off a second, also while the stream is selected and the
    thumbnail would not be sent: in server4.py (80x60) and in server3.py
    (160x120). *)
Theorem thumbnail_failure_drops_frame n rc s l c c' f e :
  cap s = Some c -> cap_read c = (Ok (Some f), c') -> is_Exception e = true ->
  (running s = true -> cv_resize f (80, 60) INTER_AREA = Raise e ->
   Server4.loop (S n) (s, l) =
     (Ok Server4.PBackoff, grabbed s c' l, count_events s l ++ backoff_events e))
  /\ (is_ConnectionClosed e = false -> cv_resize f (160, 120) INTER_LINEAR = Raise e ->
      Server3.stream_iter rc (s, l) =
        (Ok tt, grabbed s c' l, count_events s l ++ backoff_events e)).
Proof.
  intros Hc Hr He. split.
  - intros Hrun Hth.
    rewrite (loop_encode_fails n s l c c' f e [] Hrun Hc Hr); [by rewrite app_nil_r| |done].
    unfold encode4. by rewrite Hth.
  - intros Hcc Hth. apply (iter3_encode_fails rc s l c c' f e Hc Hr); [|done..].
    unfold encode3, and_then. by rewrite Hth.
Qed.

Lemma run_loop_stopped s l :
  running s = false -> Server4.run_loop (s, l) = (Ok Server4.PDone, (s, l), []).
Proof.
  intros Hrun. unfold Server4.run_loop. unfold bind at 1, gets at 1.
  rewrite loop_S. cbn [fst]. by rewrite Hrun.
Qed.

Lemma step_resumed_stopped cfg k t :
  running (Server4.st cfg) = false -> Server4.tasks cfg !! k = Some t ->
  Server4.step cfg (Server4.Task k Completed) =
    match Server4.pc t with
    | Server4.PNew =>
        Server4.mkConfig (set_ticks (S (ticks (Server4.st cfg))) (Server4.st cfg))
          (<[k := Server4.mkTask Server4.PDone
                    (mkLocals 0 (clock (Server4.st cfg) (ticks (Server4.st cfg))))]>
             (Server4.tasks cfg))
          (Server4.main_at cfg) (Server4.trace cfg)
    | Server4.PSend =>
        Server4.mkConfig (Server4.st cfg)
          (<[k := Server4.mkTask Server4.PPace (Server4.vars t)]> (Server4.tasks cfg))
          (Server4.main_at cfg)
          (Server4.trace cfg
           ++ [EvSleep (if truthy (is_selected (Server4.st cfg)) then 33 else 100)])
    | Server4.PPace | Server4.PBackoff =>
        Server4.mkConfig (Server4.st cfg)
          (<[k := Server4.mkTask Server4.PDone (Server4.vars t)]> (Server4.tasks cfg))
          (Server4.main_at cfg) (Server4.trace cfg)
    | p =>
        Server4.mkConfig (Server4.st cfg)
          (<[k := Server4.mkTask p (Server4.vars t)]> (Server4.tasks cfg))
          (Server4.main_at cfg) (Server4.trace cfg)
    end.
Proof.
  intros Hrun Hk. cbn [Server4.step]. rewrite Hk.
  destruct (Server4.pc t) eqn:Hpc; cbn [Server4.stream_video];
    rewrite ?run_loop_stopped by done; try (cbn; by rewrite ?app_nil_r).
  unfold bind at 1, zoom, now. cbn [fst snd]. unfold bind at 1, modify. cbn [fst snd].
  rewrite run_loop_stopped by done. cbn. by rewrite app_nil_r.
Qed.

(** X10.  Once [running] is false, a producer task of server4.py whose
    next two awaits complete has left its loop: it reads no further frame
    and puts nothing on the wire; at most it takes the pacing sleep that
    follows the send it was awaiting. *)
Theorem stopped_producer_winds_down cfg k t :
  running (Server4.st cfg) = false -> Server4.tasks cfg !! k = Some t ->
  Schedules.live (Server4.pc t) = true ->
  let cfg' := Server4.run cfg [Server4.Task k Completed; Server4.Task k Completed] in
  Server4.pc <$> Server4.tasks cfg' !! k = Some Server4.PDone
  /\ cap (Server4.st cfg') = cap (Server4.st cfg)
  /\ running (Server4.st cfg') = false
  /\ Server4.trace cfg' =
       Server4.trace cfg
       ++ match Server4.pc t with
          | Server4.PSend =>
              [EvSleep (if truthy (is_selected (Server4.st cfg)) then 33 else 100)]
          | _ => []
          end.
Proof.
  intros Hrun Hk Hlive. cbn [Server4.run fold_left].
  assert (k < length (Server4.tasks cfg))%nat as Hlt by (by eapply lookup_lt_Some).
  rewrite (step_resumed_stopped cfg k t Hrun Hk).
  destruct (Server4.pc t) eqn:Hpc; try discriminate Hlive.
  all: erewrite step_resumed_stopped;
    [|done|cbn [Server4.tasks]; by apply list_lookup_insert_eq].
  all: cbn; rewrite ?app_nil_r, list_insert_insert_eq, list_lookup_insert_eq by done; done.
Qed.

End Frames.

(** ** The main task of server4.py *)

Section Supervisor.
Context {frame jpeg : Type} {CV : Cv2 frame jpeg} {JS : Json}.
Implicit Types (s : store frame) (x : store frame * list Server4.task).
Implicit Types (cfg : Server4.config frame) (t : Server4.task).

Section Attributes.
Variables (Inv : store frame -> Prop) (Q : event -> Prop).
Context `{!Steady Inv} `{!Lenient Q}.
Hypothesis registration : forall s, Inv s -> Q (EvSend (Register (server_id s) (name s))).
Local Abbreviation Inv2 := (fun y : store frame * list Server4.task => Inv (fst y)).

Lemma start_server_keeps stack x :
  Inv (fst x) -> keeps Inv2 Q any (Server4.start_server stack) x.
Proof. intros Hx. unfold Server4.start_server. keeps_auto. Qed.

Lemma reconnect_keeps stack x :
  Inv (fst x) -> keeps Inv2 Q any (Server4.reconnect stack) x.
Proof.
  intros Hx. pose proof start_server_keeps. unfold Server4.reconnect. keeps_auto.
Qed.

Lemma unwind_return_keeps stack x :
  Inv (fst x) -> keeps Inv2 Q any (Server4.unwind_return stack) x.
Proof.
  intros Hx. pose proof start_server_keeps.
  induction stack as [|[] rest IH]; cbn [Server4.unwind_return]; keeps_auto.
Qed.

Lemma unwind_raise_keeps e stack x :
  Inv (fst x) -> keeps Inv2 Q any (Server4.unwind_raise e stack) x.
Proof.
  intros Hx. induction stack as [|[] rest IH]; cbn [Server4.unwind_raise]; keeps_auto.
Qed.

Lemma fail_keeps e stack x :
  Inv (fst x) -> keeps Inv2 Q any (Server4.fail e stack) x.
Proof.
  intros Hx. pose proof unwind_raise_keeps. unfold Server4.fail. keeps_auto.
Qed.

Lemma join_keeps k stack x :
  Inv (fst x) -> keeps Inv2 Q any (Server4.join k stack) x.
Proof.
  intros Hx. pose proof fail_keeps. pose proof reconnect_keeps.
  unfold Server4.join. keeps_auto.
Qed.

Lemma main_keeps i ctl x :
  (forall m s, i = Server4.Message m -> Inv s ->
               keeps Inv Q any (Server4.handle_message m) s) ->
  Inv (fst x) -> keeps Inv2 Q any (Server4.main i ctl) x.
Proof.
  intros Hm Hx.
  pose proof fail_keeps. pose proof join_keeps. pose proof reconnect_keeps.
  pose proof start_server_keeps. pose proof unwind_return_keeps.
  destruct ctl as [at_pc stack]. unfold Server4.main.
  destruct at_pc as [| |k|k| | | |e0]; destruct i as [[|e]|m|]; keeps_auto.
  apply keeps_emit; [done|by apply registration|done].
Qed.

End Attributes.

Section Tasks.
Variable ts : list Server4.task.
Local Abbreviation same := (fun y : store frame * list Server4.task => snd y = ts).
Local Abbreviation E := (fun _ : event => True).
Local Abbreviation elsewhere :=
  (fun (ctl : Server4.control) (_ : store frame * list Server4.task) =>
     fst ctl <> Server4.MRegister).

Lemma start_server_tasks stack x :
  snd x = ts -> keeps same E elsewhere (Server4.start_server stack) x.
Proof. intros Hx. unfold Server4.start_server. keeps_auto. Qed.

Lemma reconnect_tasks stack x :
  snd x = ts -> keeps same E elsewhere (Server4.reconnect stack) x.
Proof.
  intros Hx. pose proof start_server_tasks. unfold Server4.reconnect. keeps_auto.
Qed.

Lemma unwind_return_tasks stack x :
  snd x = ts -> keeps same E elsewhere (Server4.unwind_return stack) x.
Proof.
  intros Hx. pose proof start_server_tasks.
  induction stack as [|[] rest IH]; cbn [Server4.unwind_return]; keeps_auto.
Qed.

Lemma unwind_raise_tasks e stack x :
  snd x = ts -> keeps same E elsewhere (Server4.unwind_raise e stack) x.
Proof.
  intros Hx. induction stack as [|[] rest IH]; cbn [Server4.unwind_raise]; keeps_auto.
Qed.

Lemma fail_tasks e stack x :
  snd x = ts -> keeps same E elsewhere (Server4.fail e stack) x.
Proof.
  intros Hx. pose proof unwind_raise_tasks. unfold Server4.fail. keeps_auto.
Qed.

Lemma join_tasks k stack x :
  snd x = ts -> keeps same E elsewhere (Server4.join k stack) x.
Proof.
  intros Hx. pose proof fail_tasks. pose proof reconnect_tasks.
  unfold Server4.join. keeps_auto.
Qed.

(** The main task creates a task in one place, line 135. *)
Lemma main_tasks i ctl x :
  snd x = ts ->
  snd (state_of (Server4.main i ctl x)) = ts
  \/ snd (state_of (Server4.main i ctl x)) = ts ++ [Server4.mkTask Server4.PNew (mkLocals 0 0)].
Proof.
  intros Hx.
  pose proof fail_tasks. pose proof join_tasks. pose proof reconnect_tasks.
  pose proof start_server_tasks. pose proof unwind_return_tasks.
  destruct ctl as [at_pc stack].
  destruct at_pc as [| |k|k| | | |e0]; destruct i as [[|e]|m|];
    try (left;
         match goal with
         | |- snd (state_of (?m x)) = _ =>
             cut (keeps same E any m x); [by intros (? & _)|]
         end; unfold Server4.main; keeps_auto; fail).
  2:{ left. cut (keeps same E any (Server4.main (Server4.Message m) (Server4.MRecv k, stack)) x);
        [by intros (? & _)|].
      cbn [Server4.main]. eapply keeps_bind with (R1 := any).
      - by apply (keeps_zoom_snd (fun others => others = ts)).
      - intros [] x1 Hx1 _. by apply keeps_ret. }
  cbn [Server4.main]. unfold shared, log, update, open_capture. unfold_py. cbn.
  destruct (opens (fst x)) as [|c rest]; [by left|]. cbn.
  destruct (isOpened c); cbn; [right; by rewrite Hx|].
  destruct (unwind_return_tasks stack (set_cap (Some c) (set_opens rest x.1), x.2) Hx)
    as (Hs & _). unfold state_of in Hs.
  destruct (Server4.unwind_return _ _) as [[r2 s2] t2]. by left.
Qed.

(** The main task awaits the send of a registration only once it has
    called it. *)
Lemma main_elsewhere i at_pc stack x :
  snd x = ts -> at_pc <> Server4.MRegister ->
  match at_pc, i with
  | Server4.MConnect, Server4.Io Completed => False
  | _, _ => True
  end ->
  keeps same E elsewhere (Server4.main i (at_pc, stack)) x.
Proof.
  intros Hx Hpc Hi.
  pose proof fail_tasks. pose proof join_tasks. pose proof reconnect_tasks.
  pose proof start_server_tasks. pose proof unwind_return_tasks.
  destruct at_pc as [| |k|k| | | |e0]; destruct i as [[|e]|m|]; try done;
    try (unfold Server4.main; keeps_auto; fail).
  cbn [Server4.main]. eapply keeps_bind with (R1 := any).
  - by apply (keeps_zoom_snd (fun others => others = ts)).
  - intros [] x1 Hx1 _. by apply keeps_ret.
Qed.

End Tasks.

Lemma handle_message_owner sid nm m s :
  owner sid nm s -> keeps (owner sid nm) (signed sid nm) any (Server4.handle_message m) s.
Proof.
  intros Hs. unfold Server4.handle_message, loads, py_get. keeps_auto.
Qed.

Lemma reports_signed sid nm flag e : reports sid nm flag e -> signed sid nm e.
Proof. destruct e as [| |[]|]; cbn; tauto. Qed.

(** What a step of the main task leaves alone. *)
Lemma main_step_effect cfg i :
  let cfg' := Server4.step cfg (Server4.Main i) in
  server_id (Server4.st cfg') = server_id (Server4.st cfg)
  /\ name (Server4.st cfg') = name (Server4.st cfg)
  /\ match i with
     | Server4.Message _ => True
     | _ => is_selected (Server4.st cfg') = is_selected (Server4.st cfg)
     end
  /\ (Server4.tasks cfg' = Server4.tasks cfg
      \/ Server4.tasks cfg' =
           Server4.tasks cfg ++ [Server4.mkTask Server4.PNew (mkLocals 0 0)])
  /\ exists evs,
       Server4.trace cfg' = Server4.trace cfg ++ evs
       /\ Forall (signed (server_id (Server4.st cfg)) (name (Server4.st cfg))) evs
       /\ Forall no_stream evs.
Proof.
  cbn [Server4.step].
  set (sid := server_id (Server4.st cfg)). set (nm := name (Server4.st cfg)).
  pose proof (main_task_quiet i (Server4.main_at cfg) (Server4.st cfg, Server4.tasks cfg))
    as Hquiet.
  pose proof (main_tasks (Server4.tasks cfg) i (Server4.main_at cfg)
                (Server4.st cfg, Server4.tasks cfg) eq_refl) as Htasks.
  assert (keeps (fun y => owner sid nm (fst y)) (signed sid nm) any
            (Server4.main i (Server4.main_at cfg)) (Server4.st cfg, Server4.tasks cfg))
    as ((Hid & Hnm) & Hev & _).
  { apply (main_keeps (owner sid nm) (signed sid nm)); [|intros m s _|done].
    - by intros s [? ?].
    - apply handle_message_owner. }
  assert (match i with
          | Server4.Message _ => True
          | _ => is_selected
                   (fst (state_of (Server4.main i (Server4.main_at cfg)
                                     (Server4.st cfg, Server4.tasks cfg)))) =
                 is_selected (Server4.st cfg)
          end) as Hsel.
  { assert (forall s, selected_as sid nm (is_selected (Server4.st cfg)) s ->
                      signed sid nm (EvSend (Register (server_id s) (name s)))) as Hreg
      by (by intros s (? & ? & ?)).
    destruct i as [io|m|]; [|done|].
    all: match goal with
         | |- is_selected (fst (state_of (Server4.main ?i _ _))) = _ =>
             destruct (main_keeps _ _ Hreg i (Server4.main_at cfg)
                         (Server4.st cfg, Server4.tasks cfg))
               as ((_ & _ & Hsel) & _); [by intros|done|exact Hsel]
         end. }
  destruct (Server4.main _ _ _) as [[r [st' tasks']] evs]. cbn in *.
  repeat split; try done. by exists evs.
Qed.

Lemma producer_step_effect cfg k i :
  let cfg' := Server4.step cfg (Server4.Task k i) in
  identity (server_id (Server4.st cfg)) (name (Server4.st cfg))
           (is_selected (Server4.st cfg)) (running (Server4.st cfg)) (Server4.st cfg')
  /\ Server4.main_at cfg' = Server4.main_at cfg
  /\ (exists t, Server4.tasks cfg' = <[k := t]> (Server4.tasks cfg))
  /\ exists evs,
       Server4.trace cfg' = Server4.trace cfg ++ evs
       /\ Forall (reports (server_id (Server4.st cfg)) (name (Server4.st cfg))
                          (Some (is_selected (Server4.st cfg)))) evs.
Proof.
  cbn [Server4.step]. destruct (Server4.tasks cfg !! k) as [t|] eqn:Hk.
  - destruct (stream_video_identity (server_id (Server4.st cfg)) (name (Server4.st cfg))
                (is_selected (Server4.st cfg)) (running (Server4.st cfg)) i
                (Server4.pc t) (Server4.st cfg, Server4.vars t))
      as (Hid & Hev & _); [done|].
    destruct (Server4.stream_video _ _ _) as [[r [st' vars']] evs]. cbn in *.
    repeat split; try done; [by apply Hid..|by eexists|by exists evs].
  - repeat split; try done.
    + exists (Server4.mkTask Server4.PNew (mkLocals 0 0)).
      rewrite list_insert_ge; [done|]. by apply lookup_ge_None.
    + exists []. by rewrite app_nil_r.
Qed.

(** X11.  A step of the main task of server4.py never assigns
    [server_id] or [name]; it assigns [is_selected] only when it is resumed
    with an inbound message; it changes no producer task, and creates at
    most one; and of the messages it puts on the wire none is a stream
    message, and the registration bears the session's [server_id] and
    [name]. *)
Theorem main_step_footprint cfg i :
  let cfg' := Server4.step cfg (Server4.Main i) in
  server_id (Server4.st cfg') = server_id (Server4.st cfg)
  /\ name (Server4.st cfg') = name (Server4.st cfg)
  /\ match i with
     | Server4.Message _ => True
     | _ => is_selected (Server4.st cfg') = is_selected (Server4.st cfg)
     end
  /\ (Server4.tasks cfg' = Server4.tasks cfg
      \/ Server4.tasks cfg' =
           Server4.tasks cfg ++ [Server4.mkTask Server4.PNew (mkLocals 0 0)])
  /\ exists evs,
       Server4.trace cfg' = Server4.trace cfg ++ evs
       /\ Forall (signed (server_id (Server4.st cfg)) (name (Server4.st cfg))) evs
       /\ Forall no_stream evs.
Proof. apply main_step_effect. Qed.

Lemma step_signed cfg sc :
  let cfg' := Server4.step cfg sc in
  server_id (Server4.st cfg') = server_id (Server4.st cfg)
  /\ name (Server4.st cfg') = name (Server4.st cfg)
  /\ (length (Server4.tasks cfg) <= length (Server4.tasks cfg'))%nat
  /\ exists evs,
       Server4.trace cfg' = Server4.trace cfg ++ evs
       /\ Forall (signed (server_id (Server4.st cfg)) (name (Server4.st cfg))) evs.
Proof.
  destruct sc as [i|k i].
  - destruct (main_step_effect cfg i) as (Hid & Hnm & _ & Hts & evs & Htr & Hev & _).
    repeat split; try done.
    + destruct Hts as [-> | ->]; rewrite ?length_app; lia.
    + by exists evs.
  - destruct (producer_step_effect cfg k i)
      as ((Hid & Hnm & _) & _ & [t Hts] & evs & Htr & Hev).
    repeat split; try done.
    + by rewrite Hts, length_insert.
    + exists evs. split; [done|]. eapply Forall_impl; [exact Hev|].
      intros e. apply reports_signed.
Qed.

(** X12.  Whatever the event loop does, in whatever order and with
    whatever outcomes, the object keeps its [server_id] and [name], every
    registration put on the wire bears both and every stream message the
    [server_id], and no producer task is ever removed from the loop. *)
Theorem every_message_is_signed cfg schedule :
  let cfg' := Server4.run cfg schedule in
  server_id (Server4.st cfg') = server_id (Server4.st cfg)
  /\ name (Server4.st cfg') = name (Server4.st cfg)
  /\ (length (Server4.tasks cfg) <= length (Server4.tasks cfg'))%nat
  /\ exists evs,
       Server4.trace cfg' = Server4.trace cfg ++ evs
       /\ Forall (signed (server_id (Server4.st cfg)) (name (Server4.st cfg))) evs.
Proof.
  cbn zeta. revert cfg. induction schedule as [|sc schedule IH]; intros cfg.
  - cbn. repeat split; try done. exists []. by rewrite app_nil_r.
  - cbn [Server4.run fold_left]. fold (Server4.run (Server4.step cfg sc) schedule).
    destruct (IH (Server4.step cfg sc)) as (Hid & Hnm & Hlen & evs2 & Htr2 & Hev2).
    destruct (step_signed cfg sc) as (Hid1 & Hnm1 & Hlen1 & evs1 & Htr1 & Hev1).
    repeat split; [congruence|congruence|lia|].
    exists (evs1 ++ evs2). split; [by rewrite Htr2, Htr1, app_assoc|].
    rewrite Forall_app. split; [done|]. by rewrite <- Hid1, <- Hnm1.
Qed.

End Supervisor.

(** ** Sessions of server4.py *)

Section Sessions.
Context {frame jpeg : Type} {CV : Cv2 frame jpeg} {JS : Json}.
Implicit Types (s : store frame) (x : store frame * list Server4.task).
Implicit Types (cfg : Server4.config frame) (t : Server4.task).
Import Server4.

(** A stack of [n] nested reconnections above [main]. *)
Local Abbreviation nested n := (replicate n InReconnect ++ [InMain]).


Lemma unwind_raise_interrupt n x :
  unwind_raise KeyboardInterrupt (nested n) x =
    (Ok (MExit, [InMain]), x, [EvLog INFO ShuttingDown]).
Proof. induction n as [|n IH]; [done|]. by cbn [replicate app unwind_raise is_Exception]. Qed.

Lemma set_running_same s : set_running (running s) s = s.
Proof. by destruct s. Qed.

Lemma step_connected cfg stack :
  main_at cfg = (MConnect, stack) ->
  step cfg (Main (Io Completed)) =
    mkConfig (st cfg) (tasks cfg) (MRegister, stack)
      (trace cfg
       ++ [EvLog INFO ConnectedToRelay;
           EvSend (Register (server_id (st cfg)) (name (st cfg)))]).
Proof. intros Hat. cbn [step]. rewrite Hat. reflexivity. Qed.

Lemma step_opened cfg stack c rest :
  main_at cfg = (MRegister, stack) ->
  opens (st cfg) = c :: rest -> isOpened c = true ->
  step cfg (Main (Io Completed)) =
    mkConfig (set_running true (set_cap (Some c) (set_opens rest (st cfg))))
      (tasks cfg ++ [mkTask PNew (mkLocals 0 0)])
      (MRecv (length (tasks cfg)), stack)
      (trace cfg ++ [EvLog INFO (Registered (server_id (st cfg)))]).
Proof.
  intros Hat Hop Hc. cbn [step]. rewrite Hat.
  cbn [main]. unfold open_capture. unfold_py. cbn. rewrite Hop. cbn.
  rewrite Hc. reflexivity.
Qed.


(** X14.  A [KeyboardInterrupt] raised into [start_server] while it
    connects, registers or receives is caught by none of the handlers for
    [Exception]: it is not logged as a connection failure, [running] is
    not cleared, no [reconnect] above retries; it unwinds to [main], which
    logs the shutdown and leaves its loop for good. *)
Theorem interrupt_unwinds_to_exit cfg pc n :
  main_at cfg = (pc, nested n) ->
  pc = MConnect \/ pc = MRegister \/ (exists k, pc = MRecv k) ->
  let exited := step cfg (Main (Io (Raised KeyboardInterrupt))) in
  exited = mkConfig (st cfg) (tasks cfg) (MExit, [InMain])
             (trace cfg ++ [EvLog INFO ShuttingDown])
  /\ forall i, step exited (Main i) = exited.
Proof.
  intros Hat Hpc. cbn zeta.
  assert (step cfg (Main (Io (Raised KeyboardInterrupt))) =
          mkConfig (st cfg) (tasks cfg) (MExit, [InMain])
            (trace cfg ++ [EvLog INFO ShuttingDown])) as ->.
  { cbn [step]. rewrite Hat.
    destruct Hpc as [-> | [-> | [k ->]]]; cbn [main is_ConnectionClosed];
      unfold fail; cbn [is_Exception]; by rewrite unwind_raise_interrupt. }
  split; [done|]. intros i. cbn. by rewrite app_nil_r.
Qed.

Lemma step_refused_in_reconnect cfg e pc rest :
  main_at cfg = (pc, InReconnect :: rest) ->
  pc = MConnect \/ pc = MRegister -> is_Exception e = true ->
  step cfg (Main (Io (Raised e))) =
    mkConfig (set_running false (st cfg)) (tasks cfg) (MRetry, InReconnect :: rest)
      (trace cfg
       ++ [EvLog ERROR (FailedToConnect e); EvLog ERROR (ReconnectionFailed e);
           EvSleep 5000]).
Proof.
  intros Hat Hpc He. cbn [step]. rewrite Hat.
  destruct Hpc as [-> | ->]; cbn [main]; unfold fail; rewrite He;
    cbn [unwind_raise]; rewrite He; reflexivity.
Qed.

Lemma step_retry_in_reconnect cfg rest :
  main_at cfg = (MRetry, InReconnect :: rest) ->
  step cfg (Main (Io Completed)) =
    mkConfig (st cfg) (tasks cfg) (MConnect, InReconnect :: rest)
      (trace cfg ++ [EvLog INFO AttemptingReconnect; EvLog INFO StartingServer; EvConnect]).
Proof. intros Hat. cbn [step]. rewrite Hat. reflexivity. Qed.

Lemma run_app cfg a b : run cfg (a ++ b) = run (run cfg a) b.
Proof. apply fold_left_app. Qed.

Lemma run_cycles cfg (cycle : list sched) n :
  run cfg (mjoin (replicate (S n) cycle)) = run (run cfg cycle) (mjoin (replicate n cycle)).
Proof. apply run_app. Qed.

Lemma events_cycles (t cycle : list event) n :
  t ++ mjoin (replicate (S n) cycle) = (t ++ cycle) ++ mjoin (replicate n cycle).
Proof. cbn. by rewrite app_assoc. Qed.

(** X15.  As long as the relay refuses, server4.py retries: each refused
    connection is logged, [sleep(5)] is awaited and [start_server] is
    called again, [n] times for [n] refusals, with no ceiling on the
    attempts and no growth of the delay -- from [main], and from inside a
    [reconnect], whose loop retries in place, without nesting deeper. *)
Theorem refused_connections_retry_flat e n : forall cfg,
  is_Exception e = true ->
  (main_at cfg = (MConnect, [InMain]) ->
   let cfg' := run cfg (mjoin (replicate n (Schedules.refused e))) in
   main_at cfg' = (MConnect, [InMain])
   /\ tasks cfg' = tasks cfg
   /\ trace cfg' =
        trace cfg
        ++ mjoin (replicate n
                    [EvLog ERROR (FailedToConnect e); EvLog ERROR (ServerError e);
                     EvSleep 5000; EvLog INFO StartingServer; EvConnect]))
  /\ (forall rest,
        main_at cfg = (MConnect, InReconnect :: rest) ->
        let cfg' := run cfg (mjoin (replicate n (Schedules.refused e))) in
        main_at cfg' = (MConnect, InReconnect :: rest)
        /\ tasks cfg' = tasks cfg
        /\ trace cfg' =
             trace cfg
             ++ mjoin (replicate n
                         [EvLog ERROR (FailedToConnect e);
                          EvLog ERROR (ReconnectionFailed e); EvSleep 5000;
                          EvLog INFO AttemptingReconnect; EvLog INFO StartingServer;
                          EvConnect])).
Proof.
  induction n as [|n IH]; intros cfg He.
  - split; intros; cbn; by rewrite app_nil_r.
  - split.
    + intros Hat. cbn zeta. rewrite run_cycles, events_cycles.
      cbn [Schedules.refused run fold_left].
      rewrite (step_connect_failed cfg e MConnect Hat (or_introl eq_refl) He).
      set (c1 := mkConfig _ _ _ _). rewrite (step_retry c1 eq_refl).
      set (c2 := mkConfig _ _ _ _).
      destruct (IH c2 He) as [Hmain _]. destruct (Hmain eq_refl) as (H1 & H2 & H3).
      fold (run c2 (mjoin (replicate n (Schedules.refused e)))).
      rewrite H1, H2, H3. repeat split. cbn. by rewrite <- !app_assoc.
    + intros rest Hat. cbn zeta. rewrite run_cycles, events_cycles.
      cbn [Schedules.refused run fold_left].
      rewrite (step_refused_in_reconnect cfg e MConnect rest Hat (or_introl eq_refl) He).
      set (c1 := mkConfig _ _ _ _). rewrite (step_retry_in_reconnect c1 rest eq_refl).
      set (c2 := mkConfig _ _ _ _).
      destruct (IH c2 He) as [_ Hrec]. destruct (Hrec rest eq_refl) as (H1 & H2 & H3).
      fold (run c2 (mjoin (replicate n (Schedules.refused e)))).
      rewrite H1, H2, H3. repeat split. cbn. by rewrite <- !app_assoc.
Qed.

Lemma step_closed_live cfg k stack t :
  main_at cfg = (MRecv k, stack) -> tasks cfg !! k = Some t ->
  Schedules.live (pc t) = true ->
  step cfg (Main (Io (Raised ConnectionClosed))) =
    mkConfig (set_running false (st cfg)) (tasks cfg) (MJoin k, stack)
      (trace cfg ++ [EvLog ERROR WebSocketClosed]).
Proof.
  intros Hat Hk Hlive. cbn [step]. rewrite Hat.
  cbn [main is_ConnectionClosed]. unfold join. unfold_py. cbn. rewrite Hk.
  by destruct (pc t).
Qed.

(** One connection, from the handshake to the reconnection. *)
Lemma session_nests cfg stack c rest :
  main_at cfg = (MConnect, stack) ->
  opens (st cfg) = c :: rest -> isOpened c = true ->
  exists st' t' evs,
    run cfg (Schedules.session (length (tasks cfg))) =
      mkConfig st' (tasks cfg ++ [t']) (MConnect, InReconnect :: stack) (trace cfg ++ evs)
    /\ pc t' = PDone /\ opens st' = rest /\ running st' = false.
Proof.
  intros Hat Hop Hc. unfold Schedules.session. cbn [run fold_left].
  rewrite (step_connected cfg stack Hat).
  set (c1 := mkConfig _ _ _ _). rewrite (step_opened c1 stack c rest eq_refl Hop Hc).
  set (c2 := mkConfig _ _ _ _).
  assert (tasks c2 !! length (tasks cfg) = Some (mkTask PNew (mkLocals 0 0))) as Hk2.
  { cbn. by rewrite list_lookup_middle. }
  rewrite (step_closed_live c2 _ stack _ eq_refl Hk2 eq_refl).
  set (c3 := mkConfig _ _ _ _).
  rewrite (step_resumed_stopped c3 _ _ eq_refl Hk2). cbn [pc].
  set (c4 := mkConfig _ _ _ _).
  assert (tasks c4 = tasks cfg ++ [mkTask PDone (mkLocals 0 (clock (st c3) (ticks (st c3))))])
    as Hts4.
  { cbn. rewrite insert_app_r_alt by done. by rewrite Nat.sub_diag. }
  rewrite (step_join_done c4 (length (tasks cfg)) stack
             (mkTask PDone (mkLocals 0 (clock (st c3) (ticks (st c3))))) eq_refl);
    [|by rewrite Hts4, list_lookup_middle|done].
  rewrite Hts4. eexists _, _, _. split.
  - cbn [trace st c4 c3 c2 c1]. rewrite <- !app_assoc. reflexivity.
  - done.
Qed.

(** X16.  Every lost connection deepens the call stack: the receive loop
    that sees the connection closed stops its producer and calls
    [reconnect], which calls [start_server], whose receive loop does the
    same at the next loss.  After [n] connections that the relay closed
    as soon as they were registered, the main task is [n] calls of
    [reconnect] deep, and each connection has left its producer task
    behind, ended. *)
Theorem lost_connections_nest cs : forall cfg stack rest,
  main_at cfg = (MConnect, stack) ->
  opens (st cfg) = cs ++ rest -> Forall (fun c => isOpened c = true) cs ->
  let cfg' := run cfg (Schedules.sessions (length (tasks cfg)) (length cs)) in
  main_at cfg' = (MConnect, replicate (length cs) InReconnect ++ stack)
  /\ pc <$> tasks cfg' = (pc <$> tasks cfg) ++ replicate (length cs) PDone
  /\ opens (st cfg') = rest /\ running (st cfg') = running (st cfg) && bool_decide (cs = []).
Proof.
  induction cs as [|c cs IH]; intros cfg stack rest Hat Hop Hcs.
  - cbn. by rewrite app_nil_r, andb_true_r.
  - apply Forall_cons in Hcs as [Hc Hcs]. cbn zeta.
    cbn [length Schedules.sessions]. rewrite run_app.
    destruct (session_nests cfg stack c (cs ++ rest) Hat Hop Hc)
      as (st1 & t1 & evs1 & -> & Hpc1 & Hop1 & Hrun1).
    set (c1 := mkConfig _ _ _ _).
    destruct (IH c1 (InReconnect :: stack) rest eq_refl Hop1 Hcs) as (H1 & H2 & H3 & H4).
    cbn [tasks c1] in *. rewrite length_app in *. cbn [length] in *.
    replace (length (tasks cfg) + 1)%nat with (S (length (tasks cfg))) in * by lia.
    rewrite H1, H2, H3, H4. repeat split.
    + by rewrite replicate_S_end, <- app_assoc.
    + rewrite fmap_app. cbn. rewrite Hpc1. by rewrite <- app_assoc.
    + cbn [st c1]. rewrite Hrun1. by rewrite andb_false_r.
Qed.

End Sessions.

(** ** The order of the messages of server4.py *)

Section Order.
Context {frame jpeg : Type} {CV : Cv2 frame jpeg} {JS : Json}.
Implicit Types (cfg : Server4.config frame) (t : list event).
Import Server4.

Lemma well_opened_app b t1 t2 :
  well_opened b (t1 ++ t2) =
    well_opened b t1 && well_opened (b || existsb registers t1) t2.
Proof.
  revert b. induction t1 as [|e t1 IH]; intros b; cbn.
  - by rewrite orb_false_r.
  - destruct e as [| |[]|]; cbn; rewrite ?IH, ?orb_false_r, ?orb_true_r; try done.
    by rewrite andb_assoc.
Qed.

Lemma well_opened_registered t : well_opened true t = true.
Proof. induction t as [|[| |[]|] t IH]; by cbn. Qed.

Lemma well_opened_quiet b t : Forall no_stream t -> well_opened b t = true.
Proof.
  intros Ht. revert b. induction Ht as [|e t He Ht IH]; intros b; [done|].
  destruct e as [| |[]|]; by cbn.
Qed.

Lemma opened_step cfg sc : opened cfg -> opened (step cfg sc).
Proof.
  intros [Hwell Hreg]. destruct sc as [i|k i].
  - pose proof (main_task_quiet i (main_at cfg) (st cfg, tasks cfg)) as Hquiet.
    cbn [step]. destruct (main_at cfg) as [at_pc stack] eqn:Hat.
    split.
    + destruct (main _ _ _) as [[r [st' tasks']] evs]. cbn in *.
      rewrite well_opened_app, Hwell. by apply well_opened_quiet.
    + destruct Hreg as [[Hts Hpc]|Hreg].
      2:{ right. destruct (main _ _ _) as [[r [st' tasks']] evs]. cbn.
          by rewrite existsb_app, Hreg. }
      cbn [fst] in Hpc.
      assert ((at_pc = MConnect /\ i = Io Completed)
              \/ match at_pc, i with
                 | MConnect, Io Completed => False
                 | _, _ => True
                 end) as [[-> ->]|Hne].
      { destruct at_pc, i as [[|]| |]; auto. }
      * right. cbn. rewrite existsb_app. cbn. by rewrite orb_true_r.
      * left.
        destruct (main_elsewhere (tasks cfg) i at_pc stack (st cfg, tasks cfg) eq_refl Hpc Hne)
          as (Hsame & _ & Hpc').
        destruct (main _ _ _) as [[r [st' tasks']] evs]. cbn in *.
        split; [congruence|]. destruct r as [ctl| |]; cbn; [by apply Hpc'|done..].
  - cbn [step]. destruct (tasks cfg !! k) as [t0|] eqn:Hk; [|by split].
    destruct Hreg as [[Hts _]|Hreg]; [by rewrite Hts in Hk|].
    destruct (stream_video _ _ _) as [[r [st' vars']] evs]. cbn.
    split; cbn [trace].
    + rewrite well_opened_app, Hwell, Hreg. apply well_opened_registered.
    + right. by rewrite existsb_app, Hreg.
Qed.

(** X17.  From the start of [main] on, whatever the event loop does, no
    stream message is put on the wire before a registration was: a
    producer task exists only once [start_server] has sent its
    registration. *)
Theorem registration_precedes_streams s schedule :
  well_opened false (trace (run (boot s) schedule)) = true.
Proof.
  assert (opened (boot s)) as Hboot by (split; [done|by left]).
  revert Hboot. generalize (boot s). induction schedule as [|sc schedule IH].
  - by intros cfg [? _].
  - intros cfg Hcfg. apply (IH (step cfg sc)). by apply opened_step.
Qed.

End Order.

(** ** The variants that run as one coroutine *)

Section OneCoroutine.
Context {frame jpeg : Type} {CV : Cv2 frame jpeg} {JS : Json}.
Implicit Types (s : store frame) (l : locals) (rc : M (store frame) unit).

(** X18.  server3.py defines [handle_message] but nothing calls it: no
    code reads the socket.  So in every run of its [main] the selected
    flag keeps the value it had at the start, and every stream message
    reports that value, with the session's [server_id]; the registration
    bears the session's [server_id] and [name]. *)
Theorem server3_never_selects fuel s :
  is_selected (state_of (Server3.main fuel s)) = is_selected s
  /\ Forall (reports (server_id s) (name s) (Some (is_selected s)))
            (events_of (Server3.main fuel s)).
Proof.
  destruct (main3_identity (server_id s) (name s) (is_selected s) (running s) fuel s)
    as ((_ & _ & Hsel & _) & Hev & _); by repeat split.
Qed.

(** X19.  In every run of [main] of main.py and of main_my4.py, every
    registration bears the session's [server_id] and [name], and every
    stream message bears the session's [server_id] and has no
    [is_selected] field. *)
Theorem plain_variants_sign_messages fuel s :
  Forall (reports (server_id s) (name s) None) (events_of (Main.main fuel s))
  /\ Forall (reports (server_id s) (name s) None) (events_of (MainMy4.main fuel s)).
Proof.
  split.
  - by destruct (main_identity (server_id s) (name s) (is_selected s) (running s) fuel s)
      as (_ & Hev & _).
  - by destruct (my4_identity (server_id s) (name s) (is_selected s) (running s) fuel s)
      as (_ & Hev & _).
Qed.

(** X20.  The streaming loop of the one-coroutine variants is a
    [while True] without [break], so [start_server] returns normally in
    one case only: the capture it has just created did not open (lines
    46-48 of server3.py, the same in main.py and main_my4.py).  Every
    other way out of it is an exception.  [reconnect], which leaves its
    loop when [start_server] returns, thus returns into the streaming loop
    that called it only with a capture that did not open. *)
Theorem start_server_returns_without_camera fuel s :
  (* server3.py *)
  (result_of (Server3.start_server fuel s) = Ok tt ->
   unopened (state_of (Server3.start_server fuel s)))
  /\ (result_of (Server3.reconnect fuel s) = Ok tt ->
      unopened (state_of (Server3.reconnect fuel s)))
  (* main.py *)
  /\ (result_of (Main.start_server fuel s) = Ok tt ->
      unopened (state_of (Main.start_server fuel s)))
  /\ (result_of (Main.reconnect fuel s) = Ok tt ->
      unopened (state_of (Main.reconnect fuel s)))
  (* main_my4.py *)
  /\ (result_of (MainMy4.start_server fuel s) = Ok tt ->
      unopened (state_of (MainMy4.start_server fuel s)))
  /\ (result_of (MainMy4.reconnect fuel s) = Ok tt ->
      unopened (state_of (MainMy4.reconnect fuel s))).
Proof.
  destruct (start3_returns fuel) as [Hs3 Hr3].
  destruct (start_main_returns fuel) as [Hsm Hrm].
  destruct (start_my4_returns fuel) as [Hs4 Hr4].
  repeat split.
  - apply (Hs3 s).
  - apply (Hr3 s).
  - apply (Hsm s).
  - apply (Hrm s).
  - apply (Hs4 s).
  - apply (Hr4 s).
Qed.

(** One pass of the loop of [main] around a call [start]. *)
Lemma main_pass (start rest : M (store frame) unit) s :
  (r <- try_except (start ;; ret Again)
          [(is_KeyboardInterrupt, fun _ => log INFO ShuttingDown ;; ret Break);
           (is_Exception, fun e => log ERROR (ServerError e) ;; sleep 5000 ;; ret Again)] ;;
   match r with
   | Break => ret tt
   | Again => rest
   end) s =
  match start s with
  | (Ok _, s1, t1) => after_events t1 (rest s1)
  | (Raise e, s1, t1) =>
      if is_KeyboardInterrupt e then (Ok tt, s1, t1 ++ [EvLog INFO ShuttingDown])
      else after_events (t1 ++ [EvLog ERROR (ServerError e); EvSleep 5000]) (rest s1)
  | (Hang, s1, t1) => (Hang, s1, t1)
  end.
Proof.
  unfold_py. destruct (start s) as [[[[]|e|] s1] t1]; cbn.
  - rewrite app_nil_r. by destruct (rest s1) as [[r2 s2] t2].
  - destruct e; cbn; try done; destruct (rest s1) as [[r2 s2] t2]; cbn;
      by rewrite <- app_assoc.
  - done.
Qed.

Lemma shut_down_after {A} pre (out : res A * store frame * list event) :
  shut_down out -> shut_down (after_events pre out).
Proof.
  destruct out as [[[a|e|] s1] t1]; cbn; try done.
  intros [t ->]. exists (pre ++ t). by rewrite app_assoc.
Qed.

Lemma main_pass_shut_down (start rest : M (store frame) unit) s :
  (forall s1, shut_down (rest s1)) ->
  shut_down (match start s with
             | (Ok _, s1, t1) => after_events t1 (rest s1)
             | (Raise e, s1, t1) =>
                 if is_KeyboardInterrupt e
                 then (Ok tt, s1, t1 ++ [EvLog INFO ShuttingDown])
                 else after_events (t1 ++ [EvLog ERROR (ServerError e); EvSleep 5000])
                                   (rest s1)
             | (Hang, s1, t1) => (Hang, s1, t1)
             end).
Proof.
  intros Hrest. destruct (start s) as [[[[]|e|] s1] t1]; [| |done].
  - by apply shut_down_after.
  - destruct (is_KeyboardInterrupt e); [by eexists|]. by apply shut_down_after.
Qed.

(** X21.  [main] of the one-coroutine variants absorbs every [Exception]
    that [start_server] raises, and calls it again after a normal return:
    no [Exception] leaves [main], and when [main] returns, the last thing
    it did was to log the shutdown, on a [KeyboardInterrupt]. *)
Theorem main_ends_only_on_interrupt fuel s :
  shut_down (Server3.main fuel s) /\ shut_down (Main.main fuel s)
  /\ shut_down (MainMy4.main fuel s).
Proof.
  split; [|split]; revert s; induction fuel as [|fuel IH]; intros s; try done.
  - cbn [Server3.main]. rewrite main_pass. by apply main_pass_shut_down.
  - cbn [Main.main]. rewrite main_pass. by apply main_pass_shut_down.
  - cbn [MainMy4.main]. rewrite main_pass. by apply main_pass_shut_down.
Qed.

Lemma start3_refused n s e rest :
  net s = Raised e :: rest -> is_Exception e = true ->
  Server3.start_server (S n) s =
    (Raise e, set_net rest s,
     [EvLog INFO StartingServer; EvConnect; EvLog ERROR (FailedToConnect e)]).
Proof.
  intros Hn He. cbn [Server3.start_server]. unfold connect, await_net. unfold_py.
  cbn. rewrite Hn. cbn. by rewrite He.
Qed.

Lemma start_main_refused n s e rest :
  net s = Raised e :: rest -> is_Exception e = true ->
  Main.start_server (S n) s =
    (Raise e, set_net rest s,
     [EvLog INFO StartingServer; EvConnect; EvLog ERROR (FailedToConnect e)]).
Proof.
  intros Hn He. cbn [Main.start_server]. unfold connect, await_net. unfold_py.
  cbn. rewrite Hn. cbn. by rewrite He.
Qed.

Lemma start_my4_refused n s e rest :
  net s = Raised e :: rest -> is_Exception e = true ->
  MainMy4.start_server (S n) s =
    (Raise e, set_net rest s,
     [EvLog INFO StartingServer; EvConnect; EvLog ERROR (FailedToConnect e)]).
Proof.
  intros Hn He. cbn [MainMy4.start_server]. unfold connect, await_net. unfold_py.
  cbn. rewrite Hn. cbn. by rewrite He.
Qed.

Lemma set_net_same s : set_net (net s) s = s.
Proof. by destruct s. Qed.

Lemma after_no_events {S A} (x : res A * S * list event) : after_events [] x = x.
Proof. by destruct x as [[r s1] t1]. Qed.

(** [n] refusals seen by a loop of [main] whose [start_server] answers a
    refusal as the three variants do. *)
Lemma retry_flat (main start : nat -> M (store frame) unit) e :
  is_Exception e = true ->
  (forall k s, main (S k) s =
     match start k s with
     | (Ok _, s1, t1) => after_events t1 (main k s1)
     | (Raise e, s1, t1) =>
         if is_KeyboardInterrupt e then (Ok tt, s1, t1 ++ [EvLog INFO ShuttingDown])
         else after_events (t1 ++ [EvLog ERROR (ServerError e); EvSleep 5000]) (main k s1)
     | (Hang, s1, t1) => (Hang, s1, t1)
     end) ->
  (forall k s rest, net s = Raised e :: rest ->
     start (S k) s =
       (Raise e, set_net rest s,
        [EvLog INFO StartingServer; EvConnect; EvLog ERROR (FailedToConnect e)])) ->
  forall n m s rest,
    net s = replicate n (Raised e) ++ rest ->
    main (n + S m)%nat s =
      after_events (mjoin (replicate n (retried e))) (main (S m) (set_net rest s)).
Proof.
  intros He Hmain Hstart. induction n as [|n IH]; intros m s rest Hn.
  - cbn in *. by rewrite <- Hn, set_net_same, after_no_events.
  - cbn [Nat.add]. rewrite Hmain. rewrite Nat.add_succ_r.
    rewrite (Hstart _ s (replicate n (Raised e) ++ rest) Hn).
    assert (is_KeyboardInterrupt e = false) as -> by (by destruct e).
    rewrite <- Nat.add_succ_r.
    rewrite (IH m (set_net (replicate n (Raised e) ++ rest) s) rest eq_refl).
    rewrite after_events_twice. reflexivity.
Qed.

(** X22.  As long as the relay refuses the connection, [main] of the
    one-coroutine variants retries: [n] refusals in a row give [n] times
    the same five events -- the start, the connection attempt, the two
    error records, [sleep(5)] -- with no ceiling on the attempts and no
    growth of the delay, and then [main] goes on as from a fresh start. *)
Theorem one_coroutine_retries_flat e n m s rest :
  is_Exception e = true -> net s = replicate n (Raised e) ++ rest ->
  Server3.main (n + S m) s =
    after_events (mjoin (replicate n (retried e))) (Server3.main (S m) (set_net rest s))
  /\ Main.main (n + S m) s =
       after_events (mjoin (replicate n (retried e))) (Main.main (S m) (set_net rest s))
  /\ MainMy4.main (n + S m) s =
       after_events (mjoin (replicate n (retried e))) (MainMy4.main (S m) (set_net rest s)).
Proof.
  intros He Hn. split; [|split].
  - apply (retry_flat Server3.main Server3.start_server e He); [| |done].
    + intros k s0. cbn [Server3.main]. apply main_pass.
    + intros k s0 rest0 Hn0. by apply start3_refused.
  - apply (retry_flat Main.main Main.start_server e He); [| |done].
    + intros k s0. cbn [Main.main]. apply main_pass.
    + intros k s0 rest0 Hn0. by apply start_main_refused.
  - apply (retry_flat MainMy4.main MainMy4.start_server e He); [| |done].
    + intros k s0. cbn [MainMy4.main]. apply main_pass.
    + intros k s0 rest0 Hn0. by apply start_my4_refused.
Qed.

Lemma stream_iter_main_read_raises rc s l c c' e :
  cap s = Some c -> cap_read c = (Raise e, c') ->
  Main.stream_iter rc (s, l) = handled rc e (set_cap (Some c') s, l) [].
Proof.
  intros Hc Hr. unfold Main.stream_iter. rewrite handlers_eq.
  unfold read_frame. unfold_py. cbn. by rewrite Hc, Hr.
Qed.

Lemma stream_iter_my4_read_raises rc s l c c' e :
  cap s = Some c -> cap_read c = (Raise e, c') ->
  MainMy4.stream_iter rc (s, l) = handled rc e (set_cap (Some c') s, l) [].
Proof.
  intros Hc Hr. unfold MainMy4.stream_iter. rewrite handlers_eq.
  unfold read_frame. unfold_py. cbn. by rewrite Hc, Hr.
Qed.

(** X23.  The streaming loops of main.py and main_my4.py treat failures
    as the loop of server3.py does: a read, an encode or a send that
    raises an [Exception] other than [ConnectionClosed] is logged, the
    loop sleeps one second and goes on (a frame that was read is lost).
    A camera read of main.py that returns no frame is logged as a warning
    and retried at once, without delay. *)
Theorem plain_loops_back_off e rc s l c c' :
  is_Exception e = true -> is_ConnectionClosed e = false -> cap s = Some c ->
  (* the read raises *)
  (cap_read c = (Raise e, c') ->
   Main.stream_iter rc (s, l) = (Ok tt, (set_cap (Some c') s, l), backoff_events e)
   /\ MainMy4.stream_iter rc (s, l) = (Ok tt, (set_cap (Some c') s, l), backoff_events e))
  (* the encoder raises *)
  /\ (forall f,
        cap_read c = (Ok (Some f), c') -> cv_imencode f [] = Raise e ->
        Main.stream_iter rc (s, l) =
          (Ok tt, grabbed s c' l, count_events s l ++ backoff_events e)
        /\ MainMy4.stream_iter rc (s, l) =
             (Ok tt, grabbed s c' l, count_events s l ++ backoff_events e))
  (* the send raises *)
  /\ (forall f buffer rest,
        cap_read c = (Ok (Some f), c') -> cv_imencode f [] = Ok buffer ->
        net s = Raised e :: rest ->
        Main.stream_iter rc (s, l) =
          (Ok tt, (set_net rest (fst (grabbed s c' l)), counted s l),
           (count_events s l ++ [stream_plain s buffer]) ++ backoff_events e)
        /\ MainMy4.stream_iter rc (s, l) =
             (Ok tt, (set_net rest (fst (grabbed s c' l)), counted s l),
              (count_events s l ++ [stream_plain s buffer]) ++ backoff_events e))
  (* the read returns no frame: main.py *)
  /\ (cap_read c = (Ok None, c') ->
      Main.stream_iter rc (s, l) =
        (Ok tt, (set_cap (Some c') s, l), [EvLog WARNING FailedToReadFrame])).
Proof.
  intros He Hcc Hc. split; [|split; [|split]].
  - intros Hr. rewrite (stream_iter_main_read_raises rc s l c c' e Hc Hr).
    rewrite (stream_iter_my4_read_raises rc s l c c' e Hc Hr).
    by rewrite handled_backoff.
  - intros f Hr Henc. rewrite (stream_iter_main_grab rc s l c c' f Hc Hr).
    rewrite (stream_iter_my4_grab rc s l c c' f Hc Hr).
    by rewrite Henc, handled_backoff.
  - intros f buffer rest Hr Henc Hn. rewrite (stream_iter_main_grab rc s l c c' f Hc Hr).
    rewrite (stream_iter_my4_grab rc s l c c' f Hc Hr).
    by rewrite Henc, Hn, handled_backoff.
  - intros Hr. by apply (stream_iter_main_no_frame rc s l c c').
Qed.

End OneCoroutine.

Section Spinning.
Context {frame jpeg : Type} {CV : Cv2 frame jpeg} {JS : Json}.
Implicit Types (s : store frame) (l : locals) (rc : M (store frame) unit).

Lemma set_cap_same s : set_cap (cap s) s = s.
Proof. by destruct s. Qed.

Lemma stream_loop_main_S n rc x :
  Main.stream_loop (S n) rc x =
    match Main.stream_iter rc x with
    | (Ok _, st, evs) => after_events evs (Main.stream_loop n rc st)
    | (Raise e, st, evs) => (Raise e, st, evs)
    | (Hang, st, evs) => (Hang, st, evs)
    end.
Proof.
  cbn [Main.stream_loop]. unfold bind, after_events.
  by destruct (Main.stream_iter rc x) as [[[[]|e|] st] evs].
Qed.

(** X24.  On a capture that did not open, every read returns no frame,
    and a pass through the streaming loop of a one-coroutine variant
    awaits nothing: however many passes are taken, no message is sent and
    no sleep is taken; server3.py logs nothing either, main.py logs a
    warning per pass and main_my4.py the end of the video.  The loop spins
    without giving control back to the event loop. *)
Theorem unopened_capture_spins n rc s l :
  cap s = Some Unopened ->
  Server3.stream_loop n rc (s, l) = (Hang, (s, l), [])
  /\ Main.stream_loop n rc (s, l) =
       (Hang, (s, l), replicate n (EvLog WARNING FailedToReadFrame))
  /\ MainMy4.stream_loop n rc (s, l) =
       (Hang, (s, l), replicate n (EvLog INFO EndOfVideo)).
Proof.
  intros Hc.
  assert (set_cap (Some Unopened) s = s) as Hs by (by rewrite <- Hc, set_cap_same).
  split; [|split]; induction n as [|n IH]; try done.
  - rewrite stream_loop3_S.
    rewrite (stream_iter3_no_frame rc s l Unopened Unopened Hc eq_refl).
    by rewrite Hs, IH.
  - rewrite stream_loop_main_S.
    rewrite (stream_iter_main_no_frame rc s l Unopened Unopened Hc eq_refl).
    by rewrite Hs, IH.
  - rewrite stream_loop_my4_S.
    rewrite (stream_iter_my4_end rc s l Unopened Unopened Hc eq_refl).
    cbn [cap_rewind]. by rewrite Hs, IH.
Qed.

End Spinning.

(** * The claims on the test bench *)

Import Lab.

(** ** The variants at work *)

(** main_my4.py on a two-frame file: connect, register, play the file,
    rewind, play it again and rewind, as far as the fuel goes. *)
Example main_my4_plays_the_clip :
  events_of (MainMy4.main 8 (init "Video Stream Server" "vid-1"
                               (replicate 6 Completed) [File Lab.clip 0]
                               Lab.seconds_clock)) =
    [EvLog INFO StartingServer; EvConnect; EvLog INFO ConnectedToRelay;
     EvSend (Register "vid-1" "Video Stream Server"); EvLog INFO (Registered "vid-1");
     EvSend (Stream "vid-1" "640x480" None); EvSleep 33;
     EvSend (Stream "vid-1" "320x200" None); EvSleep 33;
     EvLog INFO EndOfVideo;
     EvSend (Stream "vid-1" "640x480" None); EvSleep 33;
     EvSend (Stream "vid-1" "320x200" None); EvSleep 33;
     EvLog INFO EndOfVideo].
Proof. reflexivity. Qed.

(** server3.py: the connection closes under the first stream message, the
    loop reconnects, the relay refuses once, and the second attempt finds
    no camera. *)
Example server3_reconnects_from_its_loop :
  events_of (Server3.main 6 (init "Camera 1" "cam-1"
                               [Completed; Completed; Raised ConnectionClosed;
                                Raised (PyError "OSError"); Completed; Completed]
                               [Device [Grab Lab.colour]; Unopened]
                               Lab.seconds_clock)) =
    [EvLog INFO StartingServer; EvConnect; EvSend (Register "cam-1" "Camera 1");
     EvSend (Stream "cam-1" "linear 160x120 quality=75" (Some (PyBool false)));
     EvLog ERROR WebSocketClosed; EvLog INFO AttemptingReconnect;
     EvLog INFO StartingServer; EvConnect;
     EvLog ERROR (FailedToConnect (PyError "OSError"));
     EvLog ERROR (ReconnectionFailed (PyError "OSError")); EvSleep 5000;
     EvLog INFO AttemptingReconnect; EvLog INFO StartingServer; EvConnect;
     EvSend (Register "cam-1" "Camera 1"); EvLog ERROR FailedToOpenCamera].
Proof. reflexivity. Qed.

(** server4.py: connect, register, stream a thumbnail, get selected, pace
    and stream in high quality, then lose the connection: the producer
    backs off, the receive loop stops it and reconnects. *)
Example server4_session :
  let c :=
    Server4.run (Server4.boot (Lab.camera_world [Grab Lab.colour; Grab Lab.colour] []))
      [Server4.Main (Server4.Io Completed); Server4.Main (Server4.Io Completed);
       Server4.Task 0 Completed; Server4.Main (Server4.Message Lab.select_on);
       Server4.Task 0 Completed; Server4.Task 0 Completed;
       Server4.Task 0 (Raised ConnectionClosed);
       Server4.Main (Server4.Io (Raised ConnectionClosed));
       Server4.Task 0 Completed; Server4.Main (Server4.Io Completed)] in
  Server4.main_at c = (Server4.MConnect, [Server4.InReconnect; Server4.InMain])
  /\ Server4.pc <$> Server4.tasks c = [Server4.PDone]
  /\ Server4.trace c =
       [EvLog INFO StartingServer; EvConnect; EvLog INFO ConnectedToRelay;
        EvSend (Register "cam-1" "Camera 1"); EvLog INFO (Registered "cam-1");
        EvSend (Stream "cam-1" "area 80x60 quality=85 optimize=1" (Some (PyBool false)));
        EvLog INFO (SelectionChanged (PyBool false) (PyBool true));
        EvSleep 33;
        EvSend (Stream "cam-1"
                  "denoise sharpen lanczos4 320x240 quality=98 optimize=1 progressive=1"
                  (Some (PyBool true)));
        EvLog ERROR (ErrorDuringStreaming ConnectionClosed); EvSleep 1000;
        EvLog ERROR WebSocketClosed;
        EvLog INFO AttemptingReconnect; EvLog INFO StartingServer; EvConnect].
Proof. repeat split. Qed.


Lemma select_applied_by_variant_witness :
  is_selected (state_of (Server4.handle_message select_on_other idle)) = PyBool true
  /\ is_selected (state_of (Server3.handle_message select_on_other idle)) = PyBool false.
Proof.
  exact (select_applied_by_variant select_on_other
           [("type", PyStr "select"); ("server_id", PyStr "cam-2");
            ("selected", PyBool true)]
           idle eq_refl eq_refl).
Defined.

(** C1 as the specification words it fails on both variants: server3.py
    ignores a selection message that names no session, server4.py obeys
    one that names another session. *)
Lemma select_differs_from_setSelected_spec :
  is_selected (state_of (Server3.handle_message select_on idle))
    <> setSelected_spec "cam-1" None (PyBool true) (is_selected idle)
  /\ is_selected (state_of (Server4.handle_message select_on_other idle))
    <> setSelected_spec "cam-1" (Some (PyStr "cam-2")) (PyBool true) (is_selected idle).
Proof. split; vm_compute; discriminate. Qed.

Lemma select_without_value_clears_witness :
  let s := streaming (PyBool true) [] [] in
  is_selected (state_of (Server4.handle_message select_bare s)) = PyBool false
  /\ is_selected (state_of (Server3.handle_message select_bare s)) = PyBool false.
Proof.
  intros s.
  destruct (select_without_value_clears (JS := json) select_bare
              [("type", PyStr "select"); ("server_id", PyStr "cam-1")]
              s ltac:(reflexivity) ltac:(reflexivity) ltac:(reflexivity)) as [H4 H3].
  rewrite H4, (H3 ltac:(reflexivity)). split; reflexivity.
Defined.

Lemma resize_by_frame_on_the_bench : resize_by_frame (CV := cv).
Proof.
  intros f thumbnail. cbn. destruct (empty f); [discriminate|]. by eexists.
Qed.

Lemma enhancement_failure_falls_back_witness :
  let s := streaming (PyBool true) [Grab grey] [] in
  Server4.process_high_quality_frame grey s =
    (Ok (mkImage 320 240 1 ["area"]), s,
     [EvLog ERROR (ErrorProcessingHighQuality cv_error)])
  /\ events_of (Server4.until_send (s, vars0)) =
       [EvLog ERROR (ErrorProcessingHighQuality cv_error);
        EvSend (Stream "cam-1" "area 320x240 quality=98 optimize=1 progressive=1"
                  (Some (PyBool true)))].
Proof.
  intros s.
  destruct (enhancement_failure_falls_back (CV := cv) grey (mkImage 80 60 1 ["area"])
              cv_error s resize_by_frame_on_the_bench
              ltac:(reflexivity) ltac:(reflexivity) ltac:(reflexivity))
    as (p & Hp & Hcall & Hsend).
  injection Hp as <-. split; [exact Hcall|].
  rewrite (Hsend vars0 (Device [Grab grey]) (Device [])
             (mkJpg (mkImage 320 240 1 ["area"]) Server4.selected_params)
             ltac:(reflexivity) ltac:(reflexivity) ltac:(reflexivity)
             ltac:(reflexivity)).
  reflexivity.
Defined.

(** C5 as stated fails on the record: on a one-channel frame, which the
    colour denoiser refuses, the fallback frame is returned, and what is
    logged is an error, not a warning. *)
Lemma enhancement_failure_is_logged_as_error :
  Server4.process_high_quality_frame grey idle =
    (Ok (mkImage 320 240 1 ["area"]), idle,
     [EvLog ERROR (ErrorProcessingHighQuality cv_error)])
  /\ ~ Exists (fun ev => exists m, ev = EvLog WARNING m)
         (events_of (Server4.process_high_quality_frame grey idle)).
Proof.
  split; [reflexivity|]. intros Hw. cbn in Hw.
  apply Exists_cons in Hw as [[m Hm]|Hw]; [discriminate Hm|]. by apply Exists_nil in Hw.
Qed.

Lemma pacing_follows_flag_witness :
  Server4.trace (Server4.step (online (PyBool true) []) (Server4.Task 0 Completed)) =
    [EvSleep 33]
  /\ events_of (Server3.stream_iter (ret tt)
                  (streaming (PyBool false) [Grab colour] [Completed], vars0)) =
       [EvSend (Stream "cam-1" "linear 160x120 quality=75" (Some (PyBool false)));
        EvSleep 100]
  /\ events_of (Main.stream_iter (ret tt)
                  (streaming (PyBool false) [Grab colour] [Completed], vars0)) =
       [EvSend (Stream "cam-1" "640x480" None); EvSleep 33].
Proof.
  exact (pacing_follows_flag (online (PyBool true) []) 0
           (Server4.mkTask Server4.PSend vars0) (ret tt)
           (streaming (PyBool false) [Grab colour] [Completed]) vars0
           (Device [Grab colour]) (Device []) colour
           (mkJpg (mkImage 160 120 3 ["linear"]) [(IMWRITE_JPEG_QUALITY, 75)])
           (mkJpg colour []) []
           eq_refl eq_refl eq_refl eq_refl eq_refl eq_refl eq_refl).
Defined.

(** The pacing delay is decided by a third read of the flag, after the
    send: a selection that arrives while the thumbnail is being sent makes
    the producer pace at 33 ms after a thumbnail. *)
Example pacing_rereads_flag :
  Server4.trace
    (Server4.run (pacing (PyBool false) [Grab colour])
       [Server4.Task 0 Completed; Server4.Main (Server4.Message select_on);
        Server4.Task 0 Completed]) =
    [EvSend (Stream "cam-1" "area 80x60 quality=85 optimize=1" (Some (PyBool false)));
     EvLog INFO (SelectionChanged (PyBool false) (PyBool true));
     EvSleep 33].
Proof. reflexivity. Qed.

Lemma untorn_but_not_captured_witness :
  let cfg := pacing (PyBool false) [Grab colour] in
  Server4.trace (Server4.step cfg (Server4.Task 0 Completed)) =
    [EvSend (Stream "cam-1" "area 80x60 quality=85 optimize=1" (Some (PyBool false)))]
  /\ Server4.trace (Server4.step (online (PyBool true) []) (Server4.Task 0 Completed)) =
       [EvSleep 33].
Proof.
  intros cfg.
  destruct (untorn_but_not_captured (CV := cv) (JS := json) cfg 0
              (Server4.mkTask Server4.PPace vars0) ltac:(reflexivity))
    as (_ & Hsend & _).
  destruct (untorn_but_not_captured (CV := cv) (JS := json) (online (PyBool true) []) 0
              (Server4.mkTask Server4.PSend vars0) ltac:(reflexivity))
    as (_ & _ & Hpace).
  split.
  - rewrite (Hsend (Device [Grab colour]) (Device []) colour
               (mkJpg (mkImage 80 60 3 ["area"]) Server4.unselected_params) []
               ltac:(left; reflexivity) ltac:(reflexivity) ltac:(reflexivity)
               ltac:(reflexivity) ltac:(reflexivity)).
    reflexivity.
  - exact (Hpace ltac:(reflexivity)).
Defined.

(** C3 as stated fails on 'captured once per iteration': in the iteration
    above no single value decides both what the message reports and how
    long the iteration pauses. *)
Lemma flag_is_not_captured_once :
  let iteration :=
    Server4.trace
      (Server4.run (pacing (PyBool false) [Grab colour])
         [Server4.Task 0 Completed; Server4.Main (Server4.Message select_on);
          Server4.Task 0 Completed]) in
  ~ exists v, Forall (captured_once_spec v) iteration.
Proof.
  cbn zeta. intros [v Hv]. rewrite pacing_rereads_flag in Hv.
  apply Forall_cons in Hv as [Hflag Hv]. apply Forall_cons in Hv as [_ Hv].
  apply Forall_cons in Hv as [Hsleep _]. cbn in Hflag, Hsleep.
  injection Hflag as <-. discriminate Hsleep.
Qed.

Lemma closed_send_by_variant_witness :
  let cfg := online (PyBool false) [] in
  let s := streaming (PyBool false) [Grab colour] [Raised ConnectionClosed] in
  Server4.trace
    (Server4.run cfg
       [Server4.Task 0 (Raised ConnectionClosed);
        Server4.Main (Server4.Io (Raised ConnectionClosed));
        Server4.Task 0 Completed;
        Server4.Main (Server4.Io Completed)]) =
    [EvLog ERROR (ErrorDuringStreaming ConnectionClosed); EvSleep 1000;
     EvLog ERROR WebSocketClosed; EvLog INFO AttemptingReconnect;
     EvLog INFO StartingServer; EvConnect]
  /\ events_of (Server3.stream_iter (log INFO AttemptingReconnect) (s, vars0)) =
       [EvSend (Stream "cam-1" "linear 160x120 quality=75" (Some (PyBool false)));
        EvLog ERROR WebSocketClosed; EvLog INFO AttemptingReconnect]
  /\ events_of (Main.stream_iter (log INFO AttemptingReconnect) (s, vars0)) =
       [EvSend (Stream "cam-1" "640x480" None);
        EvLog ERROR WebSocketClosed; EvLog INFO AttemptingReconnect].
Proof.
  intros cfg s.
  destruct (closed_send_by_variant (CV := cv) cfg 0
              (Server4.mkTask Server4.PSend vars0) [Server4.InMain]
              (log INFO AttemptingReconnect) s vars0
              (Device [Grab colour]) (Device []) colour
              (mkJpg (mkImage 160 120 3 ["linear"]) [(IMWRITE_JPEG_QUALITY, 75)])
              (mkJpg colour []) []
              ltac:(reflexivity) ltac:(reflexivity) ltac:(reflexivity)
              ltac:(reflexivity) ltac:(reflexivity) ltac:(reflexivity)
              ltac:(reflexivity) ltac:(reflexivity))
    as (_ & _ & _ & _ & _ & Htrace & H3 & Hm).
  split; [exact Htrace|]. rewrite H3, Hm. split; reflexivity.
Defined.

(** C2 as stated fails on server4.py: after its send observed
    ConnectionClosed the producer is still in its loop, asleep for a
    second, and [running] is still true. *)
Lemma producer_stays_after_closed_send :
  let after := Server4.step (online (PyBool false) [])
                            (Server4.Task 0 (Raised ConnectionClosed)) in
  running (Server4.st after) = true
  /\ Server4.pc <$> Server4.tasks after !! 0%nat = Some Server4.PBackoff
  /\ Server4.trace after =
       [EvLog ERROR (ErrorDuringStreaming ConnectionClosed); EvSleep 1000].
Proof. repeat split. Qed.



Lemma encode_tiers_by_variant_witness :
  let hi := streaming (PyBool true) [Grab colour] [Completed] in
  let lo := streaming (PyBool false) [Grab colour] [Completed] in
  events_of (Server4.until_send (hi, vars0)) =
    [EvSend (Stream "cam-1"
               "denoise sharpen lanczos4 320x240 quality=98 optimize=1 progressive=1"
               (Some (PyBool true)))]
  /\ events_of (Server4.until_send (lo, vars0)) =
       [EvSend (Stream "cam-1" "area 80x60 quality=85 optimize=1" (Some (PyBool false)))]
  /\ events_of (Server3.stream_iter (ret tt) (hi, vars0)) =
       [EvSend (Stream "cam-1" "linear 640x480 quality=90" (Some (PyBool true)));
        EvSleep 33]
  /\ events_of (Server3.stream_iter (ret tt) (lo, vars0)) =
       [EvSend (Stream "cam-1" "linear 160x120 quality=75" (Some (PyBool false)));
        EvSleep 100].
Proof.
  intros hi lo.
  destruct (encode_tiers_by_variant (CV := cv) hi vars0 (Device [Grab colour]) (Device [])
              colour ltac:(reflexivity) ltac:(reflexivity)) as (H4 & _ & H3 & _).
  destruct (encode_tiers_by_variant (CV := cv) lo vars0 (Device [Grab colour]) (Device [])
              colour ltac:(reflexivity) ltac:(reflexivity)) as (_ & L4 & _ & L3).
  split; [|split; [|split]].
  - rewrite (H4 (mkImage 80 60 3 ["area"]) (mkImage 640 480 3 ["denoise"])
               (mkImage 640 480 3 ["denoise"; "sharpen"])
               (mkImage 320 240 3 ["denoise"; "sharpen"; "lanczos4"])
               (mkJpg (mkImage 320 240 3 ["denoise"; "sharpen"; "lanczos4"])
                      Server4.selected_params)
               ltac:(reflexivity) ltac:(reflexivity) ltac:(reflexivity)
               ltac:(reflexivity) ltac:(reflexivity) ltac:(reflexivity)).
    reflexivity.
  - rewrite (L4 (mkImage 80 60 3 ["area"])
               (mkJpg (mkImage 80 60 3 ["area"]) Server4.unselected_params)
               ltac:(reflexivity) ltac:(reflexivity) ltac:(reflexivity)).
    reflexivity.
  - rewrite (H3 (ret tt) [] (mkImage 160 120 3 ["linear"]) (mkImage 640 480 3 ["linear"])
               (mkJpg (mkImage 640 480 3 ["linear"]) [(IMWRITE_JPEG_QUALITY, 90)])
               ltac:(reflexivity) ltac:(reflexivity) ltac:(reflexivity)
               ltac:(reflexivity) ltac:(reflexivity)).
    reflexivity.
  - rewrite (L3 (ret tt) [] (mkImage 160 120 3 ["linear"])
               (mkJpg (mkImage 160 120 3 ["linear"]) [(IMWRITE_JPEG_QUALITY, 75)])
               ltac:(reflexivity) ltac:(reflexivity) ltac:(reflexivity)
               ltac:(reflexivity)).
    reflexivity.
Defined.

(** C4 as stated fails on server3.py: its selected tier neither denoises
    nor sharpens and passes no progressive flag, and neither tier passes
    the optimize flag. *)
Lemma server3_tiers_are_plain :
  events_of (Server3.stream_iter (ret tt)
               (streaming (PyBool true) [Grab colour] [Completed], vars0)) =
    [EvSend (Stream "cam-1" "linear 640x480 quality=90" (Some (PyBool true)));
     EvSleep 33]
  /\ events_of (Server3.stream_iter (ret tt)
                  (streaming (PyBool false) [Grab colour] [Completed], vars0)) =
       [EvSend (Stream "cam-1" "linear 160x120 quality=75" (Some (PyBool false)));
        EvSleep 100].
Proof. split; reflexivity. Qed.

Lemma file_source_rewinds_witness :
  MainMy4.stream_iter (ret tt) (playing 2 [], vars0) =
    (Ok tt, (playing 0 [], vars0), [EvLog INFO EndOfVideo])
  /\ read_frame (playing 0 []) = (Ok (Some colour), playing 1 [], [])
  /\ sent (events_of (MainMy4.stream_loop 6 (ret tt)
                        (playing 0 (replicate 4 Completed), vars0))) =
       ["640x480"; "320x200"; "640x480"; "320x200"].
Proof.
  destruct (file_source_rewinds (CV := cv) clip clip_encoded colour [title] 2 (ret tt)
              (playing 2 []) vars0
              ltac:(reflexivity) ltac:(cbn; lia) ltac:(reflexivity)
              ltac:(repeat constructor))
    as (Hend & Hnext & Hloop).
  split; [exact Hend|]. split; [exact Hnext|].
  exact (Hloop 2%nat (playing 0 (replicate 4 Completed)) vars0
           ltac:(reflexivity) ltac:(reflexivity)).
Defined.



(** * The further properties on the test bench *)

Import Traffic.


Lemma other_message_is_dropped_witness :
  Server4.handle_message (H := relay) heartbeat idle = (Ok tt, idle, [])
  /\ Server3.handle_message (H := relay) heartbeat idle = (Ok tt, idle, [])
  /\ Server3.handle_message (H := relay) select_on_other idle = (Ok tt, idle, []).
Proof.
  destruct (other_message_is_dropped (JS := relay) heartbeat [("type", PyStr "ping")]
              idle ltac:(reflexivity)) as [Hping _].
  destruct (other_message_is_dropped (JS := relay) select_on_other
              [("type", PyStr "select"); ("server_id", PyStr "cam-2");
               ("selected", PyBool true)]
              idle ltac:(reflexivity)) as [_ Hother].
  destruct (Hping ltac:(reflexivity)) as [H4 H3].
  split; [exact H4|]. split; [exact H3|]. exact (Hother ltac:(reflexivity)).
Defined.

Lemma debug_record_ignores_whole_days_witness :
  count_frame (next_day, mkLocals 7 0) =
    (Ok tt, (set_ticks 2 next_day, mkLocals 8 0), []).
Proof.
  exact (debug_record_ignores_whole_days next_day (mkLocals 7 0) 1 3
           ltac:(reflexivity) ltac:(lia)).
Defined.

Lemma thumbnail_failure_drops_frame_witness :
  let s := streaming (PyBool true) [Grab nothing] [] in
  Server4.loop 1 (s, vars0) =
    (Ok Server4.PBackoff, grabbed s (Device []) vars0,
     [EvLog ERROR (ErrorDuringStreaming cv_error); EvSleep 1000])
  /\ Server3.stream_iter (ret tt) (s, vars0) =
       (Ok tt, grabbed s (Device []) vars0,
        [EvLog ERROR (ErrorDuringStreaming cv_error); EvSleep 1000]).
Proof.
  intros s.
  destruct (thumbnail_failure_drops_frame (CV := cv) 0 (ret tt) s vars0
              (Device [Grab nothing]) (Device []) nothing cv_error
              ltac:(reflexivity) ltac:(reflexivity) ltac:(reflexivity)) as [H4 H3].
  split.
  - exact (H4 ltac:(reflexivity) ltac:(reflexivity)).
  - exact (H3 ltac:(reflexivity) ltac:(reflexivity)).
Defined.

Lemma producer_leaves_only_when_stopped_witness :
  running (fst (state_of (Server4.stream_video Completed Server4.PPace
                            (Server4.st (closing Server4.PPace), vars0)))) = false.
Proof.
  exact (producer_leaves_only_when_stopped (CV := cv) Completed Server4.PPace
           (Server4.st (closing Server4.PPace), vars0)
           ltac:(discriminate) ltac:(reflexivity)).
Defined.

Lemma producer_survives_exceptions_witness :
  result_of (Server4.stream_video (Raised cv_error) Server4.PSend (idle, vars0))
    <> Raise cv_error.
Proof.
  apply (producer_survives_exceptions (CV := cv) (Raised cv_error) Server4.PSend
           (idle, vars0) cv_error).
  - reflexivity.
  - left. discriminate.
Defined.

Lemma stopped_producer_winds_down_witness :
  let cfg' := Server4.run (closing Server4.PSend)
                [Server4.Task 0 Completed; Server4.Task 0 Completed] in
  Server4.pc <$> Server4.tasks cfg' !! 0%nat = Some Server4.PDone
  /\ cap (Server4.st cfg') = Some (Device [Grab colour])
  /\ running (Server4.st cfg') = false
  /\ Server4.trace cfg' = [EvSleep 33].
Proof.
  exact (stopped_producer_winds_down (CV := cv) (JS := json) (closing Server4.PSend) 0
           (Server4.mkTask Server4.PSend vars0)
           ltac:(reflexivity) ltac:(reflexivity) ltac:(reflexivity)).
Defined.


Lemma interrupt_unwinds_to_exit_witness :
  let exited := Server4.step nested_session
                  (Server4.Main (Server4.Io (Raised KeyboardInterrupt))) in
  Server4.main_at exited = (Server4.MExit, [Server4.InMain])
  /\ running (Server4.st exited) = true
  /\ Server4.trace exited = [EvLog INFO ShuttingDown]
  /\ Server4.step exited (Server4.Main (Server4.Io Completed)) = exited.
Proof.
  cbn zeta.
  destruct (interrupt_unwinds_to_exit (CV := cv) (JS := json) nested_session
              (Server4.MRecv 0) 2 ltac:(reflexivity)
              (or_intror (or_intror (ex_intro _ 0%nat eq_refl)))) as [Hexit Hstay].
  split; [|split; [|split]].
  - rewrite Hexit. reflexivity.
  - rewrite Hexit. reflexivity.
  - rewrite Hexit. reflexivity.
  - exact (Hstay (Server4.Io Completed)).
Defined.

Lemma refused_connections_retry_flat_witness :
  let cfg' := Server4.run (Server4.boot (camera_world [] []))
                (mjoin (replicate 2 (Schedules.refused refusal))) in
  Server4.main_at cfg' = (Server4.MConnect, [Server4.InMain])
  /\ Server4.trace cfg' =
       [EvLog INFO StartingServer; EvConnect;
        EvLog ERROR (FailedToConnect refusal); EvLog ERROR (ServerError refusal);
        EvSleep 5000; EvLog INFO StartingServer; EvConnect;
        EvLog ERROR (FailedToConnect refusal); EvLog ERROR (ServerError refusal);
        EvSleep 5000; EvLog INFO StartingServer; EvConnect].
Proof.
  destruct (refused_connections_retry_flat (CV := cv) (JS := json) refusal 2
              (Server4.boot (camera_world [] [])) ltac:(reflexivity)) as [Hmain _].
  destruct (Hmain ltac:(reflexivity)) as (Hat & _ & Htrace).
  split; [exact Hat | exact Htrace].
Defined.

Lemma lost_connections_nest_witness :
  let cfg' := Server4.run
                (Server4.boot (init "Camera 1" "cam-1" [] [Device []; Device []]
                                 seconds_clock))
                (Schedules.sessions 0 2) in
  Server4.main_at cfg' =
    (Server4.MConnect, [Server4.InReconnect; Server4.InReconnect; Server4.InMain])
  /\ Server4.pc <$> Server4.tasks cfg' = [Server4.PDone; Server4.PDone]
  /\ opens (Server4.st cfg') = []
  /\ running (Server4.st cfg') = false.
Proof.
  exact (lost_connections_nest (CV := cv) (JS := json) [Device []; Device []]
           (Server4.boot (init "Camera 1" "cam-1" [] [Device []; Device []]
                            seconds_clock))
           [Server4.InMain] [] ltac:(reflexivity) ltac:(reflexivity)
           ltac:(repeat constructor)).
Defined.

Lemma start_server_returns_without_camera_witness :
  let s := init "Camera 1" "cam-1" [Completed; Completed] [Unopened] seconds_clock in
  unopened (state_of (Server3.start_server 2 s))
  /\ unopened (state_of (Main.start_server 2 s))
  /\ unopened (state_of (MainMy4.start_server 2 s)).
Proof.
  intros s.
  destruct (start_server_returns_without_camera (CV := cv) 2 s)
    as (H3 & _ & Hm & _ & H4 & _).
  split; [|split].
  - exact (H3 ltac:(reflexivity)).
  - exact (Hm ltac:(reflexivity)).
  - exact (H4 ltac:(reflexivity)).
Defined.

Lemma one_coroutine_retries_flat_witness :
  let s := init "Camera 1" "cam-1"
             [Raised refusal; Raised refusal; Raised KeyboardInterrupt] []
             seconds_clock in
  events_of (Server3.main 5 s) =
    retried refusal ++ retried refusal
    ++ [EvLog INFO StartingServer; EvConnect; EvLog INFO ShuttingDown].
Proof.
  intros s.
  destruct (one_coroutine_retries_flat (CV := cv) refusal 2 2 s
              [Raised KeyboardInterrupt] ltac:(reflexivity) ltac:(reflexivity))
    as [H3 _].
  change (Server3.main 5 s) with (Server3.main (2 + 3) s). rewrite H3. reflexivity.
Defined.

Lemma plain_loops_back_off_witness :
  Main.stream_iter (ret tt) (streaming (PyBool false) [ReadRaises cv_error] [], vars0) =
    (Ok tt, (streaming (PyBool false) [] [], vars0),
     [EvLog ERROR (ErrorDuringStreaming cv_error); EvSleep 1000])
  /\ events_of (MainMy4.stream_iter (ret tt)
                  (streaming (PyBool false) [Grab nothing] [], vars0)) =
       [EvLog ERROR (ErrorDuringStreaming cv_error); EvSleep 1000]
  /\ events_of (Main.stream_iter (ret tt)
                  (streaming (PyBool false) [Grab colour] [Raised refusal], vars0)) =
       [EvSend (Stream "cam-1" "640x480" None);
        EvLog ERROR (ErrorDuringStreaming refusal); EvSleep 1000]
  /\ Main.stream_iter (ret tt) (streaming (PyBool false) [NoFrame] [], vars0) =
       (Ok tt, (streaming (PyBool false) [] [], vars0),
        [EvLog WARNING FailedToReadFrame]).
Proof.
  split; [|split; [|split]].
  - destruct (plain_loops_back_off (CV := cv) cv_error (ret tt)
                (streaming (PyBool false) [ReadRaises cv_error] []) vars0
                (Device [ReadRaises cv_error]) (Device [])
                ltac:(reflexivity) ltac:(reflexivity) ltac:(reflexivity))
      as (Hread & _).
    exact (proj1 (Hread ltac:(reflexivity))).
  - destruct (plain_loops_back_off (CV := cv) cv_error (ret tt)
                (streaming (PyBool false) [Grab nothing] []) vars0
                (Device [Grab nothing]) (Device [])
                ltac:(reflexivity) ltac:(reflexivity) ltac:(reflexivity))
      as (_ & Henc & _).
    destruct (Henc nothing ltac:(reflexivity) ltac:(reflexivity)) as [_ H4].
    rewrite H4. reflexivity.
  - destruct (plain_loops_back_off (CV := cv) refusal (ret tt)
                (streaming (PyBool false) [Grab colour] [Raised refusal]) vars0
                (Device [Grab colour]) (Device [])
                ltac:(reflexivity) ltac:(reflexivity) ltac:(reflexivity))
      as (_ & _ & Hsend & _).
    destruct (Hsend colour (mkJpg colour []) [] ltac:(reflexivity) ltac:(reflexivity)
                ltac:(reflexivity)) as [Hm _].
    rewrite Hm. reflexivity.
  - destruct (plain_loops_back_off (CV := cv) cv_error (ret tt)
                (streaming (PyBool false) [NoFrame] []) vars0
                (Device [NoFrame]) (Device [])
                ltac:(reflexivity) ltac:(reflexivity) ltac:(reflexivity))
      as (_ & _ & _ & Hnone).
    exact (Hnone ltac:(reflexivity)).
Defined.

Lemma unopened_capture_spins_witness :
  Server3.stream_loop 3 (ret tt) (blind, vars0) = (Hang, (blind, vars0), [])
  /\ events_of (Main.stream_loop 3 (ret tt) (blind, vars0)) =
       [EvLog WARNING FailedToReadFrame; EvLog WARNING FailedToReadFrame;
        EvLog WARNING FailedToReadFrame]
  /\ events_of (MainMy4.stream_loop 3 (ret tt) (blind, vars0)) =
       [EvLog INFO EndOfVideo; EvLog INFO EndOfVideo; EvLog INFO EndOfVideo].
Proof.
  destruct (unopened_capture_spins (CV := cv) 3 (ret tt) blind vars0
              ltac:(reflexivity)) as (H3 & Hm & H4).
  split; [exact H3|]. rewrite Hm, H4. split; reflexivity.
Defined.

(** ** Runs that end *)

(** server3.py: the relay refuses twice, then the operator interrupts:
    [main] logs the shutdown and returns. *)
Example server3_shuts_down :
  Server3.main 5 (init "Camera 1" "cam-1"
                    [Raised refusal; Raised refusal; Raised KeyboardInterrupt] []
                    seconds_clock) =
    (Ok tt, init "Camera 1" "cam-1" [] [] seconds_clock,
     retried refusal ++ retried refusal
     ++ [EvLog INFO StartingServer; EvConnect; EvLog INFO ShuttingDown]).
Proof. reflexivity. Qed.
